(** * USB audio streaming driver (lib/usb/usbaudiostreaming.cpp)

    A shallow embedding of [CUSBAudioStreamingDevice]: interface
    configuration, sample rate setup, isochronous chunk submission, the
    feedback completion path and the chunk size computation of the three
    synchronisation disciplines, with the properties of the driver's
    specification stated over it. *)

From stdpp Require Import base list strings gmap pretty.
From Stdlib Require Import ZArith Lia.
From coqutil Require Import Z.bitblast.

Local Open Scope Z_scope.

(** ** Machine integers

    [unsigned] is 32 bits wide on every target of the library; [u16], [u8]
    and [s16] are the fixed width types of the library. A value is a [Z], the
    conversion to a type is written out. *)

Module Int.

Definition u32 (z : Z) : Z := z mod 2 ^ 32.
Definition u16 (z : Z) : Z := z mod 2 ^ 16.
Definition u8 (z : Z) : Z := z mod 2 ^ 8.
Definition s16 (z : Z) : Z := (z + 2 ^ 15) mod 2 ^ 16 - 2 ^ 15.
Definition s32 (z : Z) : Z := (z + 2 ^ 31) mod 2 ^ 32 - 2 ^ 31.

(** Little endian bytes of a value, [n] of them. *)
Fixpoint to_bytes (n : nat) (z : Z) : list Z :=
  match n with
  | O => []
  | S n' => Z.land z 255 :: to_bytes n' (Z.shiftr z 8)
  end.

(** The unsigned value of little endian bytes. *)
Fixpoint of_bytes (bs : list Z) : Z :=
  match bs with
  | [] => 0
  | b :: bs' => Z.lor (Z.land b 255) (Z.shiftl (of_bytes bs') 8)
  end.

End Int.

(** ** The supported format (the #define lines of the source) *)

Definition CHANNELS : Z := 2.
Definition SUBFRAME_SIZE : Z := 2.
Definition CHUNK_FREQUENCY : Z := 1000.

(** A byte of a buffer; reading past its end gives 0. *)
Definition byte_at (bs : list Z) (i : nat) : Z := default 0 (bs !! i).

(** [RATE2UNSIGNED]: a 3-byte sample rate as an unsigned. *)
Definition RATE2UNSIGNED (rate : list Z) : Z :=
  Z.lor (Z.lor (byte_at rate 0) (Z.shiftl (byte_at rate 1) 8))
        (Z.shiftl (byte_at rate 2) 16).

Definition DeviceNamePattern (n m : Z) : string :=
  "uaudio" +:+ pretty (Z.to_N n) +:+ "-" +:+ pretty (Z.to_N m).

(** ** Constants of the headers

    The values below are declared in circle/usb/usbaudio.h, circle/usb/usb.h
    and circle/usb/usbaudiostreaming.h, which accompany the source file; they
    are the values of the USB and USB Audio Class specifications. *)

Definition DESCRIPTOR_ENDPOINT : Z := 5.
Definition DESCRIPTOR_CS_INTERFACE : Z := 36.
Definition USB_PROTO_AUDIO_VER_200 : Z := 32.
Definition USB_AUDIO_STREAMING_GENERAL : Z := 1.
Definition USB_AUDIO_FORMAT_TYPE : Z := 2.
Definition USB_AUDIO_FORMAT_TYPE_I : Z := 1.
Definition USB_AUDIO_UNDEFINED_UNIT_ID : Z := 0.
Definition USB_AUDIO_REQ_SET_CUR : Z := 1.
Definition USB_AUDIO_REQ_RANGE : Z := 2.
Definition USB_AUDIO_REQ_GET_MIN : Z := 130.
Definition USB_AUDIO_REQ_GET_MAX : Z := 131.
Definition USB_AUDIO_CS_SAM_FREQ_CONTROL : Z := 1.
Definition USB_AUDIO_FU_MUTE_CONTROL : Z := 1.
Definition USB_AUDIO_FU_VOLUME_CONTROL : Z := 2.
Definition REQUEST_OUT : Z := 0.
Definition REQUEST_IN : Z := 128.
Definition REQUEST_CLASS : Z := 32.
Definition REQUEST_TO_INTERFACE : Z := 1.
Definition REQUEST_TO_ENDPOINT : Z := 2.

(** Modelled from the spec: the capacity of the sample rate range table,
    [MaxSampleRatesRanges] of the class declaration (a bounded sequence,
    "capacity fixed, e.g. 8"). *)
Definition MaxSampleRatesRanges : Z := 8.

(** Modelled from the spec: the capacity of the packet size table of the
    class declaration ("packets per chunk: frame-rate/1000, max 8"). *)
Definition MaxPacketsPerChunk : nat := 8.

Inductive TUSBSpeed : Type :=
| USBSpeedLow
| USBSpeedFull
| USBSpeedHigh
| USBSpeedSuper.

Definition is_full_speed (s : TUSBSpeed) : bool :=
  match s with USBSpeedFull => true | _ => false end.

Inductive TControl : Type := MuteControl | VolumeControl.

(** ** Data of the driver *)

Record TSampleRateRange : Type := mkRange {
  Min : Z;
  Max : Z;
  Resolution : Z
}.

Record TDeviceInfo : Type := mkDeviceInfo {
  TerminalType : Z;
  SampleRateRanges : Z;
  SampleRateRange : list TSampleRateRange;
  VolumeSupported : bool;
  MinVolume : Z;
  MaxVolume : Z;
  MuteSupported : bool
}.

(** A [CUSBEndpoint], made from its descriptor. *)
Record CUSBEndpoint : Type := mkEndpoint {
  ep_descriptor : list Z
}.

(** [CUSBEndpoint::GetNumber]: the low nibble of bEndpointAddress. *)
Definition GetNumber (ep : CUSBEndpoint) : Z :=
  Z.land (byte_at (ep_descriptor ep) 2) 15.

(** The member variables of [CUSBAudioStreamingDevice]. The class is declared
    in circle/usb/usbaudiostreaming.h; the members have the types that their
    prefixes name: [m_n...] is an [unsigned], [m_b...] a [boolean],
    [m_uch...] a [u8], [m_usPacketSizeBytes] an array of [u16] (the sizes go
    to [AddIsoPacket]) and [m_SyncEPBuffer] a DMA buffer of one [u32].
    [m_bVer200] and [m_bSynchronousSync] are set by [Configure]. *)
Record Device : Type := mkDevice {
  m_bVer200 : bool;
  m_pEndpointOut : option CUSBEndpoint;
  m_pEndpointSync : option CUSBEndpoint;
  m_bSynchronousSync : bool;
  m_nSampleRate : Z;
  m_nChunkSizeBytes : Z;
  m_nPacketsPerChunk : Z;
  m_usPacketSizeBytes : list Z;
  m_bSyncEPActive : bool;
  m_SyncEPBuffer : Z;
  m_nSyncAccu : Z;
  m_uchClockSourceID : Z;
  m_uchFeatureUnitID : Z;
  m_DeviceInfo : TDeviceInfo;
  m_DeviceName : string;
  From : string
}.

(** memset (&m_DeviceInfo, 0, sizeof m_DeviceInfo) *)
Definition zero_range : TSampleRateRange := mkRange 0 0 0.

Definition zero_DeviceInfo : TDeviceInfo :=
  mkDeviceInfo 0 0 (replicate (Z.to_nat MaxSampleRatesRanges) zero_range)
               false 0 0 false.

(** The constructor. *)
Definition new_Device : Device :=
  {| m_bVer200 := false;
     m_pEndpointOut := None;
     m_pEndpointSync := None;
     m_bSynchronousSync := false;
     m_nSampleRate := 0;
     m_nChunkSizeBytes := 0;
     m_nPacketsPerChunk := 0;
     m_usPacketSizeBytes := replicate MaxPacketsPerChunk 0;
     m_bSyncEPActive := false;
     m_SyncEPBuffer := 0;
     m_nSyncAccu := 0;
     m_uchClockSourceID := USB_AUDIO_UNDEFINED_UNIT_ID;
     m_uchFeatureUnitID := USB_AUDIO_UNDEFINED_UNIT_ID;
     m_DeviceInfo := zero_DeviceInfo;
     m_DeviceName := "";
     From := "uaudio" |}.

(** ** The collaborators of the driver

    The host controller, the USB function base class, the audio control
    device and the device name service are not part of the driver. They
    are modelled by what the driver observes of them: the results of the calls
    are taken from the environment, the calls leave a record. *)

(** A control transfer, as handed to [ControlMessage]: the data are the bytes
    sent for an OUT request. *)
Record ControlRequest : Type := mkControlRequest {
  ucRequestType : Z;
  ucRequest : Z;
  usValue : Z;
  usIndex : Z;
  out_data : list Z;
  usDataSize : Z
}.

Inductive TBuffer : Type :=
| CallerBuffer (pBuffer : Z)
| SyncEPBuffer.

Inductive TCompletion : Type :=
| ToCompletionHandler (pParam : Z) (pCompletionRoutine : option Z)
| ToSyncCompletionHandler.

(** A [CUSBRequest] with its isochronous packets and completion routine. *)
Record CUSBRequest : Type := mkURB {
  urb_endpoint : CUSBEndpoint;
  urb_buffer : TBuffer;
  urb_length : Z;
  urb_packets : list Z;
  urb_completion : TCompletion
}.

Definition is_sync_urb (u : CUSBRequest) : bool :=
  match urb_completion u with ToSyncCompletionHandler => true | _ => false end.

(** The host controller. [control_reply] gives the result of a control
    transfer and the bytes read by an IN request; [submit_reply] gives the
    result of the n-th asynchronous submission. [pending] holds the requests
    accepted and not yet completed, each with the value that
    [m_bSyncEPActive] had when it was handed over; [callbacks] the calls of
    completion routines of the caller, with their parameter. *)
Record Host : Type := mkHost {
  Speed : TUSBSpeed;
  control_reply : ControlRequest -> Z * list Z;
  control_log : list ControlRequest;
  submit_reply : nat -> CUSBRequest -> bool;
  submit_count : nat;
  pending : list (CUSBRequest * bool);
  callbacks : list (Z * Z)
}.

(** The [CUSBFunction] base class: the interface and its descriptors. *)
Record Function : Type := mkFunction {
  NumEndpoints : Z;
  InterfaceProtocol : Z;
  descriptors : list (list Z);
  base_Initialize : bool;
  base_Configure : bool
}.

(** The audio control device of the USB device (function 0). *)
Record ControlDevice : Type := mkControlDevice {
  InterfaceClass : Z;
  InterfaceSubClass : Z;
  DeviceNumber : Z;
  NextStreamingSubDeviceNumber : Z;
  TerminalTypeOf : Z -> Z;
  FeatureUnitIDOf : Z -> Z;
  ClockSourceIDOf : Z -> Z;
  ControlSupported : Z -> Z -> TControl -> bool
}.

Record World : Type := mkWorld {
  dev : Device;
  host : Host;
  func : Function;
  function0 : option ControlDevice;
  (** the device name service: name to device *)
  registry : gmap string Z;
  (** the address of the driver object *)
  this : Z
}.

(** ** Field updates *)

Definition with_dev (d : Device) (w : World) : World :=
  mkWorld d (host w) (func w) (function0 w) (registry w) (this w).
Definition with_host (h : Host) (w : World) : World :=
  mkWorld (dev w) h (func w) (function0 w) (registry w) (this w).
Definition with_func (f : Function) (w : World) : World :=
  mkWorld (dev w) (host w) f (function0 w) (registry w) (this w).
Definition with_function0 (c : option ControlDevice) (w : World) : World :=
  mkWorld (dev w) (host w) (func w) c (registry w) (this w).
Definition with_registry (r : gmap string Z) (w : World) : World :=
  mkWorld (dev w) (host w) (func w) (function0 w) r (this w).

Definition set_bVer200 (v : bool) (d : Device) : Device :=
  mkDevice v (m_pEndpointOut d) (m_pEndpointSync d) (m_bSynchronousSync d)
    (m_nSampleRate d) (m_nChunkSizeBytes d) (m_nPacketsPerChunk d)
    (m_usPacketSizeBytes d) (m_bSyncEPActive d) (m_SyncEPBuffer d)
    (m_nSyncAccu d) (m_uchClockSourceID d) (m_uchFeatureUnitID d)
    (m_DeviceInfo d) (m_DeviceName d) (From d).
Definition set_pEndpointOut (v : option CUSBEndpoint) (d : Device) : Device :=
  mkDevice (m_bVer200 d) v (m_pEndpointSync d) (m_bSynchronousSync d)
    (m_nSampleRate d) (m_nChunkSizeBytes d) (m_nPacketsPerChunk d)
    (m_usPacketSizeBytes d) (m_bSyncEPActive d) (m_SyncEPBuffer d)
    (m_nSyncAccu d) (m_uchClockSourceID d) (m_uchFeatureUnitID d)
    (m_DeviceInfo d) (m_DeviceName d) (From d).
Definition set_pEndpointSync (v : option CUSBEndpoint) (d : Device) : Device :=
  mkDevice (m_bVer200 d) (m_pEndpointOut d) v (m_bSynchronousSync d)
    (m_nSampleRate d) (m_nChunkSizeBytes d) (m_nPacketsPerChunk d)
    (m_usPacketSizeBytes d) (m_bSyncEPActive d) (m_SyncEPBuffer d)
    (m_nSyncAccu d) (m_uchClockSourceID d) (m_uchFeatureUnitID d)
    (m_DeviceInfo d) (m_DeviceName d) (From d).
Definition set_bSynchronousSync (v : bool) (d : Device) : Device :=
  mkDevice (m_bVer200 d) (m_pEndpointOut d) (m_pEndpointSync d) v
    (m_nSampleRate d) (m_nChunkSizeBytes d) (m_nPacketsPerChunk d)
    (m_usPacketSizeBytes d) (m_bSyncEPActive d) (m_SyncEPBuffer d)
    (m_nSyncAccu d) (m_uchClockSourceID d) (m_uchFeatureUnitID d)
    (m_DeviceInfo d) (m_DeviceName d) (From d).
Definition set_nSampleRate (v : Z) (d : Device) : Device :=
  mkDevice (m_bVer200 d) (m_pEndpointOut d) (m_pEndpointSync d)
    (m_bSynchronousSync d) v (m_nChunkSizeBytes d) (m_nPacketsPerChunk d)
    (m_usPacketSizeBytes d) (m_bSyncEPActive d) (m_SyncEPBuffer d)
    (m_nSyncAccu d) (m_uchClockSourceID d) (m_uchFeatureUnitID d)
    (m_DeviceInfo d) (m_DeviceName d) (From d).
Definition set_nChunkSizeBytes (v : Z) (d : Device) : Device :=
  mkDevice (m_bVer200 d) (m_pEndpointOut d) (m_pEndpointSync d)
    (m_bSynchronousSync d) (m_nSampleRate d) v (m_nPacketsPerChunk d)
    (m_usPacketSizeBytes d) (m_bSyncEPActive d) (m_SyncEPBuffer d)
    (m_nSyncAccu d) (m_uchClockSourceID d) (m_uchFeatureUnitID d)
    (m_DeviceInfo d) (m_DeviceName d) (From d).
Definition set_nPacketsPerChunk (v : Z) (d : Device) : Device :=
  mkDevice (m_bVer200 d) (m_pEndpointOut d) (m_pEndpointSync d)
    (m_bSynchronousSync d) (m_nSampleRate d) (m_nChunkSizeBytes d) v
    (m_usPacketSizeBytes d) (m_bSyncEPActive d) (m_SyncEPBuffer d)
    (m_nSyncAccu d) (m_uchClockSourceID d) (m_uchFeatureUnitID d)
    (m_DeviceInfo d) (m_DeviceName d) (From d).
Definition set_usPacketSizeBytes (v : list Z) (d : Device) : Device :=
  mkDevice (m_bVer200 d) (m_pEndpointOut d) (m_pEndpointSync d)
    (m_bSynchronousSync d) (m_nSampleRate d) (m_nChunkSizeBytes d)
    (m_nPacketsPerChunk d) v (m_bSyncEPActive d) (m_SyncEPBuffer d)
    (m_nSyncAccu d) (m_uchClockSourceID d) (m_uchFeatureUnitID d)
    (m_DeviceInfo d) (m_DeviceName d) (From d).
Definition set_bSyncEPActive (v : bool) (d : Device) : Device :=
  mkDevice (m_bVer200 d) (m_pEndpointOut d) (m_pEndpointSync d)
    (m_bSynchronousSync d) (m_nSampleRate d) (m_nChunkSizeBytes d)
    (m_nPacketsPerChunk d) (m_usPacketSizeBytes d) v (m_SyncEPBuffer d)
    (m_nSyncAccu d) (m_uchClockSourceID d) (m_uchFeatureUnitID d)
    (m_DeviceInfo d) (m_DeviceName d) (From d).
Definition set_SyncEPBuffer (v : Z) (d : Device) : Device :=
  mkDevice (m_bVer200 d) (m_pEndpointOut d) (m_pEndpointSync d)
    (m_bSynchronousSync d) (m_nSampleRate d) (m_nChunkSizeBytes d)
    (m_nPacketsPerChunk d) (m_usPacketSizeBytes d) (m_bSyncEPActive d) v
    (m_nSyncAccu d) (m_uchClockSourceID d) (m_uchFeatureUnitID d)
    (m_DeviceInfo d) (m_DeviceName d) (From d).
Definition set_nSyncAccu (v : Z) (d : Device) : Device :=
  mkDevice (m_bVer200 d) (m_pEndpointOut d) (m_pEndpointSync d)
    (m_bSynchronousSync d) (m_nSampleRate d) (m_nChunkSizeBytes d)
    (m_nPacketsPerChunk d) (m_usPacketSizeBytes d) (m_bSyncEPActive d)
    (m_SyncEPBuffer d) v (m_uchClockSourceID d) (m_uchFeatureUnitID d)
    (m_DeviceInfo d) (m_DeviceName d) (From d).
Definition set_uchClockSourceID (v : Z) (d : Device) : Device :=
  mkDevice (m_bVer200 d) (m_pEndpointOut d) (m_pEndpointSync d)
    (m_bSynchronousSync d) (m_nSampleRate d) (m_nChunkSizeBytes d)
    (m_nPacketsPerChunk d) (m_usPacketSizeBytes d) (m_bSyncEPActive d)
    (m_SyncEPBuffer d) (m_nSyncAccu d) v (m_uchFeatureUnitID d)
    (m_DeviceInfo d) (m_DeviceName d) (From d).
Definition set_uchFeatureUnitID (v : Z) (d : Device) : Device :=
  mkDevice (m_bVer200 d) (m_pEndpointOut d) (m_pEndpointSync d)
    (m_bSynchronousSync d) (m_nSampleRate d) (m_nChunkSizeBytes d)
    (m_nPacketsPerChunk d) (m_usPacketSizeBytes d) (m_bSyncEPActive d)
    (m_SyncEPBuffer d) (m_nSyncAccu d) (m_uchClockSourceID d) v
    (m_DeviceInfo d) (m_DeviceName d) (From d).
Definition set_DeviceInfo (v : TDeviceInfo) (d : Device) : Device :=
  mkDevice (m_bVer200 d) (m_pEndpointOut d) (m_pEndpointSync d)
    (m_bSynchronousSync d) (m_nSampleRate d) (m_nChunkSizeBytes d)
    (m_nPacketsPerChunk d) (m_usPacketSizeBytes d) (m_bSyncEPActive d)
    (m_SyncEPBuffer d) (m_nSyncAccu d) (m_uchClockSourceID d)
    (m_uchFeatureUnitID d) v (m_DeviceName d) (From d).
Definition set_DeviceName (v : string) (d : Device) : Device :=
  mkDevice (m_bVer200 d) (m_pEndpointOut d) (m_pEndpointSync d)
    (m_bSynchronousSync d) (m_nSampleRate d) (m_nChunkSizeBytes d)
    (m_nPacketsPerChunk d) (m_usPacketSizeBytes d) (m_bSyncEPActive d)
    (m_SyncEPBuffer d) (m_nSyncAccu d) (m_uchClockSourceID d)
    (m_uchFeatureUnitID d) (m_DeviceInfo d) v (From d).
Definition set_From (v : string) (d : Device) : Device :=
  mkDevice (m_bVer200 d) (m_pEndpointOut d) (m_pEndpointSync d)
    (m_bSynchronousSync d) (m_nSampleRate d) (m_nChunkSizeBytes d)
    (m_nPacketsPerChunk d) (m_usPacketSizeBytes d) (m_bSyncEPActive d)
    (m_SyncEPBuffer d) (m_nSyncAccu d) (m_uchClockSourceID d)
    (m_uchFeatureUnitID d) (m_DeviceInfo d) (m_DeviceName d) v.

Definition set_TerminalType (v : Z) (i : TDeviceInfo) : TDeviceInfo :=
  mkDeviceInfo v (SampleRateRanges i) (SampleRateRange i) (VolumeSupported i)
    (MinVolume i) (MaxVolume i) (MuteSupported i).
Definition set_SampleRateRanges (v : Z) (i : TDeviceInfo) : TDeviceInfo :=
  mkDeviceInfo (TerminalType i) v (SampleRateRange i) (VolumeSupported i)
    (MinVolume i) (MaxVolume i) (MuteSupported i).
Definition set_SampleRateRange (v : list TSampleRateRange) (i : TDeviceInfo)
  : TDeviceInfo :=
  mkDeviceInfo (TerminalType i) (SampleRateRanges i) v (VolumeSupported i)
    (MinVolume i) (MaxVolume i) (MuteSupported i).
Definition set_VolumeSupported (v : bool) (i : TDeviceInfo) : TDeviceInfo :=
  mkDeviceInfo (TerminalType i) (SampleRateRanges i) (SampleRateRange i) v
    (MinVolume i) (MaxVolume i) (MuteSupported i).
Definition set_MinVolume (v : Z) (i : TDeviceInfo) : TDeviceInfo :=
  mkDeviceInfo (TerminalType i) (SampleRateRanges i) (SampleRateRange i)
    (VolumeSupported i) v (MaxVolume i) (MuteSupported i).
Definition set_MaxVolume (v : Z) (i : TDeviceInfo) : TDeviceInfo :=
  mkDeviceInfo (TerminalType i) (SampleRateRanges i) (SampleRateRange i)
    (VolumeSupported i) (MinVolume i) v (MuteSupported i).
Definition set_MuteSupported (v : bool) (i : TDeviceInfo) : TDeviceInfo :=
  mkDeviceInfo (TerminalType i) (SampleRateRanges i) (SampleRateRange i)
    (VolumeSupported i) (MinVolume i) (MaxVolume i) v.

(** ** The monad of the driver's methods

    A method runs on the world and either returns, or stops where an
    [assert] fails or a null pointer is used (the system halts there). *)

Inductive Outcome (A : Type) : Type :=
| Returns (a : A) (w : World)
| Halted (w : World).
Arguments Returns {A} a w.
Arguments Halted {A} w.

Definition M (A : Type) : Type := World -> Outcome A.

#[export] Instance M_ret : MRet M := fun A a w => Returns a w.
#[export] Instance M_bind : MBind M := fun A B f m w =>
  match m w with
  | Returns a w' => f a w'
  | Halted w' => Halted w'
  end.

Definition assert (b : bool) : M unit :=
  fun w => if b then Returns tt w else Halted w.

Definition get_dev : M Device := fun w => Returns (dev w) w.
Definition get_host : M Host := fun w => Returns (host w) w.
Definition upd_dev (f : Device -> Device) : M unit :=
  fun w => Returns tt (with_dev (f (dev w)) w).
Definition upd_info (f : TDeviceInfo -> TDeviceInfo) : M unit :=
  upd_dev (fun d => set_DeviceInfo (f (m_DeviceInfo d)) d).

(** The world a method ends in, whatever its outcome. *)
Definition final {A} (o : Outcome A) : World :=
  match o with Returns _ w => w | Halted w => w end.

(** [for (unsigned i = start; i < start + count; i++)] with the local
    variables of the loop body as [a]. *)
Fixpoint for_loop {A} (count : nat) (i : Z) (body : Z -> A -> M A) (a : A)
  : M A :=
  match count with
  | O => mret a
  | S count' => a' ← body i a; for_loop count' (i + 1) body a'
  end.

Definition require {A} (o : option A) : M A :=
  fun w => match o with Some a => Returns a w | None => Halted w end.

(** ** Calls into the collaborators *)

Definition set_control_log (v : list ControlRequest) (h : Host) : Host :=
  mkHost (Speed h) (control_reply h) v (submit_reply h) (submit_count h)
    (pending h) (callbacks h).
Definition set_submitted (n : nat) (v : list (CUSBRequest * bool)) (h : Host)
  : Host :=
  mkHost (Speed h) (control_reply h) (control_log h) (submit_reply h) n v
    (callbacks h).
Definition set_callbacks (v : list (Z * Z)) (h : Host) : Host :=
  mkHost (Speed h) (control_reply h) (control_log h) (submit_reply h)
    (submit_count h) (pending h) v.
Definition set_descriptors (v : list (list Z)) (f : Function) : Function :=
  mkFunction (NumEndpoints f) (InterfaceProtocol f) v (base_Initialize f)
    (base_Configure f).

(** [GetHost ()->ControlMessage (GetEndpoint0 (), ...)] with a buffer of
    [usDataSize] bytes holding [out_data]: the result, and the buffer after
    the transfer. *)
Definition ControlMessage (req : ControlRequest) : M (Z * list Z) :=
  fun w =>
    let h := host w in
    let '(result, data) := control_reply h req in
    let n := Z.to_nat (usDataSize req) in
    let buffer :=
      if Z.land (ucRequestType req) REQUEST_IN =? 0 then out_data req
      else take n (data ++ drop (length data) (out_data req)) in
    Returns (result, buffer)
            (with_host (set_control_log (control_log h ++ [req]) h) w).

(** [GetHost ()->SubmitAsyncRequest (pURB)] *)
Definition SubmitAsyncRequest (pURB : CUSBRequest) : M bool :=
  fun w =>
    let h := host w in
    let bOK := submit_reply h (submit_count h) pURB in
    let accepted :=
      if bOK then pending h ++ [(pURB, m_bSyncEPActive (dev w))]
      else pending h in
    Returns bOK (with_host (set_submitted (S (submit_count h)) accepted h) w).

(** Modelled from the spec: [CUSBFunction::GetDescriptor], the descriptor
    iteration by type of the base class: the next descriptor of the type
    after the current position, which moves behind it. *)
Fixpoint next_descriptor (ucType : Z) (ds : list (list Z))
  : option (list Z) * list (list Z) :=
  match ds with
  | [] => (None, [])
  | d :: ds' =>
      if byte_at d 1 =? ucType then (Some d, ds')
      else next_descriptor ucType ds'
  end.

Definition GetDescriptor (ucType : Z) : M (option (list Z)) :=
  fun w =>
    let '(r, ds) := next_descriptor ucType (descriptors (func w)) in
    Returns r (with_func (set_descriptors ds (func w)) w).

(** Modelled from the spec: [CDeviceNameService::AddDevice] and
    [RemoveDevice], the external registry of device names. *)
Definition AddDevice (name : string) (pDevice : Z) : M unit :=
  fun w => Returns tt (with_registry (<[name := pDevice]> (registry w)) w).
Definition RemoveDevice (name : string) : M unit :=
  fun w => Returns tt (with_registry (delete name (registry w)) w).

(** Modelled from the spec: [GetNextStreamingSubDeviceNumber] of the control
    device, "a per-control-device incrementing sub-stream counter". *)
Definition GetNextStreamingSubDeviceNumber (c : ControlDevice) : M Z :=
  fun w =>
    let n := NextStreamingSubDeviceNumber c in
    let c' := mkControlDevice (InterfaceClass c) (InterfaceSubClass c)
                (DeviceNumber c) (Int.u32 (n + 1)) (TerminalTypeOf c)
                (FeatureUnitIDOf c) (ClockSourceIDOf c) (ControlSupported c) in
    Returns n (with_function0 (Some c') w).

(** ** The methods of the driver *)

(** [USBFrameRate]: the number of service intervals per second. *)
Definition USBFrameRate (s : TUSBSpeed) : Z :=
  if is_full_speed s then 1000 else 8000.
Arguments USBFrameRate : simpl never.

(** The body of the loop of [UpdateChunkSize]. *)
Definition UpdateChunkSize_body (nUSBFrameRate : Z) (i : Z)
  (nChunkSizeBytes : Z) : M Z :=
  upd_dev (fun d =>
    set_nSyncAccu (Int.u32 (m_nSyncAccu d + m_nSampleRate d)) d);;
  d ← get_dev;
  let nFrames := m_nSyncAccu d / nUSBFrameRate in
  upd_dev (fun d => set_nSyncAccu (m_nSyncAccu d mod nUSBFrameRate) d);;
  upd_dev (fun d =>
    set_usPacketSizeBytes
      (<[Z.to_nat i := Int.u16 (Int.u32 (nFrames * CHANNELS * SUBFRAME_SIZE))]>
         (m_usPacketSizeBytes d)) d);;
  d ← get_dev;
  mret (Int.u32 (nChunkSizeBytes
                 + default 0 (m_usPacketSizeBytes d !! Z.to_nat i))).

Definition UpdateChunkSize : M unit :=
  d ← get_dev;
  assert (m_bSynchronousSync d);;
  assert (0 <? m_nSampleRate d);;
  h ← get_host;
  let nUSBFrameRate := USBFrameRate (Speed h) in
  (* m_SpinLock.Acquire () *)
  upd_dev (set_nPacketsPerChunk (nUSBFrameRate / CHUNK_FREQUENCY));;
  d ← get_dev;
  nChunkSizeBytes ←
    for_loop (Z.to_nat (m_nPacketsPerChunk d)) 0
             (UpdateChunkSize_body nUSBFrameRate) 0;
  upd_dev (set_nChunkSizeBytes nChunkSizeBytes).
  (* m_SpinLock.Release () *)

(** The completion of a feedback read: [nStatus] is [pURB->GetStatus ()],
    [nResultLength] is [pURB->GetResultLength ()]. *)
Definition SyncCompletionHandler (nStatus nResultLength : Z) : M unit :=
  let bOK := negb (nStatus =? 0) in
  let bFormat10_14 := bOK && (nResultLength =? 3) in
  d ← get_dev;
  assert (m_bSyncEPActive d);;
  (if bOK then
     if bFormat10_14 then
       (* Q10.14 format (FS) *)
       upd_dev (fun d =>
         set_nSyncAccu
           (Int.u32 (m_nSyncAccu d + Z.land (m_SyncEPBuffer d) 16777215)) d);;
       upd_dev (fun d =>
         set_nChunkSizeBytes
           (Int.u32 (Z.shiftr (m_nSyncAccu d) 14 * CHANNELS * SUBFRAME_SIZE))
           d);;
       upd_dev (fun d => set_nSyncAccu (Z.land (m_nSyncAccu d) 16383) d)
     else
       (* Q16.16 format (HS) *)
       upd_dev (fun d =>
         set_nSyncAccu (Int.u32 (m_nSyncAccu d + m_SyncEPBuffer d)) d);;
       upd_dev (fun d =>
         set_nChunkSizeBytes
           (Int.u32 (Z.shiftr (m_nSyncAccu d) 16 * CHANNELS * SUBFRAME_SIZE))
           d);;
       upd_dev (fun d => set_nSyncAccu (Z.land (m_nSyncAccu d) 65535) d)
   else mret tt);;
  upd_dev (set_bSyncEPActive false).

(** The search loop of [Setup]: the value of [i] when the loop ends. *)
Fixpoint Setup_search (info : TDeviceInfo) (nSampleRate : Z) (count : nat)
  (i : Z) : Z :=
  match count with
  | O => i
  | S count' =>
      let r := default zero_range (SampleRateRange info !! Z.to_nat i) in
      if (Min r >=? nSampleRate) && (Max r <=? nSampleRate) then i
      else Setup_search info nSampleRate count' (i + 1)
  end.

Definition Setup (nSampleRate : Z) : M bool :=
  d ← get_dev;
  (* is sample rate supported? *)
  let i := Setup_search (m_DeviceInfo d) nSampleRate
             (Z.to_nat (SampleRateRanges (m_DeviceInfo d))) 0 in
  if i >=? SampleRateRanges (m_DeviceInfo d) then mret false
  else
    bSet ←
      (if negb (m_bVer200 d) then
         pEndpointOut ← require (m_pEndpointOut d);
         r ← ControlMessage
               (mkControlRequest
                  (Z.lor (Z.lor REQUEST_OUT REQUEST_CLASS) REQUEST_TO_ENDPOINT)
                  USB_AUDIO_REQ_SET_CUR
                  (Z.shiftl USB_AUDIO_CS_SAM_FREQ_CONTROL 8)
                  (GetNumber pEndpointOut)
                  (Int.to_bytes 3 nSampleRate) 3);
         mret (negb (r.1 <? 0))
       else
         assert (negb (m_uchClockSourceID d =? USB_AUDIO_UNDEFINED_UNIT_ID));;
         r ← ControlMessage
               (mkControlRequest
                  (Z.lor (Z.lor REQUEST_OUT REQUEST_CLASS) REQUEST_TO_INTERFACE)
                  USB_AUDIO_REQ_SET_CUR
                  (Z.shiftl USB_AUDIO_CS_SAM_FREQ_CONTROL 8)
                  (Z.shiftl (m_uchClockSourceID d) 8)
                  (Int.to_bytes 4 nSampleRate) 4);
         mret (negb (r.1 <? 0)));
    if negb bSet then mret false
    else
      upd_dev (set_nSampleRate nSampleRate);;
      (if m_bSynchronousSync d then UpdateChunkSize
       else
         upd_dev (set_nChunkSizeBytes
                    (Int.u32 (nSampleRate * CHANNELS * SUBFRAME_SIZE)
                     / CHUNK_FREQUENCY)));;
      mret true.

Definition GetDeviceInfo : M TDeviceInfo :=
  d ← get_dev; mret (m_DeviceInfo d).

Definition GetChunkSizeBytes : M Z :=
  d ← get_dev;
  assert (negb (m_nChunkSizeBytes d =? 0));;
  mret (m_nChunkSizeBytes d).

(** [pURB->AddIsoPacket (usPacketSize)], the packet size a [u16]. *)
Definition AddIsoPacket (usPacketSize : Z) (pURB : CUSBRequest) : CUSBRequest :=
  mkURB (urb_endpoint pURB) (urb_buffer pURB) (urb_length pURB)
        (urb_packets pURB ++ [Int.u16 usPacketSize]) (urb_completion pURB).

Definition SendChunk (pBuffer nChunkSizeBytes : Z)
  (pCompletionRoutine : option Z) (pParam : Z) : M bool :=
  assert (negb (pBuffer =? 0));;
  d ← get_dev;
  pEndpointOut ← require (m_pEndpointOut d);
  let pURB := mkURB pEndpointOut (CallerBuffer pBuffer) nChunkSizeBytes []
                    (ToCompletionHandler pParam pCompletionRoutine) in
  pURB ←
    (if m_bSynchronousSync d then
       assert (0 <? m_nPacketsPerChunk d);;
       for_loop (Z.to_nat (m_nPacketsPerChunk d)) 0
         (fun i pURB =>
            mret (AddIsoPacket
                    (default 0 (m_usPacketSizeBytes d !! Z.to_nat i)) pURB))
         pURB
     else mret (AddIsoPacket nChunkSizeBytes pURB));
  bOK ← SubmitAsyncRequest pURB;
  match m_pEndpointSync d with
  | Some pEndpointSync =>
      if bOK && negb (m_bSyncEPActive d) then
        upd_dev (set_bSyncEPActive true);;
        h ← get_host;
        let usPacketSize := if is_full_speed (Speed h) then 3 else 4 in
        let pURBSync := mkURB pEndpointSync SyncEPBuffer usPacketSize []
                              ToSyncCompletionHandler in
        SubmitAsyncRequest (AddIsoPacket usPacketSize pURBSync)
      else if bOK && m_bSynchronousSync d then UpdateChunkSize;; mret bOK
      else mret bOK
  | None =>
      if bOK && m_bSynchronousSync d then UpdateChunkSize;; mret bOK
      else mret bOK
  end.

Definition SetMute (bEnable : bool) : M bool :=
  d ← get_dev;
  if negb (MuteSupported (m_DeviceInfo d)) then mret false
  else
    assert (negb (m_uchFeatureUnitID d =? USB_AUDIO_UNDEFINED_UNIT_ID));;
    (* same request for v1.00 and v2.00 *)
    r ← ControlMessage
          (mkControlRequest
             (Z.lor (Z.lor REQUEST_OUT REQUEST_CLASS) REQUEST_TO_INTERFACE)
             USB_AUDIO_REQ_SET_CUR
             (Z.lor (Z.shiftl USB_AUDIO_FU_MUTE_CONTROL 8) 0)
             (Z.shiftl (m_uchFeatureUnitID d) 8)
             [if bEnable then 1 else 0] 1);
    if r.1 <? 0 then mret false else mret true.

Definition SetVolume (nChannel ndB : Z) : M bool :=
  assert (nChannel <=? 1);;
  d ← get_dev;
  if negb (VolumeSupported (m_DeviceInfo d)) then mret false
  else
    assert (negb (m_uchFeatureUnitID d =? USB_AUDIO_UNDEFINED_UNIT_ID));;
    let VolumeBuffer := Int.s16 (Z.shiftl ndB 8) in
    (* same request for v1.00 and v2.00 *)
    r ← ControlMessage
          (mkControlRequest
             (Z.lor (Z.lor REQUEST_OUT REQUEST_CLASS) REQUEST_TO_INTERFACE)
             USB_AUDIO_REQ_SET_CUR
             (Z.lor (Z.shiftl USB_AUDIO_FU_VOLUME_CONTROL 8)
                    (Int.u32 (nChannel + 1)))
             (Z.shiftl (m_uchFeatureUnitID d) 8)
             (Int.to_bytes 2 VolumeBuffer) 2);
    if r.1 <? 0 then mret false else mret true.

(** The completion of a data transfer: the routine of the caller, if any, is
    called with its parameter. *)
Definition CompletionHandler (pParam : Z) (pContext : option Z) : M unit :=
  match pContext with
  | Some pCompletionRoutine =>
      fun w => Returns tt
        (with_host (set_callbacks (callbacks (host w)
                                   ++ [(pCompletionRoutine, pParam)])
                                  (host w)) w)
  | None => mret tt
  end.

(** ** Descriptors

    A descriptor is its bytes. The fields are at the offsets of the
    structures of circle/usb/usbaudio.h, which follow the layouts of the USB
    Audio Class specification. *)

Module Desc.

Definition bDescriptorSubtype (d : list Z) : Z := byte_at d 2.

(** TUSBAudioStreamingInterfaceDescriptor *)
Definition Ver100_bTerminalLink (d : list Z) : Z := byte_at d 3.
Definition Ver200_bTerminalLink (d : list Z) : Z := byte_at d 3.
Definition Ver200_bNrChannels (d : list Z) : Z := byte_at d 10.

(** TUSBAudioTypeIFormatTypeDescriptor *)
Definition bFormatType (d : list Z) : Z := byte_at d 3.
Definition Ver100_bNrChannels (d : list Z) : Z := byte_at d 4.
Definition Ver100_bSubframeSize (d : list Z) : Z := byte_at d 5.
Definition Ver100_bBitResolution (d : list Z) : Z := byte_at d 6.
Definition Ver100_bSamFreqType (d : list Z) : Z := byte_at d 7.
Definition Ver100_tSamFreq (d : list Z) (i : Z) : list Z :=
  take 3 (drop (8 + 3 * Z.to_nat i) d).
Definition Ver200_bSubslotSize (d : list Z) : Z := byte_at d 4.
Definition Ver200_bBitResolution (d : list Z) : Z := byte_at d 5.

(** TUSBAudioEndpointDescriptor *)
Definition bEndpointAddress (d : list Z) : Z := byte_at d 2.
Definition bmAttributes (d : list Z) : Z := byte_at d 3.
Definition bInterval (d : list Z) : Z := byte_at d 6.

End Desc.

(** [IN | CLASS | TO_INTERFACE] *)
Definition REQUEST_IN_CLASS_INTERFACE : Z :=
  Z.lor (Z.lor REQUEST_IN REQUEST_CLASS) REQUEST_TO_INTERFACE.

(** The loop of [Configure] that looks for the AS_GENERAL descriptor; every
    turn takes a descriptor, [fuel] is more than there are. *)
Fixpoint find_general (fuel : nat) : M (option (list Z)) :=
  match fuel with
  | O => mret None
  | S fuel' =>
      p ← GetDescriptor DESCRIPTOR_CS_INTERFACE;
      match p with
      | None => mret None
      | Some g =>
          if Desc.bDescriptorSubtype g =? USB_AUDIO_STREAMING_GENERAL
          then mret (Some g)
          else find_general fuel'
      end
  end.

Definition set_range (i : Z) (r : TSampleRateRange) : M unit :=
  upd_info (fun info =>
    set_SampleRateRange (<[Z.to_nat i := r]> (SampleRateRange info)) info).

Definition volume_controls (c : ControlDevice) (uchFeatureUnitID : Z) : bool :=
  negb (uchFeatureUnitID =? USB_AUDIO_UNDEFINED_UNIT_ID)
  && ControlSupported c uchFeatureUnitID 1 VolumeControl
  && ControlSupported c uchFeatureUnitID 2 VolumeControl.

(** The branch of [Configure] for a v1.00 interface (lines 209-280);
    [false] where [Configure] returns FALSE. *)
Definition Configure_Ver100 (c : ControlDevice)
  (pGeneralDesc pFormatTypeDesc : list Z) : M bool :=
  upd_info (set_TerminalType
              (TerminalTypeOf c (Desc.Ver100_bTerminalLink pGeneralDesc)));;
  (* fetch format info from descriptor *)
  (if Desc.Ver100_bSamFreqType pFormatTypeDesc =? 0 then
     (* continuous range *)
     upd_info (set_SampleRateRanges 1);;
     d ← get_dev;
     let r := default zero_range (SampleRateRange (m_DeviceInfo d) !! 0%nat) in
     set_range 0
       (mkRange (RATE2UNSIGNED (Desc.Ver100_tSamFreq pFormatTypeDesc 0))
                (RATE2UNSIGNED (Desc.Ver100_tSamFreq pFormatTypeDesc 1))
                (Resolution r))
   else
     (* discrete sample rates *)
     let nSampleRates := Desc.Ver100_bSamFreqType pFormatTypeDesc in
     let nSampleRates :=
       if nSampleRates >? MaxSampleRatesRanges then MaxSampleRatesRanges
       else nSampleRates in
     upd_info (set_SampleRateRanges nSampleRates);;
     for_loop (Z.to_nat nSampleRates) 0
       (fun i _ =>
          d ← get_dev;
          let r := default zero_range
                     (SampleRateRange (m_DeviceInfo d) !! Z.to_nat i) in
          let v := RATE2UNSIGNED (Desc.Ver100_tSamFreq pFormatTypeDesc i) in
          set_range i (mkRange v v (Resolution r))) tt);;
  (* get access to the Feature Unit, to control volume etc. *)
  upd_dev (set_uchFeatureUnitID
             (FeatureUnitIDOf c (Desc.Ver100_bTerminalLink pGeneralDesc)));;
  d ← get_dev;
  if volume_controls c (m_uchFeatureUnitID d) then
    (* get volume range from left channel only, should be same as right *)
    r ← ControlMessage
          (mkControlRequest REQUEST_IN_CLASS_INTERFACE USB_AUDIO_REQ_GET_MIN
             (Z.lor (Z.shiftl USB_AUDIO_FU_VOLUME_CONTROL 8) 1)
             (Z.shiftl (m_uchFeatureUnitID d) 8) [0; 0] 2);
    if r.1 <? 0 then mret false
    else
      upd_info (set_MinVolume (Z.shiftr (Int.s16 (Int.of_bytes r.2)) 8));;
      r ← ControlMessage
            (mkControlRequest REQUEST_IN_CLASS_INTERFACE USB_AUDIO_REQ_GET_MAX
               (Z.lor (Z.shiftl USB_AUDIO_FU_VOLUME_CONTROL 8) 1)
               (Z.shiftl (m_uchFeatureUnitID d) 8) r.2 2);
      if r.1 <? 0 then mret false
      else
        upd_info (set_MaxVolume (Z.shiftr (Int.s16 (Int.of_bytes r.2)) 8));;
        upd_info (set_VolumeSupported true);;
        mret true
  else mret true.

(** The [u32] at byte [off] of a buffer. *)
Definition u32_at (buffer : list Z) (off : nat) : Z :=
  Int.of_bytes (take 4 (drop off buffer)).
(** The [s16] with index [i] of a buffer. *)
Definition s16_at (buffer : list Z) (i : nat) : Z :=
  Int.s16 (Int.of_bytes (take 2 (drop (2 * i) buffer))).

(** The branch of [Configure] for a v2.00 interface (lines 284-373). *)
Definition Configure_Ver200 (c : ControlDevice) (pGeneralDesc : list Z)
  : M bool :=
  upd_info (set_TerminalType
              (TerminalTypeOf c (Desc.Ver200_bTerminalLink pGeneralDesc)));;
  (* request clock source ID for this Input Terminal *)
  upd_dev (set_uchClockSourceID
             (ClockSourceIDOf c (Desc.Ver200_bTerminalLink pGeneralDesc)));;
  d ← get_dev;
  if m_uchClockSourceID d =? USB_AUDIO_UNDEFINED_UNIT_ID then mret false
  else
    (* number of ranges first *)
    r ← ControlMessage
          (mkControlRequest REQUEST_IN_CLASS_INTERFACE USB_AUDIO_REQ_RANGE
             (Z.shiftl USB_AUDIO_CS_SAM_FREQ_CONTROL 8)
             (Z.shiftl (m_uchClockSourceID d) 8) [0; 0] 2);
    if r.1 <? 0 then mret false
    else
      (* now that we know the number of ranges, request the whole block *)
      let nSampleRates := Int.of_bytes (take 2 r.2) in
      let nBufferSize := Int.u32 (2 + 12 * nSampleRates) in
      r ← ControlMessage
            (mkControlRequest REQUEST_IN_CLASS_INTERFACE USB_AUDIO_REQ_RANGE
               (Z.shiftl USB_AUDIO_CS_SAM_FREQ_CONTROL 8)
               (Z.shiftl (m_uchClockSourceID d) 8)
               (replicate (Z.to_nat nBufferSize) 0) (Int.u16 nBufferSize));
      if r.1 <? 0 then mret false
      else
        (* fill in the m_DeviceInfo struct *)
        let RangesBuffer := r.2 in
        let nSampleRates :=
          if nSampleRates >? MaxSampleRatesRanges then MaxSampleRatesRanges
          else nSampleRates in
        upd_info (set_SampleRateRanges nSampleRates);;
        for_loop (Z.to_nat nSampleRates) 0
          (fun i _ =>
             let off := (2 + 12 * Z.to_nat i)%nat in
             set_range i (mkRange (u32_at RangesBuffer off)
                                  (u32_at RangesBuffer (off + 4))
                                  (u32_at RangesBuffer (off + 8)))) tt;;
        (* get access to the Feature Unit, to control volume etc. *)
        upd_dev (set_uchFeatureUnitID
                   (FeatureUnitIDOf c (Desc.Ver200_bTerminalLink pGeneralDesc)));;
        d ← get_dev;
        if volume_controls c (m_uchFeatureUnitID d) then
          r ← ControlMessage
                (mkControlRequest REQUEST_IN_CLASS_INTERFACE USB_AUDIO_REQ_RANGE
                   (Z.lor (Z.shiftl USB_AUDIO_FU_VOLUME_CONTROL 8) 1)
                   (Z.shiftl (m_uchFeatureUnitID d) 8)
                   (replicate 8 0) 8);
          if r.1 <? 0 then mret false
          else if s16_at r.2 0 =? 1 then
            upd_info (set_MinVolume (Z.shiftr (s16_at r.2 1) 8));;
            upd_info (set_MaxVolume (Z.shiftr (s16_at r.2 2) 8));;
            upd_info (set_VolumeSupported true);;
            mret true
          else mret true
        else mret true.

(** The end of [Configure] (lines 376-419), the log lines left out. *)
Definition Configure_finish (c : ControlDevice) : M bool :=
  d ← get_dev;
  upd_info (set_MuteSupported
              (negb (m_uchFeatureUnitID d =? USB_AUDIO_UNDEFINED_UNIT_ID)
               && ControlSupported c (m_uchFeatureUnitID d) 0 MuteControl));;
  m ← GetNextStreamingSubDeviceNumber c;
  upd_dev (set_DeviceName (DeviceNamePattern (DeviceNumber c) m));;
  d ← get_dev;
  w ← (fun w => Returns w w);
  AddDevice (m_DeviceName d) (this w);;
  upd_dev (set_From (m_DeviceName d));;
  mret true.

Definition Initialize : M bool :=
  fun w =>
    if negb (base_Initialize (func w)) then Returns false w
    else Returns (NumEndpoints (func w) >=? 1) w.

Definition Configure : M bool :=
  w ← (fun w => Returns w w);
  assert (NumEndpoints (func w) >=? 1);;
  upd_dev (set_bVer200 (InterfaceProtocol (func w) =? USB_PROTO_AUDIO_VER_200));;
  pGeneralDesc ← find_general (S (length (descriptors (func w))));
  match pGeneralDesc with
  | None => mret false
  | Some pGeneralDesc =>
  pFormatTypeDesc ← GetDescriptor DESCRIPTOR_CS_INTERFACE;
  match pFormatTypeDesc with
  | None => mret false
  | Some pFormatTypeDesc =>
  if negb (Desc.bDescriptorSubtype pFormatTypeDesc =? USB_AUDIO_FORMAT_TYPE)
  then mret false
  else
  pEndpointDesc ← GetDescriptor DESCRIPTOR_ENDPOINT;
  match pEndpointDesc with
  | None => mret false
  | Some pEndpointDesc =>
  if negb (Z.land (Desc.bmAttributes pEndpointDesc) 51 =? 1)
     || negb (Z.land (Desc.bEndpointAddress pEndpointDesc) 128 =? 0)
  then mret false
  else if negb (Desc.bInterval pEndpointDesc =? 1) then mret false
  else
  d ← get_dev;
  if (if negb (m_bVer200 d) then
        negb (Desc.bFormatType pFormatTypeDesc =? USB_AUDIO_FORMAT_TYPE_I)
        || negb (Desc.Ver100_bNrChannels pFormatTypeDesc =? CHANNELS)
        || negb (Desc.Ver100_bSubframeSize pFormatTypeDesc =? SUBFRAME_SIZE)
        || negb (Desc.Ver100_bBitResolution pFormatTypeDesc
                 =? SUBFRAME_SIZE * 8)
      else
        negb (Desc.bFormatType pFormatTypeDesc =? USB_AUDIO_FORMAT_TYPE_I)
        || negb (Desc.Ver200_bSubslotSize pFormatTypeDesc =? SUBFRAME_SIZE)
        || negb (Desc.Ver200_bBitResolution pFormatTypeDesc
                 =? SUBFRAME_SIZE * 8)
        || negb (Desc.Ver200_bNrChannels pGeneralDesc =? CHANNELS))
  then mret false
  else
  bFeedbackOK ←
    (if Z.land (Desc.bmAttributes pEndpointDesc) 12 =? 4 then
       (* Asynchronous sync *)
       pEndpointInDesc ← GetDescriptor DESCRIPTOR_ENDPOINT;
       match pEndpointInDesc with
       | None => mret false
       | Some pEndpointInDesc =>
           if negb (Z.land (Desc.bmAttributes pEndpointInDesc) 63 =? 17)
              || negb (Z.land (Desc.bEndpointAddress pEndpointInDesc) 128
                       =? 128)
           then mret false
           else
             upd_dev (set_pEndpointSync (Some (mkEndpoint pEndpointInDesc)));;
             mret true
       end
     else mret true);
  if negb bFeedbackOK then mret false
  else
  upd_dev (set_bSynchronousSync
             (Z.land (Desc.bmAttributes pEndpointDesc) 12 =? 12));;
  upd_dev (set_pEndpointOut (Some (mkEndpoint pEndpointDesc)));;
  if negb (base_Configure (func w)) then mret false
  else
  (* Interface of audio control device is the first in configuration
     descriptor, so that the respective function has the index 0. *)
  match function0 w with
  | None => mret false
  | Some pControlDevice =>
  if negb (InterfaceClass pControlDevice =? 1)
     || negb (InterfaceSubClass pControlDevice =? 1)
  then mret false
  else
  d ← get_dev;
  bInfo ←
    (if negb (m_bVer200 d)
     then Configure_Ver100 pControlDevice pGeneralDesc pFormatTypeDesc
     else Configure_Ver200 pControlDevice pGeneralDesc);
  if negb bInfo then mret false
  else Configure_finish pControlDevice
  end end end end.

(** The destructor. *)
Definition destroy : M unit :=
  d ← get_dev;
  (if negb (String.length (m_DeviceName d) =? 0)%nat
   then RemoveDevice (m_DeviceName d)
   else mret tt);;
  upd_dev (set_pEndpointSync None);;
  upd_dev (set_pEndpointOut None).

Definition Zsum (l : list Z) : Z := foldr Z.add 0 l.

(** ** The synchronous discipline *)

Module Sync.

(** The loop of [UpdateChunkSize] on the three variables it changes: the
    accumulator, the packet size table and the sum of the packet sizes. *)
Fixpoint loop (count i : nat) (R F acc : Z) (tbl : list Z) (n : Z)
  : Z * list Z * Z :=
  match count with
  | O => (acc, tbl, n)
  | S count' =>
      let acc1 := Int.u32 (acc + R) in
      let tbl' :=
        <[i := Int.u16 (Int.u32 (acc1 / F * CHANNELS * SUBFRAME_SIZE))]> tbl in
      loop count' (S i) R F (acc1 mod F) tbl'
           (Int.u32 (n + default 0 (tbl' !! i)))
  end.

(** The distribution in the words of the specification, on unbounded
    integers: for every service interval the rate is added to the
    accumulator, the frames of the interval are the accumulator divided by
    the frame rate, and the accumulator is reduced modulo the frame rate.
    The result is the frames of the intervals and the accumulator left. *)
Fixpoint intervals (count : nat) (R F acc : Z) : list Z * Z :=
  match count with
  | O => ([], acc)
  | S count' =>
      let accumulator := acc + R in
      let frames := accumulator / F in
      let rest := intervals count' R F (accumulator mod F) in
      (frames :: rest.1, rest.2)
  end.

Definition frames_of (count : nat) (R F acc : Z) : list Z :=
  (intervals count R F acc).1.
Definition accu_after (count : nat) (R F acc : Z) : Z :=
  (intervals count R F acc).2.

(** Packet sizes in bytes of frame counts. *)
Definition sizes_of (fs : list Z) : list Z :=
  map (fun frames => frames * 4) fs.

(** [n] recomputations in a row, with the chunk size of each. *)
Fixpoint run_chunks (n : nat) : M (list Z) :=
  match n with
  | O => mret []
  | S n' =>
      UpdateChunkSize;;
      d ← get_dev;
      rest ← run_chunks n';
      mret (m_nChunkSizeBytes d :: rest)
  end.

(** What a recomputation relies on: the discipline, the rate, an
    accumulator below the frame rate and the packet size table of the class
    declaration. *)
Definition ready (R : Z) (w : World) : Prop :=
  m_bSynchronousSync (dev w) = true
  /\ m_nSampleRate (dev w) = R
  /\ 0 <= m_nSyncAccu (dev w) < USBFrameRate (Speed (host w))
  /\ length (m_usPacketSizeBytes (dev w)) = MaxPacketsPerChunk.

End Sync.

(** [UpdateChunkSize] on the fields of the device. *)
Definition UpdateChunkSize_dev (F : Z) (d : Device) : Device :=
  let P := F / CHUNK_FREQUENCY in
  let r := Sync.loop (Z.to_nat P) 0 (m_nSampleRate d) F (m_nSyncAccu d)
                     (m_usPacketSizeBytes d) 0 in
  set_nChunkSizeBytes r.2
    (set_usPacketSizeBytes r.1.2
       (set_nSyncAccu r.1.1 (set_nPacketsPerChunk P d))).

(** ** The asynchronous discipline *)

Module Async.

(** The format of a feedback sample by the length of the payload: 3 bytes
    are Q10.14, otherwise Q16.16. *)
Definition fractional_bits (nResultLength : Z) : Z :=
  if nResultLength =? 3 then 14 else 16.

(** The raw sample in [m_SyncEPBuffer]: a 3-byte payload leaves the top
    byte of the buffer out. *)
Definition sample (nResultLength buffer : Z) : Z :=
  if nResultLength =? 3 then Z.land buffer 16777215 else buffer.

(** The update in the words of the specification, on unbounded integers:
    the chunk size in bytes and the accumulator left. *)
Definition update (accumulator raw bits : Z) : Z * Z :=
  let accumulator := accumulator + raw in
  (Z.shiftr accumulator bits * 4, accumulator mod 2 ^ bits).

(** What the completion handler does to the device when the transfer
    succeeded, with the arithmetic of [unsigned]. *)
Definition completed (nResultLength : Z) (d : Device) : Device :=
  let bits := fractional_bits nResultLength in
  let accu := Int.u32 (m_nSyncAccu d + sample nResultLength (m_SyncEPBuffer d)) in
  set_bSyncEPActive false
    (set_nSyncAccu (Z.land accu (2 ^ bits - 1))
       (set_nChunkSizeBytes
          (Int.u32 (Z.shiftr accu bits * CHANNELS * SUBFRAME_SIZE)) d)).

(** [n] feedback reads in a row: each is marked in flight, as [SendChunk]
    does, the host stores the sample and the read completes. *)
Fixpoint completions (n : nat) (nStatus nResultLength raw : Z) : M unit :=
  match n with
  | O => mret tt
  | S n' =>
      upd_dev (set_bSyncEPActive true);;
      upd_dev (set_SyncEPBuffer raw);;
      SyncCompletionHandler nStatus nResultLength;;
      completions n' nStatus nResultLength raw
  end.

End Async.

(** The feedback read that [SendChunk] submits has a payload of 3 bytes at
    full speed and of 4 bytes otherwise. *)
Definition feedback_payload (s : TUSBSpeed) : Z :=
  if is_full_speed s then 3 else 4.

(** ** What [Configure] leaves alone until it names the device *)

Definition keeps (w w' : World) : Prop :=
  function0 w' = function0 w /\ registry w' = registry w /\ this w' = this w.

(** A method that changes neither the control device nor the registry. *)
Definition framed {A} (m : M A) : Prop :=
  forall w, keeps w (final (m w)).

(** A method that returns TRUE through the end of [Configure] only, with
    the control device that the world [w0] has. *)
Definition finishes (w0 : World) (m : M bool) : Prop :=
  forall w w',
    keeps w0 w -> m w = Returns true w' ->
    exists c w1,
      function0 w0 = Some c /\ keeps w0 w1
      /\ Configure_finish c w1 = Returns true w'.

(** ** The rate check of [Setup] *)

(** The entry [j] of the table of sample rate ranges. *)
Definition range_at (info : TDeviceInfo) (j : Z) : TSampleRateRange :=
  default zero_range (SampleRateRange info !! Z.to_nat j).

(** The condition of the search loop, as the source has it. *)
Definition literal_match (nSampleRate : Z) (r : TSampleRateRange) : Prop :=
  Min r >= nSampleRate /\ Max r <= nSampleRate.

(** The check after the loop: [i < m_DeviceInfo.SampleRateRanges]. *)
Definition Setup_supported (info : TDeviceInfo) (nSampleRate : Z) : bool :=
  Setup_search info nSampleRate (Z.to_nat (SampleRateRanges info)) 0
  <? SampleRateRanges info.

(** The SET_CUR request of [Setup], for a configured device. *)
Definition Setup_request (d : Device) (nSampleRate : Z)
  : option ControlRequest :=
  if negb (m_bVer200 d) then
    match m_pEndpointOut d with
    | Some pEndpointOut =>
        Some (mkControlRequest
                (Z.lor (Z.lor REQUEST_OUT REQUEST_CLASS) REQUEST_TO_ENDPOINT)
                USB_AUDIO_REQ_SET_CUR
                (Z.shiftl USB_AUDIO_CS_SAM_FREQ_CONTROL 8)
                (GetNumber pEndpointOut)
                (Int.to_bytes 3 nSampleRate) 3)
    | None => None
    end
  else if m_uchClockSourceID d =? USB_AUDIO_UNDEFINED_UNIT_ID then None
  else
    Some (mkControlRequest
            (Z.lor (Z.lor REQUEST_OUT REQUEST_CLASS) REQUEST_TO_INTERFACE)
            USB_AUDIO_REQ_SET_CUR
            (Z.shiftl USB_AUDIO_CS_SAM_FREQ_CONTROL 8)
            (Z.shiftl (m_uchClockSourceID d) 8)
            (Int.to_bytes 4 nSampleRate) 4).

(** The range check in the words of the specification: a discrete entry
    wants the rate itself, a continuous one min <= rate <= max. *)
Definition in_range (nSampleRate : Z) (r : TSampleRateRange) : Prop :=
  Min r <= nSampleRate <= Max r.

(** ** The system: calls of the producer and completions of the host *)

(** The first pending request of the kind (feedback read or data transfer),
    taken out of the pending requests. *)
Fixpoint take_request (sync : bool) (l : list (CUSBRequest * bool))
  : option (CUSBRequest * list (CUSBRequest * bool)) :=
  match l with
  | [] => None
  | p :: l' =>
      if Bool.eqb (is_sync_urb p.1) sync then Some (p.1, l')
      else match take_request sync l' with
           | Some (u, rest) => Some (u, p :: rest)
           | None => None
           end
  end.

(** The host stores the bytes received at the start of [m_SyncEPBuffer]. *)
Definition store_feedback (data : list Z) (d : Device) : Device :=
  set_SyncEPBuffer
    (Int.of_bytes
       (take 4 (data ++ drop (length data)
                             (Int.to_bytes 4 (m_SyncEPBuffer d))))) d.

Inductive Event : Type :=
| CallSendChunk (pBuffer nChunkSizeBytes : Z) (pCompletionRoutine : option Z)
    (pParam : Z)
| FeedbackCompletes (nStatus : Z) (data : list Z)
| DataCompletes.

Definition unit_outcome {A} (o : Outcome A) : Outcome unit :=
  match o with Returns _ w => Returns tt w | Halted w => Halted w end.

(** One event; [None] when the host has no request to complete. *)
Definition fire (e : Event) (w : World) : option (Outcome unit) :=
  match e with
  | CallSendChunk pBuffer n routine param =>
      Some (unit_outcome (SendChunk pBuffer n routine param w))
  | FeedbackCompletes nStatus data =>
      match take_request true (pending (host w)) with
      | None => None
      | Some (u, rest) =>
          let data := take (Z.to_nat (urb_length u)) data in
          let h := set_submitted (submit_count (host w)) rest (host w) in
          Some (SyncCompletionHandler nStatus (Z.of_nat (length data))
                  (with_host h (with_dev (store_feedback data (dev w)) w)))
      end
  | DataCompletes =>
      match take_request false (pending (host w)) with
      | None => None
      | Some (u, rest) =>
          let h := set_submitted (submit_count (host w)) rest (host w) in
          match urb_completion u with
          | ToCompletionHandler pParam pContext =>
              Some (CompletionHandler pParam pContext (with_host h w))
          | ToSyncCompletionHandler => None
          end
      end
  end.

(** The world an event returns to. *)
Definition returned (o : option (Outcome unit)) : option World :=
  match o with Some (Returns _ w) => Some w | _ => None end.

(** The worlds a sequence of events leads to; the system stops where a
    method halts. *)
Inductive Reaches : World -> list Event -> World -> Prop :=
| Reaches_nil (w : World) : Reaches w [] w
| Reaches_step (w w1 w2 : World) (e : Event) (es : list Event) :
    fire e w = Some (Returns tt w1) -> Reaches w1 es w2 ->
    Reaches w (e :: es) w2
| Reaches_halt (w w1 : World) (e : Event) :
    fire e w = Some (Halted w1) -> Reaches w [e] w1.

(** The world after a sequence of events that all return. *)
Fixpoint run_events (es : list Event) (w : World) : option World :=
  match es with
  | [] => Some w
  | e :: es' =>
      match fire e w with
      | Some (Returns _ w1) => run_events es' w1
      | _ => None
      end
  end.

(** The world after the data transfer of [SendChunk] was handed to the
    host. *)
Definition data_submitted (pURB : CUSBRequest) (w : World) : World :=
  final (SubmitAsyncRequest pURB w).

(** The feedback reads that are outstanding. *)
Definition feedback_reads (w : World) : list (CUSBRequest * bool) :=
  filter (fun p => is_sync_urb p.1 = true) (pending (host w)).

(** The in-flight flag covers the outstanding feedback reads, and each of
    them was submitted with the flag set. *)
Definition in_flight_inv (w : World) : Prop :=
  (length (feedback_reads w) <= if m_bSyncEPActive (dev w) then 1 else 0)%nat
  /\ Forall (fun p => p.2 = true) (feedback_reads w).

(** ** Example devices

    A v1.00 interface with an AS_GENERAL descriptor, a type I format
    descriptor listing the sample rates [tSamFreq] ([bSamFreqType] of them, or
    a continuous range when it is 0) and an isochronous data OUT endpoint with
    the attributes [bmAttributes]; [feedback] is the descriptor of a feedback
    endpoint, if any. *)

Module Sample.

Definition control : ControlDevice :=
  mkControlDevice 1 1 1 1 (fun _ => 769) (fun _ => 0) (fun _ => 0)
                  (fun _ _ _ => false).

Definition controller (s : TUSBSpeed) : Host :=
  mkHost s (fun _ => (0, [])) [] (fun _ _ => true) 0 [] [].

Definition interface (bSamFreqType : Z) (tSamFreq : list Z)
  (bmAttributes : Z) (feedback : list (list Z)) : list (list Z) :=
  [ [7; 36; 1; 1; 1; 1; 0];
    [8 + 3 * Z.abs bSamFreqType; 36; 2; 1; 2; 2; 16; bSamFreqType]
      ++ tSamFreq;
    [9; 5; 1; bmAttributes; 192; 0; 1; 0; 0] ] ++ feedback.

Definition world (s : TUSBSpeed) (ds : list (list Z)) : World :=
  mkWorld new_Device (controller s) (mkFunction 1 0 ds true true)
          (Some control) ∅ 4096.

(** 44100 Hz as a discrete rate, synchronous endpoint (attributes 0x0D). *)
Definition synchronous (s : TUSBSpeed) : World :=
  world s (interface 1 [68; 172; 0] 13 []).

(** The continuous range 32000-48000 Hz, adaptive endpoint (0x09): the
    static discipline. *)
Definition continuous : World :=
  world USBSpeedFull (interface 0 [0; 125; 0; 128; 187; 0] 9 []).

(** 176400 Hz as a discrete rate, adaptive endpoint. *)
Definition static_176400 : World :=
  world USBSpeedFull (interface 1 [16; 177; 2] 9 []).

(** 48000 Hz as a discrete rate, asynchronous endpoint (0x05) with its
    feedback endpoint (0x11, IN). *)
Definition asynchronous (s : TUSBSpeed) : World :=
  world s (interface 1 [128; 187; 0] 5 [[9; 5; 129; 17; 4; 0; 1; 0; 0]]).

(** A control device with a feature unit (ID 2) that has volume and mute
    controls, and a host that answers the volume range -64 dB .. 0 dB. *)
Definition control_volume : ControlDevice :=
  mkControlDevice 1 1 1 1 (fun _ => 769) (fun _ => 2) (fun _ => 0)
                  (fun _ _ _ => true).

Definition controller_volume : Host :=
  mkHost USBSpeedFull
         (fun req =>
            if ucRequest req =? USB_AUDIO_REQ_GET_MIN then (2, [0; 192])
            else if ucRequest req =? USB_AUDIO_REQ_GET_MAX then (2, [0; 0])
            else (0, []))
         [] (fun _ _ => true) 0 [] [].

Definition with_volume : World :=
  mkWorld new_Device controller_volume
          (mkFunction 1 0 (interface 1 [128; 187; 0] 9 []) true true)
          (Some control_volume) ∅ 4096.

(** The world after [Configure] and [Setup (rate)]. *)
Definition started (w : World) (rate : Z) : World :=
  final ((Configure;; Setup rate) w).

(** The world when a chunk was sent and its feedback read is outstanding. *)
Definition in_flight (w : World) : World :=
  final (SendChunk 8192 192 None 0 w).

End Sample.

(** ** Runs and views for the further properties *)

(** A run of feedback reads with the samples [raws], each marked in flight
    as [SendChunk] does and completed with its sample in the buffer; the
    result is the chunk size after each completion. *)
Fixpoint feed (nStatus nResultLength : Z) (raws : list Z) : M (list Z) :=
  match raws with
  | [] => mret []
  | raw :: raws' =>
      upd_dev (set_bSyncEPActive true);;
      upd_dev (set_SyncEPBuffer raw);;
      SyncCompletionHandler nStatus nResultLength;;
      d ← get_dev;
      sizes ← feed nStatus nResultLength raws';
      mret (m_nChunkSizeBytes d :: sizes)
  end.

(** Two worlds that look the same through [view]. *)
Definition same {V} (view : World -> V) (w w' : World) : Prop :=
  view w' = view w.

(** A method that leaves [view] alone, whatever its outcome. *)
Definition respects {V A} (view : World -> V) (m : M A) : Prop :=
  forall w, same view w (final (m w)).

(** The state of the stream: what [Setup], [SendChunk] and the completion
    handlers work on. *)
Definition stream_view (w : World) :=
  (m_nSampleRate (dev w), m_nChunkSizeBytes (dev w),
   m_nPacketsPerChunk (dev w), m_usPacketSizeBytes (dev w),
   m_bSyncEPActive (dev w), m_SyncEPBuffer (dev w), m_nSyncAccu (dev w),
   pending (host w), submit_count (host w), callbacks (host w)).

(** What [Configure] finds out about the device and sets up for it. *)
Definition configuration_view (w : World) :=
  (m_bVer200 (dev w), m_pEndpointOut (dev w), m_pEndpointSync (dev w),
   m_bSynchronousSync (dev w), m_uchClockSourceID (dev w),
   m_uchFeatureUnitID (dev w), m_DeviceInfo (dev w), m_DeviceName (dev w),
   From (dev w), registry w, function0 w, func w).

(** The name of the device, the registry and the control device with its
    counter of streaming interfaces. *)
Definition name_view (w : World) :=
  (m_DeviceName (dev w), From (dev w), registry w, function0 w).

(** The endpoints, the protocol version and the discipline. *)
Definition endpoint_view (w : World) :=
  (m_bVer200 (dev w), m_pEndpointOut (dev w), m_pEndpointSync (dev w),
   m_bSynchronousSync (dev w)).

(** The protocol version, the clock source and the volume flag. *)
Definition unit_view (w : World) :=
  (m_bVer200 (dev w), m_uchClockSourceID (dev w)).

(** The packet sizes that the loop of [SendChunk] adds to the transfer:
    the table entries [i .. i + count - 1]. *)
Fixpoint packet_sizes (d : Device) (i : Z) (count : nat) : list Z :=
  match count with
  | O => []
  | S count' =>
      Int.u16 (default 0 (m_usPacketSizeBytes d !! Z.to_nat i))
      :: packet_sizes d (i + 1) count'
  end.

(** The data transfer that [SendChunk] builds. *)
Definition data_urb (d : Device) (pEndpointOut : CUSBEndpoint)
  (pBuffer nChunkSizeBytes : Z) (pCompletionRoutine : option Z) (pParam : Z)
  : CUSBRequest :=
  mkURB pEndpointOut (CallerBuffer pBuffer) nChunkSizeBytes
        (if m_bSynchronousSync d
         then packet_sizes d 0 (Z.to_nat (m_nPacketsPerChunk d))
         else [Int.u16 nChunkSizeBytes])
        (ToCompletionHandler pParam pCompletionRoutine).

(** The feedback read that [SendChunk] builds. *)
Definition feedback_urb (pEndpointSync : CUSBEndpoint) (s : TUSBSpeed)
  : CUSBRequest :=
  mkURB pEndpointSync SyncEPBuffer (feedback_payload s)
        [Int.u16 (feedback_payload s)] ToSyncCompletionHandler.

(** A method that returns. *)
Definition returns {A} (m : M A) : Prop :=
  forall w, exists a w', m w = Returns a w'.

(** A method that leaves [view] alone unless it returns TRUE. *)
Definition refuses {V} (view : World -> V) (m : M bool) : Prop :=
  forall w,
    match m w with
    | Returns true _ => True
    | o => same view w (final o)
    end.

(** ** Operations on a configured device *)

(** The calls of a user of a configured device and the completions of the
    host. *)
Inductive Operation : Type :=
| Happens (e : Event)
| CallSetup (nSampleRate : Z)
| CallSetMute (bEnable : bool)
| CallSetVolume (nChannel ndB : Z)
| CallGetChunkSizeBytes
| CallGetDeviceInfo.

Definition perform (op : Operation) (w : World) : option (Outcome unit) :=
  match op with
  | Happens e => fire e w
  | CallSetup nSampleRate => Some (unit_outcome (Setup nSampleRate w))
  | CallSetMute bEnable => Some (unit_outcome (SetMute bEnable w))
  | CallSetVolume nChannel ndB =>
      Some (unit_outcome (SetVolume nChannel ndB w))
  | CallGetChunkSizeBytes => Some (unit_outcome (GetChunkSizeBytes w))
  | CallGetDeviceInfo => Some (unit_outcome (GetDeviceInfo w))
  end.

(** The world after a sequence of operations; a completion without a
    request is skipped, and the system stops where a method halts. *)
Fixpoint after (ops : list Operation) (w : World) : World :=
  match ops with
  | [] => w
  | op :: ops' =>
      match perform op w with
      | Some (Returns _ w1) => after ops' w1
      | Some (Halted w1) => w1
      | None => after ops' w
      end
  end.

(** All of the world but the descriptor cursor of the interface. *)
Definition outside_func (w : World) :=
  (dev w, host w, function0 w, registry w, this w).

(** The table of sample rate ranges. *)
Definition rate_view (w : World) :=
  (SampleRateRanges (m_DeviceInfo (dev w)),
   SampleRateRange (m_DeviceInfo (dev w))).

(** The feature unit, and the flag of the volume control. *)
Definition feature_unit_view (w : World) := m_uchFeatureUnitID (dev w).
Definition volume_flag_view (w : World) :=
  VolumeSupported (m_DeviceInfo (dev w)).

(** What [Setup], [SetMute] and [SetVolume] need of a configured device:
    the OUT endpoint of a v1.00 interface, the clock source of a v2.00
    interface, and the feature unit of a supported control. *)
Definition usable (w : World) : Prop :=
  (m_bVer200 (dev w) = false -> is_Some (m_pEndpointOut (dev w)))
  /\ (m_bVer200 (dev w) = true ->
      m_uchClockSourceID (dev w) <> USB_AUDIO_UNDEFINED_UNIT_ID)
  /\ (MuteSupported (m_DeviceInfo (dev w)) = true ->
      m_uchFeatureUnitID (dev w) <> USB_AUDIO_UNDEFINED_UNIT_ID).

(** * Properties *)

(** ** Running the methods *)

Ltac run_M :=
  cbv beta iota delta
    [mbind M_bind mret M_ret assert require get_dev get_host upd_dev upd_info].

Lemma Zsum_app (l k : list Z) : Zsum (l ++ k) = Zsum l + Zsum k.
Proof. induction l as [|x l IH]; simpl; lia. Qed.

Lemma u32_small (z : Z) : 0 <= z < 2 ^ 32 -> Int.u32 z = z.
Proof. intros H. unfold Int.u32. apply Z.mod_small. exact H. Qed.

Lemma u16_small (z : Z) : 0 <= z < 2 ^ 16 -> Int.u16 z = z.
Proof. intros H. unfold Int.u16. apply Z.mod_small. exact H. Qed.

Lemma USBFrameRate_cases (s : TUSBSpeed) :
  USBFrameRate s = 1000 \/ USBFrameRate s = 8000.
Proof. destruct s; cbv; auto. Qed.

Lemma for_loop_UpdateChunkSize (F : Z) (count i : nat) (n : Z) (w : World) :
  for_loop count (Z.of_nat i) (UpdateChunkSize_body F) n w =
  let r := Sync.loop count i (m_nSampleRate (dev w)) F (m_nSyncAccu (dev w))
                     (m_usPacketSizeBytes (dev w)) n in
  Returns r.2
    (with_dev (set_usPacketSizeBytes r.1.2 (set_nSyncAccu r.1.1 (dev w))) w).
Proof.
  revert i n w. induction count as [|count IH]; intros i n w.
  - destruct w as [d h f c r t]. destruct d. reflexivity.
  - cbn [for_loop]. unfold mbind at 1, M_bind at 1.
    unfold UpdateChunkSize_body at 1. run_M.
    replace (Z.of_nat i + 1) with (Z.of_nat (S i)) by lia.
    rewrite IH. rewrite Nat2Z.id.
    destruct w as [d h f c r t]. destruct d. reflexivity.
Qed.

Lemma UpdateChunkSize_run (w : World) :
  m_bSynchronousSync (dev w) = true ->
  0 < m_nSampleRate (dev w) ->
  UpdateChunkSize w =
  Returns tt
    (with_dev (UpdateChunkSize_dev (USBFrameRate (Speed (host w))) (dev w)) w).
Proof.
  intros Hs Hr. unfold UpdateChunkSize. run_M.
  rewrite Hs. apply Z.ltb_lt in Hr. rewrite Hr.
  change 0 with (Z.of_nat 0) at 1.
  cbn [host with_dev dev].
  rewrite for_loop_UpdateChunkSize.
  destruct w as [d h f c r t]. destruct d. reflexivity.
Qed.

Lemma intervals_total (count : nat) (R F acc : Z) :
  0 < F ->
  F * Zsum (Sync.frames_of count R F acc) + Sync.accu_after count R F acc
  = acc + Z.of_nat count * R.
Proof.
  intros HF. revert acc. unfold Sync.frames_of, Sync.accu_after.
  induction count as [|count IH]; intros acc.
  - simpl. lia.
  - cbn [Sync.intervals fst snd Zsum foldr].
    specialize (IH ((acc + R) mod F)). unfold Zsum in IH.
    pose proof (Z.div_mod (acc + R) F ltac:(lia)). nia.
Qed.

Lemma intervals_accu (count : nat) (R F acc : Z) :
  0 < F -> 0 <= acc < F -> 0 <= Sync.accu_after count R F acc < F.
Proof.
  intros HF. revert acc. unfold Sync.accu_after.
  induction count as [|count IH]; intros acc Hacc.
  - exact Hacc.
  - cbn [Sync.intervals snd]. apply IH. apply Z.mod_pos_bound. exact HF.
Qed.

Lemma intervals_length (count : nat) (R F acc : Z) :
  length (Sync.frames_of count R F acc) = count.
Proof.
  revert acc. unfold Sync.frames_of.
  induction count as [|count IH]; intros acc; cbn [Sync.intervals fst length].
  - reflexivity.
  - f_equal. apply IH.
Qed.

Lemma intervals_app (n m : nat) (R F acc : Z) :
  Sync.frames_of (n + m) R F acc
  = Sync.frames_of n R F acc
    ++ Sync.frames_of m R F (Sync.accu_after n R F acc)
  /\ Sync.accu_after (n + m) R F acc
     = Sync.accu_after m R F (Sync.accu_after n R F acc).
Proof.
  revert acc. unfold Sync.frames_of, Sync.accu_after.
  induction n as [|n IH]; intros acc.
  - split; reflexivity.
  - cbn [Nat.add Sync.intervals fst snd].
    destruct (IH ((acc + R) mod F)) as [IH1 IH2].
    rewrite IH1, IH2. split; reflexivity.
Qed.

Lemma frame_bound (R F acc K : Z) :
  0 < F -> 0 <= acc < F -> 0 <= R <= K * F -> 0 <= (acc + R) / F <= K.
Proof.
  intros HF Hacc HR. split.
  - apply Z.div_pos; lia.
  - apply Z.lt_succ_r. apply Z.div_lt_upper_bound; nia.
Qed.

(** Below the bounds of the machine types the loop of the code computes the
    distribution of the specification. *)
Lemma loop_intervals (count i : nat) (R F acc : Z) (tbl : list Z) (n : Z) :
  0 < F <= 8000 ->
  0 <= acc < F ->
  0 <= R <= 16383 * F ->
  (i + count <= length tbl)%nat ->
  0 <= n -> n + 65535 * Z.of_nat count < 2 ^ 32 ->
  Sync.loop count i R F acc tbl n =
  (Sync.accu_after count R F acc,
   take i tbl ++ Sync.sizes_of (Sync.frames_of count R F acc)
     ++ drop (i + count) tbl,
   n + Zsum (Sync.sizes_of (Sync.frames_of count R F acc))).
Proof.
  intros HF. revert i acc tbl n.
  unfold Sync.frames_of, Sync.accu_after.
  induction count as [|count IH]; intros i acc tbl n Hacc HR Hlen Hn0 Hn.
  - cbn [Sync.loop Sync.intervals fst snd Sync.sizes_of map Zsum foldr].
    rewrite Nat.add_0_r, app_nil_l, take_drop. f_equal. lia.
  - cbn [Sync.loop].
    pose proof (frame_bound R F acc 16383 ltac:(lia) Hacc HR) as Hfr.
    rewrite (u32_small (acc + R)) by lia.
    set (frames := (acc + R) / F) in *.
    assert (Hv : Int.u16 (Int.u32 (frames * CHANNELS * SUBFRAME_SIZE))
                 = frames * 4).
    { unfold CHANNELS, SUBFRAME_SIZE.
      rewrite u32_small by lia. rewrite u16_small by lia. lia. }
    rewrite Hv.
    rewrite list_lookup_insert_eq by lia. cbn [default from_option id].
    rewrite (u32_small (n + frames * 4)) by lia.
    rewrite IH; [ | apply Z.mod_pos_bound; lia | lia
                  | rewrite length_insert; lia | lia | lia ].
    cbn [Sync.intervals fst snd Sync.sizes_of map Zsum foldr].
    fold frames.
    rewrite (take_S_r _ i (frames * 4)) by (apply list_lookup_insert_eq; lia).
    rewrite take_insert_ge by lia.
    rewrite drop_insert_lt by lia.
    replace (S i + count)%nat with (i + S count)%nat by lia.
    rewrite Z.add_assoc, <- app_assoc. reflexivity.
Qed.

Lemma Zsum_sizes_of (fs : list Z) : Zsum (Sync.sizes_of fs) = 4 * Zsum fs.
Proof. induction fs as [|f fs IH]; simpl in *; lia. Qed.

Lemma sizes_of_app (fs gs : list Z) :
  Sync.sizes_of (fs ++ gs) = Sync.sizes_of fs ++ Sync.sizes_of gs.
Proof. unfold Sync.sizes_of. apply map_app. Qed.

(** One recomputation from a world that is ready for it. *)
Lemma UpdateChunkSize_ready (R : Z) (w : World) :
  let F := USBFrameRate (Speed (host w)) in
  let P := Z.to_nat (F / 1000) in
  let acc := m_nSyncAccu (dev w) in
  Sync.ready R w ->
  0 < R <= 16383 * F ->
  exists w',
    UpdateChunkSize w = Returns tt w'
    /\ host w' = host w
    /\ m_nPacketsPerChunk (dev w') = F / 1000
    /\ take P (m_usPacketSizeBytes (dev w'))
       = Sync.sizes_of (Sync.frames_of P R F acc)
    /\ m_nChunkSizeBytes (dev w')
       = Zsum (Sync.sizes_of (Sync.frames_of P R F acc))
    /\ m_nSyncAccu (dev w') = Sync.accu_after P R F acc
    /\ Sync.ready R w'.
Proof.
  intros F P acc (Hs & Hr & Hacc & Hlen) HR.
  exists (with_dev (UpdateChunkSize_dev F (dev w)) w).
  split; [apply UpdateChunkSize_run; [exact Hs | lia] |].
  assert (HP : (P <= 8)%nat /\ 0 < F <= 8000).
  { subst P. destruct (USBFrameRate_cases (Speed (host w))) as [E|E];
      fold F in E; rewrite E; split; try lia;
      vm_compute; lia. }
  destruct HP as [HP HF].
  pose proof (loop_intervals P 0 R F acc (m_usPacketSizeBytes (dev w)) 0
                HF Hacc ltac:(lia)) as HL.
  rewrite Hlen in HL. unfold MaxPacketsPerChunk in HL.
  specialize (HL ltac:(lia) ltac:(lia) ltac:(lia)).
  rewrite take_0, app_nil_l, Z.add_0_l, Nat.add_0_l in HL.
  pose proof (intervals_accu P R F acc ltac:(lia) Hacc) as Ha.
  pose proof (intervals_length P R F acc) as Hfl.
  unfold UpdateChunkSize_dev, CHUNK_FREQUENCY.
  fold P. rewrite Hr. fold acc. rewrite HL.
  destruct w as [d h f c r t]. destruct d. cbn in *.
  repeat split; cbn; try lia; try assumption.
  - rewrite take_app_length'; [reflexivity |].
    unfold Sync.sizes_of. rewrite length_map. lia.
  - rewrite length_app, length_drop. unfold Sync.sizes_of.
    rewrite length_map, Hfl, Hlen. unfold MaxPacketsPerChunk. lia.
Qed.

Lemma run_chunks_app (k n : nat) (w w1 w2 : World) (s1 s2 : list Z) :
  Sync.run_chunks k w = Returns s1 w1 ->
  Sync.run_chunks n w1 = Returns s2 w2 ->
  Sync.run_chunks (k + n) w = Returns (s1 ++ s2) w2.
Proof.
  revert w s1. induction k as [|k IH]; intros w s1 H1 H2.
  - cbn in H1. injection H1 as <- <-. exact H2.
  - cbn [Nat.add Sync.run_chunks] in *. revert H1. run_M.
    destruct (UpdateChunkSize w) as [[] wa|wa]; [|discriminate].
    destruct (Sync.run_chunks k wa) as [sa wb|wb] eqn:E; [|discriminate].
    intros H1. injection H1 as <- <-.
    rewrite (IH wa sa E H2). reflexivity.
Qed.

(** [n] recomputations in a row emit the frames of [n] times the packets of
    a chunk. *)
Lemma run_chunks_ready (n : nat) (R : Z) (w : World) :
  let F := USBFrameRate (Speed (host w)) in
  let P := Z.to_nat (F / 1000) in
  let acc := m_nSyncAccu (dev w) in
  Sync.ready R w ->
  0 < R <= 16383 * F ->
  exists sizes w',
    Sync.run_chunks n w = Returns sizes w'
    /\ host w' = host w
    /\ length sizes = n
    /\ Zsum sizes = 4 * Zsum (Sync.frames_of (n * P) R F acc)
    /\ m_nSyncAccu (dev w') = Sync.accu_after (n * P) R F acc
    /\ Sync.ready R w'.
Proof.
  revert w. induction n as [|n IH]; intros w F P acc Hready HR.
  - exists [], w. cbn. repeat split; try reflexivity; apply Hready.
  - destruct (UpdateChunkSize_ready R w Hready HR)
      as (w1 & Hrun & Hh & _ & _ & Hchunk & Hacc1 & Hready1).
    fold F in Hchunk, Hacc1. fold P in Hchunk, Hacc1. fold acc in Hchunk, Hacc1.
    specialize (IH w1 Hready1). rewrite Hh in IH. fold F in IH. fold P in IH.
    destruct (IH HR) as (sizes & w' & Hrest & Hh' & Hlen & Hsum & Hacc' & Hr').
    exists (m_nChunkSizeBytes (dev w1) :: sizes), w'.
    cbn [Sync.run_chunks]. run_M. rewrite Hrun, Hrest.
    destruct (intervals_app P (n * P) R F acc) as [Hf Ha].
    repeat split.
    + congruence.
    + cbn. lia.
    + cbn [Nat.mul Zsum foldr]. fold (Zsum sizes).
      rewrite Hsum, Hchunk, Hf, Zsum_sizes_of, Zsum_app, Hacc1. lia.
    + cbn [Nat.mul]. rewrite Hacc', Ha, Hacc1. reflexivity.
    + apply Hr'. + apply Hr'. + apply Hr'. + apply Hr'. + apply Hr'.
Qed.

Example synchronous_44100_full_speed :
  (Setup 44100;; Sync.run_chunks 10)
    (final (Configure (Sample.synchronous USBSpeedFull)))
  = Returns [176; 176; 176; 176; 176; 176; 176; 176; 180; 176]
      (final ((Setup 44100;; Sync.run_chunks 10)
                (final (Configure (Sample.synchronous USBSpeedFull))))).
Proof. vm_compute. reflexivity. Qed.

Example synchronous_44100_high_speed_table :
  let w := Sample.started (Sample.synchronous USBSpeedHigh) 44100 in
  m_usPacketSizeBytes (dev w) = [20; 24; 20; 24; 20; 24; 20; 24]
  /\ m_nChunkSizeBytes (dev w) = 176
  /\ m_nSyncAccu (dev w) = 800.
Proof. vm_compute. auto. Qed.

(** C1. Under the synchronous discipline a recomputation returns, and for
    the packets of the chunk (frame rate / 1000 of them; the frame rate is 1000
    at full speed and 8000 at high speed) it computes the distribution of the
    specification: the rate is added to the accumulator, the frames of the
    packet are the accumulator divided by the frame rate, the accumulator is
    reduced modulo the frame rate, the packet size is 4 bytes per frame and the
    chunk size is the sum of the packet sizes. After it the accumulator is in
    [0, frame rate) and the next recomputation can run. Over the chunks
    k+1 .. k + frame rate / 1000 of any run of recomputations the frames
    emitted, T, differ from rate / 1000 * (frame rate / 1000) by less than one
    frame. The rate is one that the 32-bit accumulator and the 16-bit table
    entries hold: at most 16383 frames per packet. *)
Theorem UpdateChunkSize_synchronous (R : Z) (w : World) :
  let F := USBFrameRate (Speed (host w)) in
  let P := Z.to_nat (F / 1000) in
  let acc := m_nSyncAccu (dev w) in
  Sync.ready R w ->
  0 < R <= 16383 * F ->
  F = (if is_full_speed (Speed (host w)) then 1000 else 8000)
  /\ (exists w',
        UpdateChunkSize w = Returns tt w'
        /\ m_nPacketsPerChunk (dev w') = F / 1000
        /\ take P (m_usPacketSizeBytes (dev w'))
           = Sync.sizes_of (Sync.frames_of P R F acc)
        /\ m_nChunkSizeBytes (dev w')
           = Zsum (take P (m_usPacketSizeBytes (dev w')))
        /\ m_nSyncAccu (dev w') = Sync.accu_after P R F acc
        /\ 0 <= m_nSyncAccu (dev w') < F
        /\ Sync.ready R w')
  /\ (forall k : nat, exists sizes w',
        Sync.run_chunks (k + P) w = Returns sizes w'
        /\ length sizes = (k + P)%nat
        /\ exists T,
             Zsum (drop k sizes) = 4 * T
             /\ -1000 < 1000 * T - R * (F / 1000) < 1000).
Proof.
  intros F P acc Hready HR. split; [reflexivity |]. split.
  - destruct (UpdateChunkSize_ready R w Hready HR)
      as (w' & Hrun & Hh & Hp & Htbl & Hchunk & Hacc & Hr').
    exists w'. pose proof Hr' as (_ & _ & Ha & _). rewrite Hh in Ha.
    fold F in Ha. fold F in Htbl. fold P in Htbl.
    rewrite Htbl. auto 10.
  - intros k.
    destruct (run_chunks_ready k R w Hready HR)
      as (s1 & w1 & Hrun1 & Hh1 & Hlen1 & _ & _ & Hready1).
    assert (HR1 : 0 < R <= 16383 * USBFrameRate (Speed (host w1)))
      by (rewrite Hh1; exact HR).
    destruct (run_chunks_ready P R w1 Hready1 HR1)
      as (s2 & w2 & Hrun2 & Hh2 & Hlen2 & Hsum2 & Hacc2 & Hready2).
    rewrite Hh1 in Hsum2, Hacc2. fold F in Hsum2, Hacc2. fold P in Hsum2, Hacc2.
    exists (s1 ++ s2), w2. split; [exact (run_chunks_app _ _ _ _ _ _ _ Hrun1 Hrun2) |].
    split; [rewrite length_app; lia |].
    exists (Zsum (Sync.frames_of (P * P) R F (m_nSyncAccu (dev w1)))).
    split; [rewrite drop_app_length' by (symmetry; exact Hlen1); exact Hsum2 |].
    destruct Hready1 as (_ & _ & Ha1 & _). rewrite Hh1 in Ha1. fold F in Ha1.
    destruct Hready2 as (_ & _ & Ha2 & _).
    rewrite Hh2, Hh1, Hacc2 in Ha2. fold F in Ha2.
    pose proof (intervals_total (P * P) R F (m_nSyncAccu (dev w1))) as Ht.
    subst P.
    destruct (USBFrameRate_cases (Speed (host w))) as [E|E]; fold F in E;
      rewrite E in *.
    + change (Z.to_nat (1000 / 1000)) with 1%nat in *.
      change (1000 / 1000) with 1. cbn [Nat.mul Nat.add] in *. lia.
    + change (Z.to_nat (8000 / 1000)) with 8%nat in *.
      change (8000 / 1000) with 8. cbn [Nat.mul Nat.add] in *. lia.
Qed.

Lemma UpdateChunkSize_synchronous_witness :
  let w := Sample.started (Sample.synchronous USBSpeedHigh) 44100 in
  Sync.ready 44100 w
  /\ exists sizes w',
       Sync.run_chunks (3 + 8) w = Returns sizes w'
       /\ length sizes = (3 + 8)%nat
       /\ exists T,
            Zsum (drop 3 sizes) = 4 * T
            /\ -1000 < 1000 * T - 44100 * (8000 / 1000) < 1000.
Proof.
  intros w.
  assert (Hready : Sync.ready 44100 w)
    by (vm_compute; repeat split; congruence).
  split; [exact Hready |].
  destruct (UpdateChunkSize_synchronous 44100 w Hready
              ltac:(vm_compute; split; congruence)) as (_ & _ & Hwin).
  exact (Hwin 3%nat).
Defined.

Lemma SyncCompletionHandler_ok (nStatus nResultLength : Z) (w : World) :
  m_bSyncEPActive (dev w) = true ->
  nStatus <> 0 ->
  SyncCompletionHandler nStatus nResultLength w
  = Returns tt (with_dev (Async.completed nResultLength (dev w)) w).
Proof.
  intros Hf Hs. unfold SyncCompletionHandler. run_M.
  rewrite Hf. apply Z.eqb_neq in Hs. rewrite Hs. cbn [negb andb].
  unfold Async.completed, Async.fractional_bits, Async.sample.
  destruct w as [d h f c r t]. destruct d.
  destruct (nResultLength =? 3); reflexivity.
Qed.

Lemma SyncCompletionHandler_failed (nResultLength : Z) (w : World) :
  m_bSyncEPActive (dev w) = true ->
  SyncCompletionHandler 0 nResultLength w
  = Returns tt (with_dev (set_bSyncEPActive false (dev w)) w).
Proof.
  intros Hf. unfold SyncCompletionHandler. run_M.
  rewrite Hf. reflexivity.
Qed.

Lemma shiftr_range (a bits hi : Z) :
  0 <= bits -> 0 <= a < 2 ^ bits * hi -> 0 <= Z.shiftr a bits < hi.
Proof.
  intros Hb Ha. rewrite Z.shiftr_div_pow2 by lia.
  assert (0 < 2 ^ bits) by (apply Z.pow_pos_nonneg; lia).
  split; [apply Z.div_pos; lia | apply Z.div_lt_upper_bound; lia].
Qed.

(** Without overflow of the 32-bit accumulator the handler computes the
    update of the specification. *)
Lemma completed_update (nResultLength : Z) (d : Device) :
  let bits := Async.fractional_bits nResultLength in
  let raw := Async.sample nResultLength (m_SyncEPBuffer d) in
  0 <= m_nSyncAccu d -> 0 <= raw -> m_nSyncAccu d + raw < 2 ^ 32 ->
  m_nChunkSizeBytes (Async.completed nResultLength d)
  = (Async.update (m_nSyncAccu d) raw bits).1
  /\ m_nSyncAccu (Async.completed nResultLength d)
     = (Async.update (m_nSyncAccu d) raw bits).2.
Proof.
  intros bits raw Ha Hr Hsum.
  assert (Hbits : bits = 14 \/ bits = 16)
    by (subst bits; unfold Async.fractional_bits;
        destruct (nResultLength =? 3); auto).
  unfold Async.completed, Async.update. fold bits. fold raw.
  clearbody bits raw.
  destruct d. cbn [m_nSyncAccu m_nChunkSizeBytes set_bSyncEPActive
                   set_nSyncAccu set_nChunkSizeBytes fst snd] in *.
  rewrite (u32_small (m_nSyncAccu0 + raw)) by lia.
  split.
  - unfold CHANNELS, SUBFRAME_SIZE.
    assert (0 <= Z.shiftr (m_nSyncAccu0 + raw) bits < 2 ^ 18).
    { destruct Hbits as [-> | ->]; apply shiftr_range; lia. }
    rewrite u32_small by lia. lia.
  - rewrite <- Z.land_ones by lia. f_equal. rewrite Z.ones_equiv. lia.
Qed.

(** The accumulator is reduced modulo 2 ^ bits whatever the sum. *)
Lemma completed_accu (nResultLength : Z) (d : Device) :
  let bits := Async.fractional_bits nResultLength in
  m_nSyncAccu (Async.completed nResultLength d)
  = (m_nSyncAccu d + Async.sample nResultLength (m_SyncEPBuffer d))
    mod 2 ^ bits.
Proof.
  intros bits.
  assert (Hbits : bits = 14 \/ bits = 16)
    by (subst bits; unfold Async.fractional_bits;
        destruct (nResultLength =? 3); auto).
  unfold Async.completed. fold bits. clearbody bits. destruct d.
  cbn [m_nSyncAccu m_SyncEPBuffer set_bSyncEPActive set_nSyncAccu
       set_nChunkSizeBytes].
  replace (2 ^ bits - 1) with (Z.ones bits) by (rewrite Z.ones_equiv; lia).
  rewrite Z.land_ones by lia. unfold Int.u32.
  destruct Hbits as [-> | ->].
  - apply Z.mod_mod_divide. exists (2 ^ 18). lia.
  - apply Z.mod_mod_divide. exists (2 ^ 16). lia.
Qed.

Lemma completions_constant (n : nat) (nStatus : Z) (w : World) :
  nStatus <> 0 ->
  0 <= m_nSyncAccu (dev w) < 2 ^ 16 ->
  exists w',
    Async.completions (S n) nStatus 4 (Z.shiftl 48 16) w = Returns tt w'
    /\ m_nChunkSizeBytes (dev w') = 192
    /\ m_nSyncAccu (dev w') = m_nSyncAccu (dev w).
Proof.
  intros Hs. revert w.
  assert (Hstep : forall w, 0 <= m_nSyncAccu (dev w) < 2 ^ 16 ->
            exists w',
              (upd_dev (set_bSyncEPActive true);;
               upd_dev (set_SyncEPBuffer (Z.shiftl 48 16));;
               SyncCompletionHandler nStatus 4) w = Returns tt w'
              /\ m_nChunkSizeBytes (dev w') = 192
              /\ m_nSyncAccu (dev w') = m_nSyncAccu (dev w)).
  { intros w Ha. run_M.
    rewrite SyncCompletionHandler_ok; [| destruct w as [[] ?]; reflexivity | exact Hs].
    eexists. split; [reflexivity |].
    pose proof (completed_update 4
                  (set_SyncEPBuffer (Z.shiftl 48 16)
                     (set_bSyncEPActive true (dev w)))) as Hu.
    destruct w as [d h f c r t]. destruct d.
    cbn [dev with_dev m_nSyncAccu m_SyncEPBuffer set_SyncEPBuffer
         set_bSyncEPActive] in *.
    change (Async.fractional_bits 4) with 16 in Hu.
    change (Async.sample 4 (Z.shiftl 48 16)) with 3145728 in Hu.
    destruct (Hu ltac:(lia) ltac:(lia) ltac:(lia)) as [Hc Hacc].
    rewrite Hc, Hacc. unfold Async.update. cbn [fst snd].
    rewrite Z.shiftr_div_pow2 by lia.
    replace (m_nSyncAccu0 + 3145728) with (m_nSyncAccu0 + 48 * 2 ^ 16) by lia.
    rewrite Z.div_add by lia. rewrite Z.mod_add by lia.
    rewrite Z.div_small, Z.mod_small by lia. split; reflexivity. }
  induction n as [|n IH]; intros w Ha.
  - destruct (Hstep w Ha) as (w' & Hrun & Hc & Hacc).
    exists w'. split; [| auto].
    cbn [Async.completions]. revert Hrun. run_M.
    destruct (SyncCompletionHandler _ _ _) as [[] ?|?]; congruence.
  - destruct (Hstep w Ha) as (w1 & Hrun & Hc & Hacc).
    destruct (IH w1 ltac:(rewrite Hacc; exact Ha)) as (w' & Hrest & Hc' & Hacc').
    exists w'. split; [| split; [exact Hc' | congruence]].
    change (Async.completions (S (S n)) nStatus 4 (Z.shiftl 48 16) w)
      with ((upd_dev (set_bSyncEPActive true);;
             upd_dev (set_SyncEPBuffer (Z.shiftl 48 16));;
             SyncCompletionHandler nStatus 4;;
             Async.completions (S n) nStatus 4 (Z.shiftl 48 16)) w).
    revert Hrun. run_M.
    destruct (SyncCompletionHandler _ _ _) as [[] ?|?]; [| discriminate].
    intros [= ->]. exact Hrest.
Qed.

(** C2. Under the asynchronous discipline a successful feedback completion
    returns and adds the raw sample to the accumulator (a 3-byte payload, the
    payload requested at full speed, is a Q10.14 sample with 14 fractional
    bits; the 4-byte payload requested at high speed a Q16.16 sample with 16),
    sets the chunk size to (accumulator >> fractional bits) * 4 bytes and
    reduces the accumulator modulo 2 ^ fractional bits; the sum is one that
    the 32-bit accumulator holds. For constant Q16.16 samples of 48 << 16 the
    chunk size is 192 bytes after every completion. *)
Theorem SyncCompletionHandler_asynchronous (nStatus nResultLength : Z)
  (w : World) :
  let bits := Async.fractional_bits nResultLength in
  let raw := Async.sample nResultLength (m_SyncEPBuffer (dev w)) in
  let accumulator := m_nSyncAccu (dev w) + raw in
  m_bSyncEPActive (dev w) = true ->
  nStatus <> 0 ->
  0 <= m_nSyncAccu (dev w) < 2 ^ 16 ->
  0 <= raw -> accumulator < 2 ^ 32 ->
  (Async.fractional_bits (feedback_payload USBSpeedFull) = 14
   /\ Async.fractional_bits (feedback_payload USBSpeedHigh) = 16)
  /\ (exists w',
        SyncCompletionHandler nStatus nResultLength w = Returns tt w'
        /\ m_nChunkSizeBytes (dev w') = Z.shiftr accumulator bits * 4
        /\ m_nSyncAccu (dev w') = accumulator mod 2 ^ bits
        /\ 0 <= m_nSyncAccu (dev w') < 2 ^ 16)
  /\ (forall n : nat, exists w',
        Async.completions (S n) nStatus (feedback_payload USBSpeedHigh)
                          (Z.shiftl 48 16) w = Returns tt w'
        /\ m_nChunkSizeBytes (dev w') = 192).
Proof.
  intros bits raw accumulator Hf Hs Ha Hraw Hsum.
  split; [split; reflexivity |]. split.
  - exists (with_dev (Async.completed nResultLength (dev w)) w).
    split; [apply SyncCompletionHandler_ok; assumption |].
    destruct (completed_update nResultLength (dev w)
                ltac:(lia) Hraw Hsum) as [Hc Hacc].
    destruct w as [d h f c r t]. cbn [dev with_dev] in *.
    rewrite Hc, Hacc. unfold Async.update. cbn [fst snd].
    subst accumulator bits.
    assert (Hb : Async.fractional_bits nResultLength = 14
                 \/ Async.fractional_bits nResultLength = 16)
      by (unfold Async.fractional_bits; destruct (nResultLength =? 3); auto).
    split; [reflexivity |]. split; [reflexivity |].
    destruct Hb as [-> | ->].
    + fold raw. pose proof (Z.mod_pos_bound (m_nSyncAccu d + raw) (2 ^ 14)).
      clearbody raw. lia.
    + fold raw. pose proof (Z.mod_pos_bound (m_nSyncAccu d + raw) (2 ^ 16)).
      clearbody raw. lia.
  - intros n.
    destruct (completions_constant n nStatus w Hs Ha) as (w' & Hrun & Hc & _).
    exists w'. split; assumption.
Qed.

Lemma SyncCompletionHandler_asynchronous_witness :
  let w := with_dev (set_bSyncEPActive true
                       (set_SyncEPBuffer (Z.shiftl 48 16)
                          (dev (Sample.started
                                  (Sample.asynchronous USBSpeedHigh) 48000))))
                    (Sample.started (Sample.asynchronous USBSpeedHigh) 48000)
  in
  exists w',
    SyncCompletionHandler 1 4 w = Returns tt w'
    /\ m_nChunkSizeBytes (dev w') = Z.shiftr (0 + 3145728) 16 * 4
    /\ m_nSyncAccu (dev w') = (0 + 3145728) mod 2 ^ 16
    /\ 0 <= m_nSyncAccu (dev w') < 2 ^ 16.
Proof.
  intros w.
  destruct (SyncCompletionHandler_asynchronous 1 4 w) as (_ & H & _).
  - reflexivity.
  - lia.
  - vm_compute. split; congruence.
  - vm_compute. congruence.
  - vm_compute. reflexivity.
  - exact H.
Defined.

(** C5, as amended. A feedback read that ends with a transport error
    ([GetStatus] is 0) leaves the chunk size and the accumulator unchanged,
    whatever its length: the handler returns and only clears the in-flight
    flag. *)
Theorem SyncCompletionHandler_transport_error (nResultLength : Z) (w : World) :
  m_bSyncEPActive (dev w) = true ->
  exists w',
    SyncCompletionHandler 0 nResultLength w = Returns tt w'
    /\ m_nChunkSizeBytes (dev w') = m_nChunkSizeBytes (dev w)
    /\ m_nSyncAccu (dev w') = m_nSyncAccu (dev w)
    /\ m_usPacketSizeBytes (dev w') = m_usPacketSizeBytes (dev w)
    /\ w' = with_dev (set_bSyncEPActive false (dev w)) w.
Proof.
  intros Hf. eexists. split; [apply SyncCompletionHandler_failed, Hf |].
  destruct w as [d h f c r t]. destruct d. cbn. auto.
Qed.

Example feedback_cycle_high_speed :
  option_map (fun w => (m_nChunkSizeBytes (dev w), m_nSyncAccu (dev w),
                        length (feedback_reads w)))
    (run_events
       [CallSendChunk 8192 192 None 0;
        FeedbackCompletes 1 (Int.to_bytes 4 (Z.shiftl 48 16));
        DataCompletes;
        CallSendChunk 8192 192 None 0;
        FeedbackCompletes 1 (Int.to_bytes 4 (Z.shiftl 48 16))]
       (Sample.started (Sample.asynchronous USBSpeedHigh) 48000))
  = Some (192, 0, 0%nat).
Proof. vm_compute. reflexivity. Qed.

(** C5, against the specification as written. At full speed the feedback read asks for
    3 bytes. When the transfer succeeds with 2 bytes only, 0x34 and 0x12, the
    handler takes the buffer as a Q16.16 sample: from a chunk size of 192
    bytes and an accumulator of 0 it goes to a chunk size of 0 and an
    accumulator of 4660. *)
Lemma SyncCompletionHandler_wrong_length_recomputes :
  m_bSyncEPActive
    (dev (Sample.in_flight
            (Sample.started (Sample.asynchronous USBSpeedFull) 48000)))
  = true
  /\ feedback_payload USBSpeedFull = 3
  /\ m_nChunkSizeBytes
       (dev (Sample.in_flight
               (Sample.started (Sample.asynchronous USBSpeedFull) 48000)))
     = 192
  /\ m_nSyncAccu
       (dev (Sample.in_flight
               (Sample.started (Sample.asynchronous USBSpeedFull) 48000)))
     = 0
  /\ exists w',
       fire (FeedbackCompletes 1 [52; 18])
            (Sample.in_flight
               (Sample.started (Sample.asynchronous USBSpeedFull) 48000))
       = Some (Returns tt w')
       /\ m_nChunkSizeBytes (dev w') = 0
       /\ m_nSyncAccu (dev w') = 4660.
Proof.
  split; [vm_compute; reflexivity |]. split; [reflexivity |].
  split; [vm_compute; reflexivity |]. split; [vm_compute; reflexivity |].
  exists (default (Sample.continuous)
            (returned
               (fire (FeedbackCompletes 1 [52; 18])
                  (Sample.in_flight
                     (Sample.started (Sample.asynchronous USBSpeedFull)
                                      48000))))).
  split; [vm_compute; reflexivity |].
  split; vm_compute; reflexivity.
Qed.

Lemma SyncCompletionHandler_transport_error_witness :
  exists w',
    SyncCompletionHandler 0 0
      (Sample.in_flight
         (Sample.started (Sample.asynchronous USBSpeedFull) 48000))
    = Returns tt w'
    /\ m_nChunkSizeBytes (dev w') = 192.
Proof.
  destruct (SyncCompletionHandler_transport_error 0
              (Sample.in_flight
                 (Sample.started (Sample.asynchronous USBSpeedFull) 48000))
              ltac:(vm_compute; reflexivity)) as (w' & Hrun & Hc & _).
  exists w'. split; [exact Hrun |]. rewrite Hc. vm_compute. reflexivity.
Defined.

(** ** One feedback read at a time *)

Lemma for_loop_AddIsoPacket (d : Device) (count : nat) (i : Z)
  (pURB : CUSBRequest) (w : World) :
  exists pURB',
    for_loop count i
      (fun i pURB =>
         mret (AddIsoPacket (default 0 (m_usPacketSizeBytes d !! Z.to_nat i))
                            pURB)) pURB w
    = Returns pURB' w
    /\ urb_completion pURB' = urb_completion pURB.
Proof.
  revert i pURB. induction count as [|count IH]; intros i pURB.
  - exists pURB. split; reflexivity.
  - cbn [for_loop]. run_M.
    destruct (IH (i + 1)
                 (AddIsoPacket (default 0 (m_usPacketSizeBytes d !! Z.to_nat i))
                               pURB)) as (pURB' & Hrun & Hc).
    exists pURB'. split; [exact Hrun | exact Hc].
Qed.

(** [UpdateChunkSize] leaves the host and the in-flight flag alone, also
    where it halts. *)
Lemma UpdateChunkSize_frame (w : World) :
  host (final (UpdateChunkSize w)) = host w
  /\ m_bSyncEPActive (dev (final (UpdateChunkSize w)))
     = m_bSyncEPActive (dev w).
Proof.
  destruct (m_bSynchronousSync (dev w)) eqn:Hs.
  - destruct (Z.ltb_spec 0 (m_nSampleRate (dev w))) as [Hr|Hr].
    + rewrite (UpdateChunkSize_run w Hs Hr).
      destruct w as [d h f c r t]. destruct d. split; reflexivity.
    + unfold UpdateChunkSize. run_M. rewrite Hs.
      apply Z.ltb_ge in Hr. rewrite Hr. split; reflexivity.
  - unfold UpdateChunkSize. run_M. rewrite Hs. split; reflexivity.
Qed.

Lemma feedback_reads_frame (w w' : World) :
  host w' = host w -> feedback_reads w' = feedback_reads w.
Proof. unfold feedback_reads. intros ->. reflexivity. Qed.

Lemma in_flight_inv_frame (w w' : World) :
  host w' = host w ->
  m_bSyncEPActive (dev w') = m_bSyncEPActive (dev w) ->
  in_flight_inv w -> in_flight_inv w'.
Proof.
  unfold in_flight_inv. intros Hh Hf.
  rewrite (feedback_reads_frame w w' Hh), Hf. auto.
Qed.

Lemma data_submitted_frame (pURB : CUSBRequest) (w : World) :
  is_sync_urb pURB = false ->
  feedback_reads (data_submitted pURB w) = feedback_reads w
  /\ dev (data_submitted pURB w) = dev w.
Proof.
  intros Hk. unfold data_submitted, SubmitAsyncRequest, feedback_reads.
  cbn [final host with_host set_submitted pending dev].
  split; [| reflexivity].
  destruct (submit_reply (host w) (submit_count (host w)) pURB);
    [| reflexivity].
  rewrite filter_app, filter_cons_False, filter_nil, app_nil_r;
    [reflexivity |].
  cbn [fst]. rewrite Hk. discriminate.
Qed.

(** What [SendChunk] does to the outstanding feedback reads and the flag:
    nothing, or the flag was clear and it sets the flag and then hands a
    feedback read to the host, which may refuse it. *)
Lemma SendChunk_feedback (pBuffer nChunkSizeBytes : Z)
  (pCompletionRoutine : option Z) (pParam : Z) (w : World) :
  let w' := final (SendChunk pBuffer nChunkSizeBytes pCompletionRoutine
                             pParam w) in
  (feedback_reads w' = feedback_reads w
   /\ (m_bSyncEPActive (dev w') = m_bSyncEPActive (dev w)
       \/ m_bSyncEPActive (dev w) = false /\ m_bSyncEPActive (dev w') = true))
  \/ (m_bSyncEPActive (dev w) = false
      /\ m_bSyncEPActive (dev w') = true
      /\ exists pURBSync,
           is_sync_urb pURBSync = true
           /\ urb_length pURBSync = feedback_payload (Speed (host w))
           /\ feedback_reads w' = feedback_reads w ++ [(pURBSync, true)]).
Proof.
  intros w'. subst w'. unfold SendChunk. run_M.
  destruct (negb (pBuffer =? 0)); [| left; auto].
  destruct (m_pEndpointOut (dev w)) as [pEndpointOut|]; [| left; auto].
  set (pURB0 := mkURB pEndpointOut (CallerBuffer pBuffer) nChunkSizeBytes []
                      (ToCompletionHandler pParam pCompletionRoutine)).
  set (packets := if m_bSynchronousSync (dev w) then _ else _).
  assert (Hdata : (exists pURB, packets w = Returns pURB w
                                /\ is_sync_urb pURB = false)
                  \/ packets w = Halted w).
  { subst packets. destruct (m_bSynchronousSync (dev w)).
    - destruct (0 <? m_nPacketsPerChunk (dev w)); [| right; reflexivity].
      destruct (for_loop_AddIsoPacket (dev w)
                  (Z.to_nat (m_nPacketsPerChunk (dev w))) 0 pURB0 w)
        as (pURB & Hrun & Hc).
      left. exists pURB. split; [exact Hrun |].
      unfold is_sync_urb. rewrite Hc. reflexivity.
    - left. exists (AddIsoPacket nChunkSizeBytes pURB0). split; reflexivity. }
  clearbody packets.
  destruct Hdata as [(pURB & -> & Hk) | ->]; [| left; auto].
  destruct (data_submitted_frame pURB w Hk) as [Hreads Hdev].
  change (SubmitAsyncRequest pURB w)
    with (Returns (submit_reply (host w) (submit_count (host w)) pURB)
                  (data_submitted pURB w)).
  set (w1 := data_submitted pURB w) in *.
  assert (Hh1 : Speed (host w1) = Speed (host w)).
  { subst w1. reflexivity. }
  destruct (UpdateChunkSize_frame w1) as [Hu1 Hu2].
  assert (Hupd : feedback_reads (final (UpdateChunkSize w1)) = feedback_reads w
                 /\ m_bSyncEPActive (dev (final (UpdateChunkSize w1)))
                    = m_bSyncEPActive (dev w)).
  { rewrite (feedback_reads_frame _ _ Hu1), Hu2, Hreads, Hdev. auto. }
  assert (Hsame : feedback_reads w1 = feedback_reads w
                  /\ m_bSyncEPActive (dev w1) = m_bSyncEPActive (dev w)).
  { rewrite Hreads, Hdev. auto. }
  assert (Hupd' : let w2 := final (match UpdateChunkSize w1 with
                                   | Returns _ w2 =>
                                       Returns (A := bool) true w2
                                   | Halted w2 => Halted w2
                                   end) in
                  feedback_reads w2 = feedback_reads w
                  /\ m_bSyncEPActive (dev w2) = m_bSyncEPActive (dev w)).
  { destruct (UpdateChunkSize w1) as [[] w2|w2]; exact Hupd. }
  clearbody w1.
  destruct (submit_reply (host w) (submit_count (host w)) pURB);
    cbn [andb].
  - destruct (m_pEndpointSync (dev w)) as [pEndpointSync|].
    + destruct (m_bSyncEPActive (dev w)) eqn:Hflag; cbn [negb].
      * destruct (m_bSynchronousSync (dev w)).
        -- left. destruct Hupd'. auto.
        -- left. cbn [final]. destruct Hsame. auto.
      * unfold SubmitAsyncRequest, feedback_reads in *.
        cbn [final dev with_dev with_host host set_bSyncEPActive
             m_bSyncEPActive set_submitted pending].
        destruct (submit_reply (host w1) (submit_count (host w1)) _) eqn:E.
        -- right. split; [reflexivity |]. split; [reflexivity |].
           eexists. split; [| split]; cycle 2.
           ++ rewrite filter_app, filter_cons_True by reflexivity.
              rewrite filter_nil. destruct Hsame as [-> _]. reflexivity.
           ++ reflexivity.
           ++ cbn [urb_length AddIsoPacket]. rewrite Hh1. reflexivity.
        -- left. destruct Hsame as [-> _]. auto.
    + destruct (m_bSynchronousSync (dev w)).
      * left. destruct Hupd'. auto.
      * left. cbn [final]. destruct Hsame. auto.
  - destruct (m_pEndpointSync (dev w)); cbn [final];
      left; destruct Hsame; auto.
Qed.

Lemma take_request_feedback (l rest : list (CUSBRequest * bool))
  (u : CUSBRequest) :
  take_request true l = Some (u, rest) ->
  exists p, filter (fun p => is_sync_urb p.1 = true) l
            = p :: filter (fun p => is_sync_urb p.1 = true) rest.
Proof.
  revert rest. induction l as [|q l IH]; intros rest; cbn [take_request].
  - discriminate.
  - destruct (is_sync_urb q.1) eqn:Hk; cbn [Bool.eqb].
    + intros [= <- <-]. exists q. rewrite filter_cons_True by exact Hk.
      reflexivity.
    + destruct (take_request true l) as [[v r]|]; [| discriminate].
      intros [= <- <-]. destruct (IH r eq_refl) as (p & Hp).
      exists p. rewrite !filter_cons_False by (rewrite Hk; discriminate).
      exact Hp.
Qed.

Lemma take_request_data (l rest : list (CUSBRequest * bool))
  (u : CUSBRequest) :
  take_request false l = Some (u, rest) ->
  filter (fun p => is_sync_urb p.1 = true) rest
  = filter (fun p => is_sync_urb p.1 = true) l.
Proof.
  revert rest. induction l as [|q l IH]; intros rest; cbn [take_request].
  - discriminate.
  - destruct (is_sync_urb q.1) eqn:Hk; cbn [Bool.eqb].
    + destruct (take_request false l) as [[v r]|]; [| discriminate].
      intros [= <- <-]. rewrite !filter_cons_True by exact Hk.
      f_equal. apply IH. reflexivity.
    + intros [= <- <-]. rewrite filter_cons_False by (rewrite Hk; discriminate).
      reflexivity.
Qed.

(** A feedback completion in a world that satisfies the invariant: the
    handler returns, whatever the status, with the flag clear and no feedback
    read left. *)
Lemma FeedbackCompletes_returns (nStatus : Z) (data : list Z) (w : World)
  (o : Outcome unit) :
  in_flight_inv w ->
  fire (FeedbackCompletes nStatus data) w = Some o ->
  exists w', o = Returns tt w'
             /\ m_bSyncEPActive (dev w') = false
             /\ feedback_reads w' = [].
Proof.
  intros [Hlen Hall]. cbn [fire].
  destruct (take_request true (pending (host w))) as [[u rest]|] eqn:E;
    [| discriminate].
  destruct (take_request_feedback _ _ _ E) as (p & Hp).
  unfold feedback_reads in *. rewrite Hp in Hlen. cbn [length] in Hlen.
  destruct (m_bSyncEPActive (dev w)) eqn:Hflag; [| lia].
  assert (Hrest : filter (fun p => is_sync_urb p.1 = true) rest = [])
    by (destruct (filter _ rest); [reflexivity | cbn in Hlen; lia]).
  intros [= <-].
  set (bytes := take (Z.to_nat (urb_length u)) data).
  destruct (Z.eq_dec nStatus 0) as [-> | Hs].
  - rewrite SyncCompletionHandler_failed
      by (destruct w as [[] ?]; exact Hflag).
    eexists. split; [reflexivity |].
    destruct w as [d h f c r t]. destruct d. cbn in *. auto.
  - rewrite SyncCompletionHandler_ok;
      [| destruct w as [[] ?]; exact Hflag | exact Hs].
    eexists. split; [reflexivity |].
    destruct w as [d h f c r t]. destruct d. cbn in *. auto.
Qed.

Lemma fire_inv (e : Event) (w : World) (o : Outcome unit) :
  in_flight_inv w -> fire e w = Some o -> in_flight_inv (final o).
Proof.
  intros Hinv. destruct e as [pBuffer n routine param | nStatus data |].
  - cbn [fire]. intros [= <-].
    pose proof (SendChunk_feedback pBuffer n routine param w) as H.
    cbn zeta in H.
    replace (final (unit_outcome (SendChunk pBuffer n routine param w)))
      with (final (SendChunk pBuffer n routine param w))
      by (destruct (SendChunk pBuffer n routine param w); reflexivity).
    destruct Hinv as [Hlen Hall]. unfold in_flight_inv.
    destruct H as [[-> [-> | [Hf ->]]] | (Hf & -> & pURBSync & _ & _ & ->)].
    + auto.
    + rewrite Hf in Hlen. split; [lia | exact Hall].
    + rewrite Hf in Hlen. split.
      * rewrite length_app. cbn [length]. lia.
      * apply Forall_app. split; [exact Hall |].
        constructor; [reflexivity | constructor].
  - intros Hfire.
    destruct (FeedbackCompletes_returns _ _ _ _ Hinv Hfire)
      as (w' & -> & Hf & Hr).
    unfold in_flight_inv. cbn [final]. rewrite Hf, Hr. split; [cbn; lia |].
    constructor.
  - cbn [fire].
    destruct (take_request false (pending (host w))) as [[u rest]|] eqn:E;
      [| discriminate].
    pose proof (take_request_data _ _ _ E) as Hrest.
    destruct (urb_completion u) as [pParam pContext|]; [| discriminate].
    intros [= <-]. destruct Hinv as [Hlen Hall].
    unfold in_flight_inv, feedback_reads in *.
    destruct pContext; cbn [CompletionHandler final mret M_ret host with_host
                            set_callbacks set_submitted pending dev];
      rewrite Hrest; auto.
Qed.

Lemma Reaches_inv (w0 w : World) (es : list Event) :
  in_flight_inv w0 -> Reaches w0 es w -> in_flight_inv w.
Proof.
  intros Hinv Hreach. induction Hreach as [w | w w1 w2 e es Hfire _ IH | w w1 e Hfire].
  - exact Hinv.
  - apply IH. exact (fire_inv e w _ Hinv Hfire).
  - exact (fire_inv e w _ Hinv Hfire).
Qed.

(** C6. In every world that a sequence of [SendChunk] calls and completion
    events leads to, from a world without a feedback read, at most one
    feedback read is outstanding. There [SendChunk] submits no feedback read
    when the in-flight flag is set; a feedback read that it does submit was
    handed to the host with the flag already set; and a feedback completion
    returns with the flag clear and no feedback read left, whatever the status
    of the transfer. *)
Theorem one_feedback_read_in_flight (w0 w : World) (es : list Event) :
  m_bSyncEPActive (dev w0) = false ->
  feedback_reads w0 = [] ->
  Reaches w0 es w ->
  (length (feedback_reads w) <= 1)%nat
  /\ (forall pBuffer nChunkSizeBytes pCompletionRoutine pParam,
        let w' := final (SendChunk pBuffer nChunkSizeBytes pCompletionRoutine
                                   pParam w) in
        (m_bSyncEPActive (dev w) = true ->
         feedback_reads w' = feedback_reads w)
        /\ Forall (fun p => p.2 = true) (feedback_reads w')
        /\ (length (feedback_reads w') <= 1)%nat)
  /\ (forall nStatus data o,
        fire (FeedbackCompletes nStatus data) w = Some o ->
        exists w', o = Returns tt w'
                   /\ m_bSyncEPActive (dev w') = false
                   /\ feedback_reads w' = [])
  /\ (forall nStatus nResultLength,
        m_bSyncEPActive (dev w) = true ->
        exists w', SyncCompletionHandler nStatus nResultLength w
                   = Returns tt w'
                   /\ m_bSyncEPActive (dev w') = false).
Proof.
  intros Hf0 Hr0 Hreach.
  assert (Hinv0 : in_flight_inv w0).
  { unfold in_flight_inv. rewrite Hf0, Hr0. split; [cbn; lia | constructor]. }
  pose proof (Reaches_inv w0 w es Hinv0 Hreach) as Hinv.
  split; [| split; [| split]]; cycle 3.
  { intros nStatus nResultLength Hflag.
    destruct (Z.eq_dec nStatus 0) as [-> | Hs].
    - rewrite (SyncCompletionHandler_failed nResultLength w Hflag).
      eexists. split; [reflexivity |]. destruct w as [[] ?]. reflexivity.
    - rewrite (SyncCompletionHandler_ok nStatus nResultLength w Hflag Hs).
      eexists. split; [reflexivity |]. destruct w as [[] ?]. reflexivity. }
  - destruct Hinv as [Hlen _]. destruct (m_bSyncEPActive (dev w)); lia.
  - intros pBuffer n routine param w'.
    assert (Hinv' : in_flight_inv w').
    { pose proof (fire_inv (CallSendChunk pBuffer n routine param) w _ Hinv
                    eq_refl) as H.
      subst w'. destruct (SendChunk pBuffer n routine param w); exact H. }
    split; [| split].
    + intros Hflag.
      destruct (SendChunk_feedback pBuffer n routine param w)
        as [[H _] | (H & _)]; [exact H | congruence].
    + apply Hinv'.
    + destruct Hinv' as [Hlen _]. destruct (m_bSyncEPActive (dev w')); lia.
  - intros nStatus data o Hfire.
    exact (FeedbackCompletes_returns nStatus data w o Hinv Hfire).
Qed.

Lemma run_events_Reaches (es : list Event) (w w' : World) :
  run_events es w = Some w' -> Reaches w es w'.
Proof.
  revert w. induction es as [|e es IH]; intros w; cbn [run_events].
  - intros [= <-]. constructor.
  - destruct (fire e w) as [[[] w1|w1]|] eqn:E; try discriminate.
    intros H. exact (Reaches_step w w1 w' e es E (IH w1 H)).
Qed.

Lemma one_feedback_read_in_flight_witness :
  (length
     (feedback_reads
        (default Sample.continuous
           (run_events
              [CallSendChunk 8192 192 None 0; CallSendChunk 12288 192 None 0;
               FeedbackCompletes 0 []; CallSendChunk 8192 192 None 0]
              (Sample.started (Sample.asynchronous USBSpeedHigh) 48000))))
   <= 1)%nat.
Proof.
  destruct (one_feedback_read_in_flight
              (Sample.started (Sample.asynchronous USBSpeedHigh) 48000)
              (default Sample.continuous
                 (run_events
                    [CallSendChunk 8192 192 None 0;
                     CallSendChunk 12288 192 None 0;
                     FeedbackCompletes 0 []; CallSendChunk 8192 192 None 0]
                    (Sample.started (Sample.asynchronous USBSpeedHigh)
                                     48000)))
              [CallSendChunk 8192 192 None 0; CallSendChunk 12288 192 None 0;
               FeedbackCompletes 0 []; CallSendChunk 8192 192 None 0])
    as [H _].
  - vm_compute. reflexivity.
  - vm_compute. reflexivity.
  - apply run_events_Reaches. vm_compute. reflexivity.
  - exact H.
Defined.

(** ** Sample rate setup *)

Lemma Setup_search_spec (info : TDeviceInfo) (nSampleRate : Z) (count : nat)
  (i : Z) :
  0 <= i ->
  let r := Setup_search info nSampleRate count i in
  i <= r <= i + Z.of_nat count
  /\ (r < i + Z.of_nat count -> literal_match nSampleRate (range_at info r))
  /\ (forall j, i <= j < r -> ~ literal_match nSampleRate (range_at info j)).
Proof.
  revert i. induction count as [|count IH]; intros i Hi; cbn [Setup_search].
  - cbn zeta. split; [lia |]. split; [lia |]. intros j Hj. lia.
  - fold (range_at info i).
    assert (Hnext : ~ literal_match nSampleRate (range_at info i) ->
              let r := Setup_search info nSampleRate count (i + 1) in
              i <= r <= i + Z.of_nat (S count)
              /\ (r < i + Z.of_nat (S count) ->
                  literal_match nSampleRate (range_at info r))
              /\ (forall j, i <= j < r ->
                  ~ literal_match nSampleRate (range_at info j))).
    { intros Hno. destruct (IH (i + 1) ltac:(lia)) as (Hr & Hm & Hn).
      cbn zeta in *. split; [lia |]. split.
      - intros H. apply Hm. lia.
      - intros j Hj. destruct (Z.eq_dec j i) as [-> | Hne];
          [exact Hno | apply Hn; lia]. }
    destruct (Z.geb_spec (Min (range_at info i)) nSampleRate) as [Hmin|Hmin];
      destruct (Z.leb_spec (Max (range_at info i)) nSampleRate) as [Hmax|Hmax];
      cbn [andb];
      try (apply Hnext; unfold literal_match; lia).
    cbn zeta. split; [lia |]. split.
    + intros _. unfold literal_match. lia.
    + intros j Hj. lia.
Qed.

Lemma Setup_supported_iff (info : TDeviceInfo) (nSampleRate : Z) :
  Setup_supported info nSampleRate = true
  <-> exists j, 0 <= j < SampleRateRanges info
                /\ literal_match nSampleRate (range_at info j).
Proof.
  unfold Setup_supported.
  pose proof (Setup_search_spec info nSampleRate
                (Z.to_nat (SampleRateRanges info)) 0 ltac:(lia)) as H.
  cbn zeta in H. destruct H as (Hr & Hm & Hn).
  set (r := Setup_search info nSampleRate _ 0) in *.
  rewrite Z.ltb_lt. split.
  - intros Hlt. exists r. split; [lia |]. apply Hm. lia.
  - intros (j & Hj & Hmatch).
    destruct (Z.lt_ge_cases r (SampleRateRanges info)) as [|Hge]; [assumption |].
    exfalso. apply (Hn j); [lia | exact Hmatch].
Qed.

(** [Setup] in its three outcomes. *)
Lemma Setup_run (nSampleRate : Z) (w : World) :
  let d := dev w in
  if negb (Setup_supported (m_DeviceInfo d) nSampleRate)
  then Setup nSampleRate w = Returns false w
  else
    match Setup_request d nSampleRate with
    | None => Setup nSampleRate w = Halted w
    | Some req =>
        let w1 := with_host (set_control_log (control_log (host w) ++ [req])
                                             (host w)) w in
        if (control_reply (host w) req).1 <? 0
        then Setup nSampleRate w = Returns false w1
        else
          Setup nSampleRate w
          = ((if m_bSynchronousSync d then UpdateChunkSize
              else upd_dev (set_nChunkSizeBytes
                              (Int.u32 (nSampleRate * CHANNELS * SUBFRAME_SIZE)
                               / CHUNK_FREQUENCY)));;
             mret true)
              (with_dev (set_nSampleRate nSampleRate d) w1)
    end.
Proof.
  cbn zeta. unfold Setup, Setup_supported, Setup_request. run_M.
  set (i := Setup_search _ _ _ 0).
  destruct (Z.ltb_spec i (SampleRateRanges (m_DeviceInfo (dev w))));
    destruct (Z.geb_spec i (SampleRateRanges (m_DeviceInfo (dev w))));
    try lia; cbn [negb]; [| reflexivity].
  destruct (m_bVer200 (dev w)); cbn [negb].
  - destruct (m_uchClockSourceID (dev w) =? USB_AUDIO_UNDEFINED_UNIT_ID);
      cbn [negb]; [reflexivity |].
    unfold ControlMessage.
    destruct (control_reply (host w) _) as [result data] eqn:E.
    cbn [fst]. destruct (result <? 0); cbn [negb]; reflexivity.
  - destruct (m_pEndpointOut (dev w)) as [pEndpointOut|]; [| reflexivity].
    unfold ControlMessage.
    destruct (control_reply (host w) _) as [result data] eqn:E.
    cbn [fst]. destruct (result <? 0); cbn [negb]; reflexivity.
Qed.

Lemma then_true_not_false (m : M unit) (w w' : World) :
  (m;; mret true) w <> Returns false w'.
Proof. run_M. destruct (m w); discriminate. Qed.

Lemma Setup_true_supported (nSampleRate : Z) (w w' : World) :
  Setup nSampleRate w = Returns true w' ->
  Setup_supported (m_DeviceInfo (dev w)) nSampleRate = true.
Proof.
  pose proof (Setup_run nSampleRate w) as H. cbn zeta in H.
  destruct (Setup_supported (m_DeviceInfo (dev w)) nSampleRate);
    [reflexivity |].
  cbn [negb] in H. rewrite H. discriminate.
Qed.

Lemma Setup_accepted (nSampleRate : Z) (w : World) (req : ControlRequest) :
  Setup_supported (m_DeviceInfo (dev w)) nSampleRate = true ->
  Setup_request (dev w) nSampleRate = Some req ->
  0 <= (control_reply (host w) req).1 ->
  (m_bSynchronousSync (dev w) = true -> 0 < nSampleRate) ->
  exists w',
    Setup nSampleRate w = Returns true w'
    /\ m_nSampleRate (dev w') = nSampleRate
    /\ control_log (host w') = control_log (host w) ++ [req]
    /\ (m_bSynchronousSync (dev w) = false ->
        m_nChunkSizeBytes (dev w')
        = Int.u32 (nSampleRate * CHANNELS * SUBFRAME_SIZE) / CHUNK_FREQUENCY).
Proof.
  intros Hsup Hreq Hreply Hrate.
  pose proof (Setup_run nSampleRate w) as H. cbn zeta in H.
  rewrite Hsup, Hreq in H. cbn [negb] in H.
  apply Z.ltb_ge in Hreply. rewrite Hreply in H. rewrite H. clear H.
  run_M. destruct (m_bSynchronousSync (dev w)) eqn:Hs.
  - rewrite UpdateChunkSize_run;
      [| destruct w as [[] ?]; exact Hs
       | destruct w as [[] ?]; cbn; apply Hrate; reflexivity].
    eexists. split; [reflexivity |].
    destruct w as [d h f c r t]. destruct d. cbn.
    split; [reflexivity |]. split; [reflexivity | discriminate].
  - eexists. split; [reflexivity |].
    destruct w as [d h f c r t]. destruct d. cbn. auto.
Qed.

(** C3. The rate check of [Setup] passes if and only if an entry of the
    table satisfies the condition of the source, min >= rate and max <= rate.
    A rate that fails the check is refused; TRUE is returned for a rate that
    passes it only, and for each of them when the SET_CUR transfer succeeds.
    For an entry with min <= max the condition says min = max = rate; an entry
    with min < rate < max does not satisfy it, and a table of such entries
    makes [Setup] return FALSE. *)
Theorem Setup_accepts_exact_rate_only (nSampleRate : Z) (w : World) :
  let d := dev w in
  let info := m_DeviceInfo d in
  (Setup_supported info nSampleRate = true
   <-> exists j, 0 <= j < SampleRateRanges info
                 /\ Min (range_at info j) >= nSampleRate
                 /\ Max (range_at info j) <= nSampleRate)
  /\ (Setup_supported info nSampleRate = false ->
      Setup nSampleRate w = Returns false w)
  /\ (forall w', Setup nSampleRate w = Returns true w' ->
                 Setup_supported info nSampleRate = true)
  /\ (forall req,
        Setup_supported info nSampleRate = true ->
        Setup_request d nSampleRate = Some req ->
        0 <= (control_reply (host w) req).1 ->
        (m_bSynchronousSync d = true -> 0 < nSampleRate) ->
        exists w', Setup nSampleRate w = Returns true w'
                   /\ m_nSampleRate (dev w') = nSampleRate)
  /\ (forall r, Min r <= Max r ->
                (literal_match nSampleRate r
                 <-> Min r = nSampleRate /\ Max r = nSampleRate))
  /\ (forall r, Min r < nSampleRate < Max r ->
                in_range nSampleRate r /\ ~ literal_match nSampleRate r)
  /\ ((forall j, 0 <= j < SampleRateRanges info ->
                 Min (range_at info j) < nSampleRate < Max (range_at info j))
      -> Setup nSampleRate w = Returns false w).
Proof.
  cbn zeta.
  assert (Hrefuse : Setup_supported (m_DeviceInfo (dev w)) nSampleRate = false
                    -> Setup nSampleRate w = Returns false w).
  { intros Hno. pose proof (Setup_run nSampleRate w) as H. cbn zeta in H.
    rewrite Hno in H. exact H. }
  split; [apply Setup_supported_iff |].
  split; [exact Hrefuse |].
  split; [intros w'; apply Setup_true_supported |].
  split.
  { intros req Hsup Hreq Hreply Hrate.
    destruct (Setup_accepted nSampleRate w req Hsup Hreq Hreply Hrate)
      as (w' & Hrun & Hr & _).
    exists w'. auto. }
  split; [intros r Hr; unfold literal_match; lia |].
  split; [intros r Hr; unfold in_range, literal_match; lia |].
  intros Hall. apply Hrefuse.
  destruct (Setup_supported (m_DeviceInfo (dev w)) nSampleRate) eqn:E;
    [| reflexivity].
  apply Setup_supported_iff in E. destruct E as (j & Hj & Hm).
  specialize (Hall j Hj). unfold literal_match in Hm. lia.
Qed.

Lemma Setup_accepts_exact_rate_only_witness :
  exists w',
    Setup 48000 (final (Configure (Sample.asynchronous USBSpeedFull)))
    = Returns true w'
    /\ m_nSampleRate (dev w') = 48000.
Proof.
  destruct (Setup_accepts_exact_rate_only 48000
              (final (Configure (Sample.asynchronous USBSpeedFull))))
    as (_ & _ & _ & H & _).
  apply (H (mkControlRequest 34 1 256 1 [128; 187; 0] 3)).
  - vm_compute. reflexivity.
  - vm_compute. reflexivity.
  - vm_compute. congruence.
  - vm_compute. congruence.
Defined.

(** C7. When [Setup] fails it returns FALSE with the device as it was, the
    sample rate and the chunk size among its fields. It fails for a rate that
    does not pass the rate check, before any transfer, and for a rate that
    passes it when the SET_CUR transfer fails; it returns FALSE in these two
    cases only. *)
Theorem Setup_failure_keeps_state (nSampleRate : Z) (w : World) :
  let d := dev w in
  (Setup_supported (m_DeviceInfo d) nSampleRate = false ->
   Setup nSampleRate w = Returns false w)
  /\ (forall req,
        Setup_supported (m_DeviceInfo d) nSampleRate = true ->
        Setup_request d nSampleRate = Some req ->
        (control_reply (host w) req).1 < 0 ->
        exists w', Setup nSampleRate w = Returns false w' /\ dev w' = d)
  /\ (forall w',
        Setup nSampleRate w = Returns false w' ->
        dev w' = d
        /\ m_nSampleRate (dev w') = m_nSampleRate d
        /\ m_nChunkSizeBytes (dev w') = m_nChunkSizeBytes d
        /\ (Setup_supported (m_DeviceInfo d) nSampleRate = false
            \/ exists req, Setup_request d nSampleRate = Some req
                           /\ (control_reply (host w) req).1 < 0)).
Proof.
  cbn zeta. pose proof (Setup_run nSampleRate w) as H. cbn zeta in H.
  split; [| split].
  - intros Hno. rewrite Hno in H. exact H.
  - intros req Hsup Hreq Hreply. rewrite Hsup, Hreq in H. cbn [negb] in H.
    apply Z.ltb_lt in Hreply. rewrite Hreply in H.
    eexists. split; [exact H | reflexivity].
  - intros w' Hrun.
    destruct (Setup_supported (m_DeviceInfo (dev w)) nSampleRate);
      cbn [negb] in H.
    + destruct (Setup_request (dev w) nSampleRate) as [req|];
        [| congruence].
      destruct (Z.ltb_spec (control_reply (host w) req).1 0) as [Hneg|Hpos].
      * rewrite H in Hrun. injection Hrun as <-.
        repeat split; try reflexivity. right. exists req. auto.
      * rewrite H in Hrun. exfalso.
        exact (then_true_not_false _ _ _ Hrun).
    + rewrite H in Hrun. injection Hrun as <-. auto.
Qed.

Lemma Setup_failure_keeps_state_witness :
  exists w',
    Setup 44100 (Sample.started (Sample.asynchronous USBSpeedFull) 48000)
    = Returns false w'
    /\ m_nSampleRate (dev w') = 48000
    /\ m_nChunkSizeBytes (dev w') = 192.
Proof.
  exists (Sample.started (Sample.asynchronous USBSpeedFull) 48000).
  destruct (Setup_failure_keeps_state 44100
              (Sample.started (Sample.asynchronous USBSpeedFull) 48000))
    as (H & _ & _).
  split; [apply H; vm_compute; reflexivity |].
  split; vm_compute; reflexivity.
Defined.

(** C4, on the code. A v1.00 device with the continuous range 32000-48000 Hz
    and an adaptive endpoint (the static discipline) is configured; 44100 Hz
    lies in the range, and [Setup (44100)] returns FALSE: the chunk size stays
    0, it is not set to 176. The resolution of the entry plays no part. *)
Lemma Setup_refuses_rate_inside_continuous_range :
  Configure Sample.continuous
  = Returns true (final (Configure Sample.continuous))
  /\ (let d := dev (final (Configure Sample.continuous)) in
      m_bVer200 d = false
      /\ m_bSynchronousSync d = false
      /\ m_pEndpointSync d = None
      /\ SampleRateRanges (m_DeviceInfo d) = 1
      /\ range_at (m_DeviceInfo d) 0 = mkRange 32000 48000 0
      /\ in_range 44100 (range_at (m_DeviceInfo d) 0))
  /\ Setup 44100 (final (Configure Sample.continuous))
     = Returns false (final (Configure Sample.continuous))
  /\ m_nChunkSizeBytes (dev (final (Configure Sample.continuous))) = 0
  /\ Int.u32 (44100 * CHANNELS * SUBFRAME_SIZE) / CHUNK_FREQUENCY = 176
  /\ Setup 44100
       (final ((Configure;; set_range 0 (mkRange 32000 48000 1))
                 Sample.continuous))
     = Returns false
         (final ((Configure;; set_range 0 (mkRange 32000 48000 1))
                   Sample.continuous)).
Proof.
  split; [vm_compute; reflexivity |].
  split; [vm_compute; repeat split; congruence |].
  split; [vm_compute; reflexivity |].
  split; [vm_compute; reflexivity |].
  split; vm_compute; reflexivity.
Qed.

(** ** Whole frames *)

Lemma u32_mod_4 (z : Z) : Int.u32 z mod 4 = z mod 4.
Proof. unfold Int.u32. apply Z.mod_mod_divide. exists (2 ^ 30). lia. Qed.

Lemma u16_mod_4 (z : Z) : Int.u16 z mod 4 = z mod 4.
Proof. unfold Int.u16. apply Z.mod_mod_divide. exists (2 ^ 14). lia. Qed.

Lemma frames_mod_4 (z : Z) : Int.u32 (z * CHANNELS * SUBFRAME_SIZE) mod 4 = 0.
Proof.
  rewrite u32_mod_4. unfold CHANNELS, SUBFRAME_SIZE.
  replace (z * 2 * 2) with (z * 4) by lia. apply Z.mod_mul. lia.
Qed.

Lemma loop_mod_4 (count i : nat) (R F acc : Z) (tbl : list Z) (n : Z) :
  n mod 4 = 0 -> (Sync.loop count i R F acc tbl n).2 mod 4 = 0.
Proof.
  revert i acc tbl n. induction count as [|count IH]; intros i acc tbl n Hn.
  - exact Hn.
  - cbn [Sync.loop]. apply IH. rewrite u32_mod_4.
    rewrite Z.add_mod, Hn by lia.
    destruct (decide (i < length tbl)%nat) as [Hi|Hi].
    + rewrite list_lookup_insert_eq by exact Hi. cbn [default from_option id].
      rewrite u16_mod_4, frames_mod_4. reflexivity.
    + rewrite list_insert_ge by lia. rewrite lookup_ge_None_2 by lia.
      reflexivity.
Qed.

(** Under the synchronous discipline the chunk size is a multiple of the
    frame size after every recomputation, whatever the rate. *)
Lemma UpdateChunkSize_whole_frames (w w' : World) :
  UpdateChunkSize w = Returns tt w' ->
  m_nChunkSizeBytes (dev w') mod (CHANNELS * SUBFRAME_SIZE) = 0.
Proof.
  destruct (m_bSynchronousSync (dev w)) eqn:Hs.
  - destruct (Z.ltb_spec 0 (m_nSampleRate (dev w))) as [Hr|Hr].
    + rewrite (UpdateChunkSize_run w Hs Hr). intros [= <-].
      destruct w as [d h f c r t]. destruct d.
      cbn [dev with_dev UpdateChunkSize_dev m_nChunkSizeBytes
           set_nChunkSizeBytes].
      apply loop_mod_4. reflexivity.
    + unfold UpdateChunkSize. run_M. rewrite Hs.
      apply Z.ltb_ge in Hr. rewrite Hr. discriminate.
  - unfold UpdateChunkSize. run_M. rewrite Hs. discriminate.
Qed.

(** Under the asynchronous discipline the chunk size is a multiple of the
    frame size after every successful feedback completion. *)
Lemma SyncCompletionHandler_whole_frames (nStatus nResultLength : Z)
  (w w' : World) :
  nStatus <> 0 ->
  SyncCompletionHandler nStatus nResultLength w = Returns tt w' ->
  m_nChunkSizeBytes (dev w') mod (CHANNELS * SUBFRAME_SIZE) = 0.
Proof.
  intros Hs. destruct (m_bSyncEPActive (dev w)) eqn:Hf.
  - rewrite (SyncCompletionHandler_ok nStatus nResultLength w Hf Hs).
    intros [= <-]. destruct w as [d h f c r t]. destruct d.
    cbn [dev with_dev Async.completed m_nChunkSizeBytes set_nChunkSizeBytes
         set_nSyncAccu set_bSyncEPActive].
    apply frames_mod_4.
  - unfold SyncCompletionHandler. run_M. rewrite Hf. discriminate.
Qed.

(** C8, on the code. A v1.00 device with the discrete rate 176400 Hz and an
    adaptive endpoint (the static discipline) is configured, [Setup (176400)]
    returns TRUE and sets the chunk size to 176400 * 4 / 1000 = 705 bytes,
    which is 176 frames and one byte. *)
Lemma Setup_static_chunk_splits_a_frame :
  Configure Sample.static_176400
  = Returns true (final (Configure Sample.static_176400))
  /\ (let d := dev (final (Configure Sample.static_176400)) in
      m_bSynchronousSync d = false /\ m_pEndpointSync d = None)
  /\ Setup 176400 (final (Configure Sample.static_176400))
     = Returns true (Sample.started Sample.static_176400 176400)
  /\ m_nChunkSizeBytes (dev (Sample.started Sample.static_176400 176400))
     = 705
  /\ 705 mod (CHANNELS * SUBFRAME_SIZE) = 1.
Proof.
  split; [vm_compute; reflexivity |].
  split; [vm_compute; split; reflexivity |].
  split; [vm_compute; reflexivity |].
  split; vm_compute; reflexivity.
Qed.

(** ** Volume *)

Lemma s16_dB (ndB : Z) :
  -128 <= ndB <= 127 -> Int.s16 (Z.shiftl ndB 8) = ndB * 256.
Proof.
  intros H. unfold Int.s16. rewrite Z.shiftl_mul_pow2 by lia.
  rewrite Z.mod_small; lia.
Qed.

Lemma of_to_bytes_2 (v : Z) : Int.of_bytes (Int.to_bytes 2 v) = v mod 2 ^ 16.
Proof.
  cbn [Int.to_bytes Int.of_bytes].
  rewrite <- (Z.land_ones v 16) by lia.
  change 255 with (Z.ones 8).
  Z.bitblast.
Qed.

Lemma s16_u16 (v : Z) : -32768 <= v < 32768 -> Int.s16 (v mod 2 ^ 16) = v.
Proof.
  intros H. unfold Int.s16. rewrite Zplus_mod_idemp_l.
  rewrite Z.mod_small; lia.
Qed.

(** C9. [SetVolume] with a channel above 1 stops at the assertion before
    any control transfer: the world, with the record of the transfers, is as
    it was. For channel 0 or 1 with volume control it issues one SET_CUR
    transfer to the feature unit whose wValue has the volume control selector
    in the high byte and the channel number nChannel + 1 in the low byte, and
    whose 2 bytes of data are dB << 8 as a signed 16-bit value (dB * 256 for
    -128 <= dB <= 127); without volume control it returns FALSE and issues no
    transfer. *)
Theorem SetVolume_channel_and_encoding (nChannel ndB : Z) (w : World) :
  let d := dev w in
  (1 < nChannel -> SetVolume nChannel ndB w = Halted w)
  /\ (0 <= nChannel <= 1 ->
      VolumeSupported (m_DeviceInfo d) = false ->
      SetVolume nChannel ndB w = Returns false w)
  /\ (0 <= nChannel <= 1 ->
      VolumeSupported (m_DeviceInfo d) = true ->
      m_uchFeatureUnitID d <> USB_AUDIO_UNDEFINED_UNIT_ID ->
      exists req w',
        SetVolume nChannel ndB w
        = Returns (negb ((control_reply (host w) req).1 <? 0)) w'
        /\ dev w' = d
        /\ control_log (host w') = control_log (host w) ++ [req]
        /\ ucRequest req = USB_AUDIO_REQ_SET_CUR
        /\ Z.shiftr (usValue req) 8 = USB_AUDIO_FU_VOLUME_CONTROL
        /\ Z.land (usValue req) 255 = nChannel + 1
        /\ usIndex req = Z.shiftl (m_uchFeatureUnitID d) 8
        /\ usDataSize req = 2
        /\ out_data req = Int.to_bytes 2 (Int.s16 (Z.shiftl ndB 8))
        /\ (-128 <= ndB <= 127 ->
            Int.s16 (Int.of_bytes (out_data req)) = ndB * 256)).
Proof.
  cbn zeta. split; [| split].
  - intros Hc. unfold SetVolume. run_M.
    apply Z.leb_gt in Hc. rewrite Hc. reflexivity.
  - intros Hc Hv. unfold SetVolume. run_M.
    destruct (Z.leb_spec nChannel 1); [| lia]. rewrite Hv. reflexivity.
  - intros Hc Hv Hfu. unfold SetVolume. run_M.
    destruct (Z.leb_spec nChannel 1); [| lia]. rewrite Hv. cbn [negb].
    apply Z.eqb_neq in Hfu. rewrite Hfu. cbn [negb].
    unfold ControlMessage.
    match goal with
    | |- context [control_reply (host w) ?r] => set (req := r)
    end.
    exists req.
    destruct (control_reply (host w) req) as [result data] eqn:E.
    cbn [fst]. eexists. split.
    { destruct (result <? 0); reflexivity. }
    assert (Hch : nChannel = 0 \/ nChannel = 1) by lia.
    split; [reflexivity |]. split; [reflexivity |]. split; [reflexivity |].
    split; [destruct Hch as [-> | ->]; reflexivity |].
    split; [destruct Hch as [-> | ->]; reflexivity |].
    split; [reflexivity |]. split; [reflexivity |]. split; [reflexivity |].
    intros HdB. rewrite <- (s16_dB ndB HdB).
    subst req. cbn [out_data]. rewrite of_to_bytes_2.
    apply s16_u16. unfold Int.s16.
    pose proof (Z.mod_pos_bound (Z.shiftl ndB 8 + 2 ^ 15) (2 ^ 16)). lia.
Qed.

Example Configure_volume_range :
  let d := dev (final (Configure Sample.with_volume)) in
  VolumeSupported (m_DeviceInfo d) = true
  /\ MinVolume (m_DeviceInfo d) = -64
  /\ MaxVolume (m_DeviceInfo d) = 0
  /\ m_uchFeatureUnitID d = 2.
Proof. vm_compute. auto. Qed.

Lemma SetVolume_channel_and_encoding_witness :
  SetVolume 2 (-10) (final (Configure Sample.with_volume))
  = Halted (final (Configure Sample.with_volume))
  /\ exists req bOK w',
       SetVolume 1 (-10) (final (Configure Sample.with_volume))
       = Returns bOK w'
       /\ Z.land (usValue req) 255 = 2
       /\ out_data req = [0; 246]
       /\ control_log (host w')
          = control_log (host (final (Configure Sample.with_volume)))
            ++ [req].
Proof.
  destruct (SetVolume_channel_and_encoding 2 (-10)
              (final (Configure Sample.with_volume))) as (H2 & _).
  split; [apply H2; lia |].
  destruct (SetVolume_channel_and_encoding 1 (-10)
              (final (Configure Sample.with_volume))) as (_ & _ & H1).
  destruct H1 as (req & w' & Hrun & _ & Hlog & _ & _ & Hch & _ & _ & Hdata & _).
  - lia.
  - vm_compute. reflexivity.
  - vm_compute. congruence.
  - exists req, (negb ((control_reply
                          (host (final (Configure Sample.with_volume)))
                          req).1 <? 0)), w'.
    split; [| split; [| split]].
    + exact Hrun.
    + exact Hch.
    + rewrite Hdata. vm_compute. reflexivity.
    + exact Hlog.
Defined.

(** ** Configuration and the device name *)

Lemma keeps_refl (w : World) : keeps w w.
Proof. repeat split. Qed.

Lemma keeps_trans (w1 w2 w3 : World) : keeps w1 w2 -> keeps w2 w3 -> keeps w1 w3.
Proof. unfold keeps. intros (-> & -> & ->) (-> & -> & ->). auto. Qed.

Lemma framed_ret {A} (a : A) : framed (mret a).
Proof. intros w. apply keeps_refl. Qed.

Lemma framed_bind {A B} (m : M A) (k : A -> M B) :
  framed m -> (forall a, framed (k a)) -> framed (m ≫= k).
Proof.
  intros Hm Hk w. unfold mbind, M_bind. specialize (Hm w).
  destruct (m w) as [a w1|w1]; cbn [final] in *.
  - exact (keeps_trans _ _ _ Hm (Hk a w1)).
  - exact Hm.
Qed.

Lemma framed_upd_dev (f : Device -> Device) : framed (upd_dev f).
Proof. intros w. destruct w. repeat split. Qed.

Lemma framed_upd_info (f : TDeviceInfo -> TDeviceInfo) : framed (upd_info f).
Proof. apply framed_upd_dev. Qed.

Lemma framed_get_dev : framed get_dev.
Proof. intros w. apply keeps_refl. Qed.

Lemma framed_assert (b : bool) : framed (assert b).
Proof. intros w. unfold assert. destruct b; apply keeps_refl. Qed.

Lemma framed_ControlMessage (req : ControlRequest) :
  framed (ControlMessage req).
Proof.
  intros w. unfold ControlMessage.
  destruct (control_reply (host w) req). destruct w. repeat split.
Qed.

Lemma framed_GetDescriptor (ucType : Z) : framed (GetDescriptor ucType).
Proof.
  intros w. unfold GetDescriptor.
  destruct (next_descriptor ucType (descriptors (func w))).
  destruct w. repeat split.
Qed.

Lemma framed_for_loop {A} (count : nat) (i : Z) (body : Z -> A -> M A) (a : A) :
  (forall i a, framed (body i a)) -> framed (for_loop count i body a).
Proof.
  intros Hb. revert i a. induction count as [|count IH]; intros i a.
  - apply framed_ret.
  - cbn [for_loop]. apply framed_bind; [apply Hb | intros a'; apply IH].
Qed.

Lemma framed_set_range (i : Z) (r : TSampleRateRange) : framed (set_range i r).
Proof. apply framed_upd_info. Qed.

Lemma framed_find_general (fuel : nat) : framed (find_general fuel).
Proof.
  induction fuel as [|fuel IH]; cbn [find_general].
  - apply framed_ret.
  - apply framed_bind; [apply framed_GetDescriptor |].
    intros [g|]; [| apply framed_ret].
    destruct (Desc.bDescriptorSubtype g =? USB_AUDIO_STREAMING_GENERAL);
      [apply framed_ret | exact IH].
Qed.

Ltac framed_step :=
  first
    [ apply framed_ret
    | apply framed_upd_info
    | apply framed_upd_dev
    | apply framed_get_dev
    | apply framed_assert
    | apply framed_ControlMessage
    | apply framed_GetDescriptor
    | apply framed_set_range
    | apply framed_find_general
    | apply framed_for_loop; intros ? ?
    | apply framed_bind; [| intros ?]
    | match goal with
      | |- framed (if ?b then _ else _) => destruct b
      | |- framed (match ?o with Some _ => _ | None => _ end) => destruct o
      end ].

Lemma framed_Configure_Ver100 (c : ControlDevice)
  (pGeneralDesc pFormatTypeDesc : list Z) :
  framed (Configure_Ver100 c pGeneralDesc pFormatTypeDesc).
Proof. unfold Configure_Ver100. cbv zeta. repeat framed_step. Qed.

Lemma framed_Configure_Ver200 (c : ControlDevice) (pGeneralDesc : list Z) :
  framed (Configure_Ver200 c pGeneralDesc).
Proof. unfold Configure_Ver200. cbv zeta. repeat framed_step. Qed.

Lemma finishes_false (w0 : World) : finishes w0 (mret false).
Proof. intros w w' _ H. discriminate H. Qed.

Lemma finishes_finish (w0 : World) (c : ControlDevice) :
  function0 w0 = Some c -> finishes w0 (Configure_finish c).
Proof. intros Hc w w' Hk H. exists c, w. auto. Qed.

Lemma finishes_bind {A} (w0 : World) (m : M A) (k : A -> M bool) :
  framed m -> (forall a, finishes w0 (k a)) -> finishes w0 (m ≫= k).
Proof.
  intros Hm Hk w w' Hkeep. unfold mbind, M_bind. specialize (Hm w).
  destruct (m w) as [a w1|w1]; cbn [final] in *; [| discriminate].
  intros Hrun. exact (Hk a w1 w' (keeps_trans _ _ _ Hkeep Hm) Hrun).
Qed.

Ltac finishes_step :=
  first
    [ apply finishes_false
    | apply finishes_finish; assumption
    | apply finishes_bind; [repeat framed_step | intros ?]
    | match goal with
      | |- finishes _ (if ?b then _ else _) => destruct b
      | |- finishes _ (match ?o with Some _ => _ | None => _ end) =>
          destruct o eqn:?
      end ].

(** [Configure] returns TRUE through its last lines only. *)
Lemma Configure_finishes (w w' : World) :
  Configure w = Returns true w' ->
  exists c w1,
    function0 w = Some c /\ keeps w w1
    /\ Configure_finish c w1 = Returns true w'.
Proof.
  unfold Configure. unfold mbind at 1, M_bind at 1. cbv beta iota.
  match goal with
  | |- ?m w = Returns true w' -> _ =>
      cut (finishes w m);
      [intros H Hrun; exact (H w w' (keeps_refl w) Hrun) |]
  end.
  repeat finishes_step.
Qed.

Lemma Configure_finish_run (c : ControlDevice) (w : World) :
  let name := DeviceNamePattern (DeviceNumber c)
                                (NextStreamingSubDeviceNumber c) in
  exists w',
    Configure_finish c w = Returns true w'
    /\ m_DeviceName (dev w') = name
    /\ From (dev w') = name
    /\ registry w' = <[name := this w]> (registry w)
    /\ this w' = this w
    /\ exists c',
         function0 w' = Some c'
         /\ DeviceNumber c' = DeviceNumber c
         /\ NextStreamingSubDeviceNumber c'
            = Int.u32 (NextStreamingSubDeviceNumber c + 1).
Proof.
  cbn zeta. eexists. split; [reflexivity |].
  destruct w as [d h f c0 r t]. destruct d. cbn.
  repeat split. eexists. repeat split.
Qed.

Lemma destroy_run (w : World) :
  m_DeviceName (dev w) <> "" ->
  exists w',
    destroy w = Returns tt w'
    /\ registry w' = delete (m_DeviceName (dev w)) (registry w)
    /\ m_pEndpointOut (dev w') = None
    /\ m_pEndpointSync (dev w') = None.
Proof.
  intros Hname. unfold destroy. run_M.
  destruct (m_DeviceName (dev w)) as [|a s] eqn:E; [congruence |].
  cbn [String.length Nat.eqb negb].
  eexists. split; [reflexivity |].
  destruct w as [d h f c0 r t]. destruct d. cbn in *. auto.
Qed.

(** C10, as amended. On successful configuration the device is registered
    under the name uaudio<n>-<m>, n the device number of the control device
    and m the value of its counter of streaming sub-devices, which the
    configuration increments; the destructor removes the name from the
    registry. *)
Theorem Configure_registers_uaudio_name (w w' : World) :
  Configure w = Returns true w' ->
  exists c : ControlDevice,
    function0 w = Some c
    /\ let name := "uaudio" +:+ pretty (Z.to_N (DeviceNumber c)) +:+ "-"
                   +:+ pretty (Z.to_N (NextStreamingSubDeviceNumber c)) in
       m_DeviceName (dev w') = name
       /\ registry w' = <[name := this w]> (registry w)
       /\ registry w' !! name = Some (this w)
       /\ (exists c',
             function0 w' = Some c'
             /\ DeviceNumber c' = DeviceNumber c
             /\ NextStreamingSubDeviceNumber c'
                = Int.u32 (NextStreamingSubDeviceNumber c + 1))
       /\ exists w'',
            destroy w' = Returns tt w'' /\ registry w'' !! name = None.
Proof.
  intros Hrun.
  destruct (Configure_finishes w w' Hrun) as (c & w1 & Hc & Hkeep & Hfin).
  destruct (Configure_finish_run c w1)
    as (w2 & Hfin' & Hname & _ & Hreg & _ & Hcount).
  cbn zeta in *. rewrite Hfin in Hfin'. injection Hfin' as <-.
  destruct Hkeep as (_ & Hr1 & Ht1).
  exists c. split; [exact Hc |]. cbn zeta.
  fold (DeviceNamePattern (DeviceNumber c) (NextStreamingSubDeviceNumber c)).
  split; [exact Hname |].
  split; [rewrite Hreg, Hr1, Ht1; reflexivity |].
  split; [rewrite Hreg, Ht1; apply lookup_insert_eq |].
  split; [exact Hcount |].
  destruct (destroy_run w') as (w'' & Hd & Hreg'' & _).
  { rewrite Hname. discriminate. }
  exists w''. split; [exact Hd |].
  rewrite Hreg'', Hname. apply lookup_delete_eq.
Qed.

Lemma Configure_registers_uaudio_name_witness :
  m_DeviceName (dev (final (Configure (Sample.asynchronous USBSpeedHigh))))
  = "uaudio" +:+ pretty 1%N +:+ "-" +:+ pretty 1%N
  /\ registry (final (Configure (Sample.asynchronous USBSpeedHigh)))
     !! ("uaudio" +:+ pretty 1%N +:+ "-" +:+ pretty 1%N)
     = Some 4096.
Proof.
  destruct (Configure_registers_uaudio_name
              (Sample.asynchronous USBSpeedHigh)
              (final (Configure (Sample.asynchronous USBSpeedHigh))))
    as (c & Hc & Hname & _ & Hreg & _).
  - vm_compute. reflexivity.
  - injection Hc as <-. split; [exact Hname | exact Hreg].
Defined.

(** C10, against the specification as written. The control device has the number 1 and
    its counter of streaming sub-devices is at 1; the configured device is
    named and registered as uaudio1-1, and the registry has no entry
    streamdevice1-1. *)
Lemma Configure_name_is_not_streamdevice :
  Configure Sample.continuous
  = Returns true (final (Configure Sample.continuous))
  /\ option_map DeviceNumber (function0 Sample.continuous) = Some 1
  /\ option_map NextStreamingSubDeviceNumber (function0 Sample.continuous)
     = Some 1
  /\ m_DeviceName (dev (final (Configure Sample.continuous))) = "uaudio1-1"
  /\ registry (final (Configure Sample.continuous)) !! "uaudio1-1"
     = Some 4096
  /\ registry (final (Configure Sample.continuous)) !! "streamdevice1-1"
     = None
  /\ m_DeviceName (dev (final (Configure Sample.continuous)))
     <> "streamdevice" +:+ pretty 1%N +:+ "-" +:+ pretty 1%N.
Proof.
  split; [vm_compute; reflexivity |].
  split; [reflexivity |]. split; [reflexivity |].
  split; [vm_compute; reflexivity |].
  split; [vm_compute; reflexivity |].
  split; [vm_compute; reflexivity |].
  vm_compute. discriminate.
Qed.

(** * Further properties *)

(** ** The synchronous distribution *)

Lemma frames_even (count : nat) (R F acc : Z) :
  0 < F -> 0 <= acc < F -> 0 <= R ->
  Forall (fun frames => frames = R / F \/ frames = R / F + 1)
         (Sync.frames_of count R F acc).
Proof.
  intros HF. revert acc. unfold Sync.frames_of.
  induction count as [|count IH]; intros acc Hacc HR;
    cbn [Sync.intervals fst].
  - constructor.
  - constructor.
    + pose proof (Z.div_mod R F ltac:(lia)).
      pose proof (Z.mod_pos_bound R F HF).
      pose proof (Z.div_mod (acc + R) F ltac:(lia)).
      pose proof (Z.mod_pos_bound (acc + R) F HF).
      nia.
    + apply IH; [apply Z.mod_pos_bound; lia | lia].
Qed.

(** X1. A recomputation spreads the frames evenly: every packet of the new
    chunk carries rate / frame rate frames or one more. *)
Theorem UpdateChunkSize_packets_even (R : Z) (w : World) :
  let F := USBFrameRate (Speed (host w)) in
  Sync.ready R w ->
  0 < R <= 16383 * F ->
  exists w',
    UpdateChunkSize w = Returns tt w'
    /\ Forall (fun size => size = R / F * 4 \/ size = (R / F + 1) * 4)
              (take (Z.to_nat (m_nPacketsPerChunk (dev w')))
                    (m_usPacketSizeBytes (dev w'))).
Proof.
  intros F Hready HR.
  destruct (UpdateChunkSize_ready R w Hready HR)
    as (w' & Hrun & _ & Hp & Htbl & _).
  exists w'. split; [exact Hrun |].
  rewrite Hp, Htbl. fold F.
  destruct Hready as (_ & _ & Hacc & _). fold F in Hacc.
  assert (HF : 0 < F)
    by (subst F; destruct (USBFrameRate_cases (Speed (host w))); lia).
  unfold Sync.sizes_of. apply Forall_fmap.
  eapply Forall_impl; [apply (frames_even _ R F _ HF Hacc); lia |].
  cbn. intros f [-> | ->]; auto.
Qed.

Lemma UpdateChunkSize_packets_even_witness :
  exists w',
    UpdateChunkSize (Sample.started (Sample.synchronous USBSpeedHigh) 44100)
    = Returns tt w'
    /\ Forall (fun size => size = 44100 / 8000 * 4
                           \/ size = (44100 / 8000 + 1) * 4)
              (take (Z.to_nat (m_nPacketsPerChunk (dev w')))
                    (m_usPacketSizeBytes (dev w'))).
Proof.
  apply (UpdateChunkSize_packets_even 44100
           (Sample.started (Sample.synchronous USBSpeedHigh) 44100)).
  - vm_compute. repeat split; congruence.
  - vm_compute. split; congruence.
Defined.

(** X2. Any 1000 chunks in a row, one second of the stream, carry the frames
    of the sample rate exactly, and the accumulator is back where it was. *)
Theorem one_second_is_exact (R : Z) (w : World) (k : nat) :
  Sync.ready R w ->
  0 < R <= 16383 * USBFrameRate (Speed (host w)) ->
  exists sizes w',
    Sync.run_chunks (k + 1000) w = Returns sizes w'
    /\ Zsum (drop k sizes) = R * 4
    /\ exists sizes0 w0,
         Sync.run_chunks k w = Returns sizes0 w0
         /\ m_nSyncAccu (dev w') = m_nSyncAccu (dev w0).
Proof.
  intros Hready HR.
  set (F := USBFrameRate (Speed (host w))) in *.
  destruct (run_chunks_ready k R w Hready HR)
    as (s1 & w1 & Hrun1 & Hh1 & Hlen1 & _ & _ & Hready1).
  assert (HR1 : 0 < R <= 16383 * USBFrameRate (Speed (host w1)))
    by (rewrite Hh1; exact HR).
  destruct (run_chunks_ready 1000 R w1 Hready1 HR1)
    as (s2 & w2 & Hrun2 & Hh2 & Hlen2 & Hsum2 & Hacc2 & Hready2).
  rewrite Hh1 in Hsum2, Hacc2. fold F in Hsum2, Hacc2.
  exists (s1 ++ s2), w2.
  split; [exact (run_chunks_app _ _ _ _ _ _ _ Hrun1 Hrun2) |].
  destruct Hready1 as (_ & _ & Ha1 & _). rewrite Hh1 in Ha1. fold F in Ha1.
  destruct Hready2 as (_ & _ & Ha2 & _).
  rewrite Hh2, Hh1 in Ha2. fold F in Ha2.
  set (n := (1000 * Z.to_nat (F / 1000))%nat) in *.
  pose proof (intervals_total n R F (m_nSyncAccu (dev w1))) as Ht.
  rewrite <- Hacc2 in Ht.
  assert (Hn : Z.of_nat n = F).
  { subst n. destruct (USBFrameRate_cases (Speed (host w))) as [E|E];
      fold F in E; rewrite E; reflexivity. }
  rewrite Hn in Ht.
  assert (HF : 0 < F) by (destruct (USBFrameRate_cases (Speed (host w))); lia).
  specialize (Ht HF).
  set (T := Zsum (Sync.frames_of n R F (m_nSyncAccu (dev w1)))) in *.
  assert (HT : T = R).
  { rewrite (Z.div_unique (m_nSyncAccu (dev w1) + R * F) F T
                          (m_nSyncAccu (dev w2))) by lia.
    rewrite Z.div_add by lia. rewrite Z.div_small by lia. lia. }
  assert (Ha : m_nSyncAccu (dev w2) = m_nSyncAccu (dev w1))
    by (rewrite HT in Ht; lia).
  split; [rewrite drop_app_length' by (symmetry; exact Hlen1); lia |].
  exists s1, w1. split; [exact Hrun1 | exact Ha].
Qed.

Lemma one_second_is_exact_witness :
  exists sizes w',
    Sync.run_chunks (0 + 1000)
      (Sample.started (Sample.synchronous USBSpeedFull) 44100)
    = Returns sizes w'
    /\ Zsum (drop 0 sizes) = 44100 * 4.
Proof.
  destruct (one_second_is_exact 44100
              (Sample.started (Sample.synchronous USBSpeedFull) 44100) 0)
    as (sizes & w' & Hrun & Hsum & _).
  - vm_compute. repeat split; congruence.
  - vm_compute. split; congruence.
  - exists sizes, w'. split; [exact Hrun | exact Hsum].
Defined.

(** ** The static chunk size *)

Lemma Setup_true_static (nSampleRate : Z) (w w' : World) :
  m_bSynchronousSync (dev w) = false ->
  Setup nSampleRate w = Returns true w' ->
  dev w'
  = set_nChunkSizeBytes
      (Int.u32 (nSampleRate * CHANNELS * SUBFRAME_SIZE) / CHUNK_FREQUENCY)
      (set_nSampleRate nSampleRate (dev w)).
Proof.
  intros Hs. pose proof (Setup_run nSampleRate w) as H. cbn zeta in H.
  destruct (Setup_supported (m_DeviceInfo (dev w)) nSampleRate);
    cbn [negb] in H; [| rewrite H; discriminate].
  destruct (Setup_request (dev w) nSampleRate) as [req|];
    [| rewrite H; discriminate].
  destruct ((control_reply (host w) req).1 <? 0); [rewrite H; discriminate |].
  rewrite H, Hs. run_M. intros [= <-].
  destruct w as [d h f c r t]. destruct d. reflexivity.
Qed.

Lemma static_chunk_frames (rate : Z) :
  0 <= rate < 2 ^ 30 ->
  Int.u32 (rate * CHANNELS * SUBFRAME_SIZE) / CHUNK_FREQUENCY = rate / 250
  /\ ((rate / 250) mod 4 = 0 <-> rate mod 1000 < 250).
Proof.
  intros H. unfold CHANNELS, SUBFRAME_SIZE, CHUNK_FREQUENCY.
  rewrite u32_small by lia. split.
  - replace (rate * 2 * 2) with (rate * 4) by lia.
    replace 1000 with (250 * 4) by lia.
    rewrite Z.div_mul_cancel_r by lia. reflexivity.
  - pose proof (Z.div_mod rate 1000 ltac:(lia)).
    pose proof (Z.mod_pos_bound rate 1000 ltac:(lia)).
    pose proof (Z.div_mod rate 250 ltac:(lia)).
    pose proof (Z.mod_pos_bound rate 250 ltac:(lia)).
    pose proof (Z.div_mod (rate / 250) 4 ltac:(lia)).
    pose proof (Z.mod_pos_bound (rate / 250) 4 ltac:(lia)).
    lia.
Qed.

(** X3. Under the static and the asynchronous discipline a successful
    [Setup] changes the sample rate and the chunk size only (the accumulator
    is kept), the chunk size is rate / 250 bytes, and it is a whole number of
    frames exactly when rate mod 1000 < 250. *)
Theorem Setup_static_chunk (nSampleRate : Z) (w w' : World) :
  m_bSynchronousSync (dev w) = false ->
  0 <= nSampleRate < 2 ^ 30 ->
  Setup nSampleRate w = Returns true w' ->
  dev w' = set_nChunkSizeBytes (nSampleRate / 250)
             (set_nSampleRate nSampleRate (dev w))
  /\ m_nChunkSizeBytes (dev w') = nSampleRate / 250
  /\ m_nSyncAccu (dev w') = m_nSyncAccu (dev w)
  /\ (m_nChunkSizeBytes (dev w') mod (CHANNELS * SUBFRAME_SIZE) = 0
      <-> nSampleRate mod 1000 < 250).
Proof.
  intros Hs Hr Hrun.
  pose proof (Setup_true_static nSampleRate w w' Hs Hrun) as Hd.
  destruct (static_chunk_frames nSampleRate Hr) as [Hc Hm].
  rewrite Hc in Hd. rewrite Hd.
  destruct (dev w). cbn. auto.
Qed.

Lemma Setup_static_chunk_witness :
  m_nChunkSizeBytes
    (dev (Sample.started (Sample.asynchronous USBSpeedFull) 48000))
  = 48000 / 250.
Proof.
  destruct (Setup_static_chunk 48000
              (final (Configure (Sample.asynchronous USBSpeedFull)))
              (Sample.started (Sample.asynchronous USBSpeedFull) 48000))
    as (_ & H & _).
  - vm_compute. reflexivity.
  - lia.
  - vm_compute. reflexivity.
  - exact H.
Defined.

(** X4. [GetChunkSizeBytes] stops at its assertion while the chunk size is
    0: on a device that was never set up, and after a successful static
    [Setup] with a rate below 250 Hz. After a successful static [Setup] with
    a rate from 250 Hz on it returns rate / 250 and changes nothing. *)
Theorem GetChunkSizeBytes_after_Setup (nSampleRate : Z) (w w' : World) :
  (m_nChunkSizeBytes (dev w) = 0 -> GetChunkSizeBytes w = Halted w)
  /\ (m_bSynchronousSync (dev w) = false ->
      0 <= nSampleRate < 2 ^ 30 ->
      Setup nSampleRate w = Returns true w' ->
      if nSampleRate <? 250 then GetChunkSizeBytes w' = Halted w'
      else GetChunkSizeBytes w' = Returns (nSampleRate / 250) w'
           /\ 0 < nSampleRate / 250).
Proof.
  split.
  - intros H0. unfold GetChunkSizeBytes. run_M. rewrite H0. reflexivity.
  - intros Hs Hr Hrun.
    pose proof (Setup_true_static nSampleRate w w' Hs Hrun) as Hd.
    destruct (static_chunk_frames nSampleRate Hr) as [Hc _].
    rewrite Hc in Hd.
    assert (Hchunk : m_nChunkSizeBytes (dev w') = nSampleRate / 250)
      by (rewrite Hd; destruct (dev w); reflexivity).
    unfold GetChunkSizeBytes. run_M. rewrite Hchunk.
    destruct (Z.ltb_spec nSampleRate 250) as [Hlt|Hge].
    + rewrite Z.div_small by lia. reflexivity.
    + assert (0 < nSampleRate / 250) by (apply Z.div_str_pos; lia).
      destruct (Z.eqb_spec (nSampleRate / 250) 0); [lia |].
      split; [reflexivity | assumption].
Qed.

Lemma GetChunkSizeBytes_after_Setup_witness :
  GetChunkSizeBytes (final (Configure (Sample.asynchronous USBSpeedFull)))
  = Halted (final (Configure (Sample.asynchronous USBSpeedFull)))
  /\ GetChunkSizeBytes
       (Sample.started (Sample.asynchronous USBSpeedFull) 48000)
     = Returns (48000 / 250)
         (Sample.started (Sample.asynchronous USBSpeedFull) 48000).
Proof.
  destruct (GetChunkSizeBytes_after_Setup 48000
              (final (Configure (Sample.asynchronous USBSpeedFull)))
              (Sample.started (Sample.asynchronous USBSpeedFull) 48000))
    as [H0 H1].
  split.
  - apply H0. vm_compute. reflexivity.
  - apply H1.
    + vm_compute. reflexivity.
    + lia.
    + vm_compute. reflexivity.
Defined.

(** ** Feedback samples *)

Lemma feed_step (nStatus nResultLength raw : Z) (w : World) :
  let bits := Async.fractional_bits nResultLength in
  let s := Async.sample nResultLength raw in
  nStatus <> 0 ->
  0 <= m_nSyncAccu (dev w) < 2 ^ 16 ->
  0 <= s < 2 ^ 32 - 2 ^ 16 ->
  exists w',
    (upd_dev (set_bSyncEPActive true);;
     upd_dev (set_SyncEPBuffer raw);;
     SyncCompletionHandler nStatus nResultLength) w = Returns tt w'
    /\ 2 ^ bits * m_nChunkSizeBytes (dev w') + 4 * m_nSyncAccu (dev w')
       = 4 * (m_nSyncAccu (dev w) + s)
    /\ 0 <= m_nSyncAccu (dev w') < 2 ^ bits
    /\ m_nChunkSizeBytes (dev w') mod 4 = 0
    /\ m_bSyncEPActive (dev w') = false.
Proof.
  intros bits s Hs Ha Hraw. run_M.
  rewrite SyncCompletionHandler_ok;
    [| destruct w as [[] ?]; reflexivity | exact Hs].
  eexists. split; [reflexivity |].
  pose proof (completed_update nResultLength
                (set_SyncEPBuffer raw (set_bSyncEPActive true (dev w))))
    as Hu.
  assert (Hbits : bits = 14 \/ bits = 16)
    by (subst bits; unfold Async.fractional_bits;
        destruct (nResultLength =? 3); auto).
  destruct w as [d h f c r t]. destruct d.
  cbn [dev with_dev m_nSyncAccu m_SyncEPBuffer set_SyncEPBuffer
       set_bSyncEPActive] in *.
  fold bits in Hu. fold s in Hu.
  destruct (Hu ltac:(lia) ltac:(lia) ltac:(lia)) as [Hc Hacc].
  rewrite Hc, Hacc. unfold Async.update. cbn [fst snd].
  clearbody bits s.
  assert (Hp : 0 < 2 ^ bits) by (destruct Hbits as [-> | ->]; lia).
  rewrite Z.shiftr_div_pow2 by lia.
  pose proof (Z.div_mod (m_nSyncAccu0 + s) (2 ^ bits) ltac:(lia)).
  pose proof (Z.mod_pos_bound (m_nSyncAccu0 + s) (2 ^ bits) Hp).
  split; [lia |]. split; [lia |]. split; [apply Z.mod_mul; lia |].
  reflexivity.
Qed.

(** X5. A run of successful feedback reads of one format loses no fraction:
    the frames of the chunk sizes, scaled by 2 ^ bits, and the accumulator
    left add up to the accumulator at the start and the samples. *)
Theorem feedback_loses_no_fraction (nStatus nResultLength : Z)
  (raws : list Z) (w : World) :
  let bits := Async.fractional_bits nResultLength in
  nStatus <> 0 ->
  0 <= m_nSyncAccu (dev w) < 2 ^ 16 ->
  Forall (fun raw => 0 <= Async.sample nResultLength raw < 2 ^ 32 - 2 ^ 16)
         raws ->
  exists sizes w',
    feed nStatus nResultLength raws w = Returns sizes w'
    /\ length sizes = length raws
    /\ 2 ^ bits * Zsum sizes + 4 * m_nSyncAccu (dev w')
       = 4 * (m_nSyncAccu (dev w)
              + Zsum (map (Async.sample nResultLength) raws))
    /\ 0 <= m_nSyncAccu (dev w') < 2 ^ 16
    /\ Forall (fun size => size mod 4 = 0) sizes.
Proof.
  intros bits Hs. revert w.
  assert (Hb : 2 ^ bits <= 2 ^ 16)
    by (subst bits; unfold Async.fractional_bits;
        destruct (nResultLength =? 3); lia).
  induction raws as [|raw raws IH]; intros w Ha Hall.
  - exists [], w. cbn. repeat split; try lia. constructor.
  - inversion Hall as [|x l Hraw Hall']; subst.
    destruct (feed_step nStatus nResultLength raw w Hs Ha Hraw)
      as (w1 & Hrun & Hsum & Hacc & Hmod & _).
    fold bits in Hsum, Hacc.
    destruct (IH w1 ltac:(lia) Hall')
      as (sizes & w' & Hrest & Hlen & Hsum' & Hacc' & Hmods).
    exists (m_nChunkSizeBytes (dev w1) :: sizes), w'.
    split.
    { cbn [feed]. revert Hrun. run_M.
      destruct (SyncCompletionHandler _ _ _) as [[] ?|?]; [| discriminate].
      intros [= ->]. rewrite Hrest. reflexivity. }
    cbn [length map Zsum foldr].
    fold (Zsum sizes). fold (Zsum (map (Async.sample nResultLength) raws)).
    split; [lia |]. split; [lia |]. split; [lia |].
    constructor; assumption.
Qed.

Lemma feedback_loses_no_fraction_witness :
  exists sizes w',
    feed 1 3 [786432; 786433; 786431]
         (Sample.started (Sample.asynchronous USBSpeedFull) 48000)
    = Returns sizes w'
    /\ 2 ^ 14 * Zsum sizes + 4 * m_nSyncAccu (dev w')
       = 4 * (0 + (786432 + (786433 + (786431 + 0)))).
Proof.
  destruct (feedback_loses_no_fraction 1 3 [786432; 786433; 786431]
              (Sample.started (Sample.asynchronous USBSpeedFull) 48000))
    as (sizes & w' & Hrun & _ & Hsum & _).
  - lia.
  - vm_compute. split; congruence.
  - repeat constructor; vm_compute; congruence.
  - exists sizes, w'. split; [exact Hrun | exact Hsum].
Defined.

(** ** Chunk submission *)

Lemma for_loop_packet_sizes (d : Device) (count : nat) (i : Z)
  (pURB : CUSBRequest) (w : World) :
  for_loop count i
    (fun i pURB =>
       mret (AddIsoPacket (default 0 (m_usPacketSizeBytes d !! Z.to_nat i))
                          pURB)) pURB w
  = Returns (mkURB (urb_endpoint pURB) (urb_buffer pURB) (urb_length pURB)
                   (urb_packets pURB ++ packet_sizes d i count)
                   (urb_completion pURB)) w.
Proof.
  revert i pURB. induction count as [|count IH]; intros i pURB.
  - cbn [for_loop packet_sizes]. rewrite app_nil_r. destruct pURB. reflexivity.
  - cbn [for_loop packet_sizes]. run_M.
    change (for_loop count (i + 1) ?b ?u w)
      with (for_loop count (i + 1) b u w).
    etransitivity; [apply IH |].
    cbn [AddIsoPacket urb_endpoint urb_buffer urb_length urb_packets
         urb_completion].
    rewrite <- app_assoc. reflexivity.
Qed.

Lemma packet_sizes_take (d : Device) (count i : nat) :
  (i + count <= length (m_usPacketSizeBytes d))%nat ->
  packet_sizes d (Z.of_nat i) count
  = map Int.u16 (take count (drop i (m_usPacketSizeBytes d))).
Proof.
  revert i. induction count as [|count IH]; intros i Hlen;
    cbn [packet_sizes].
  - reflexivity.
  - rewrite Nat2Z.id.
    destruct (lookup_lt_is_Some_2 (m_usPacketSizeBytes d) i ltac:(lia))
      as [x Hx].
    rewrite Hx. cbn [default from_option id].
    rewrite (drop_S _ _ _ Hx). cbn [take map].
    replace (Z.of_nat i + 1) with (Z.of_nat (S i)) by lia.
    rewrite IH by lia. reflexivity.
Qed.

(** [SendChunk] past its assertions. *)
Lemma SendChunk_run (pBuffer nChunkSizeBytes : Z)
  (pCompletionRoutine : option Z) (pParam : Z) (w : World)
  (pEndpointOut : CUSBEndpoint) :
  pBuffer <> 0 ->
  m_pEndpointOut (dev w) = Some pEndpointOut ->
  (m_bSynchronousSync (dev w) = true -> 0 < m_nPacketsPerChunk (dev w)) ->
  let d := dev w in
  let pURB := data_urb d pEndpointOut pBuffer nChunkSizeBytes
                       pCompletionRoutine pParam in
  let w1 := data_submitted pURB w in
  SendChunk pBuffer nChunkSizeBytes pCompletionRoutine pParam w
  = if submit_reply (host w) (submit_count (host w)) pURB then
      match m_pEndpointSync d with
      | Some pEndpointSync =>
          if negb (m_bSyncEPActive d) then
            SubmitAsyncRequest (feedback_urb pEndpointSync (Speed (host w)))
              (with_dev (set_bSyncEPActive true d) w1)
          else if m_bSynchronousSync d then (UpdateChunkSize;; mret true) w1
          else Returns true w1
      | None =>
          if m_bSynchronousSync d then (UpdateChunkSize;; mret true) w1
          else Returns true w1
      end
    else Returns false w1.
Proof.
  intros Hb He Hp. cbn zeta. unfold SendChunk. run_M.
  apply Z.eqb_neq in Hb. rewrite Hb. cbn [negb]. rewrite He.
  unfold data_urb.
  destruct (m_bSynchronousSync (dev w)) eqn:Hs.
  - specialize (Hp eq_refl). apply Z.ltb_lt in Hp. rewrite Hp.
    pose proof (for_loop_packet_sizes (dev w)
                  (Z.to_nat (m_nPacketsPerChunk (dev w))) 0
                  (mkURB pEndpointOut (CallerBuffer pBuffer) nChunkSizeBytes
                         [] (ToCompletionHandler pParam pCompletionRoutine))
                  w) as Hloop.
    cbn [urb_endpoint urb_buffer urb_length urb_packets urb_completion app]
      in Hloop.
    unfold mret, M_ret in Hloop. rewrite Hloop.
    unfold SubmitAsyncRequest at 1. unfold data_submitted, SubmitAsyncRequest.
    cbn [final].
    destruct (submit_reply (host w) (submit_count (host w)) _);
      cbn [andb]; [| destruct (m_pEndpointSync (dev w)); reflexivity].
    destruct (m_pEndpointSync (dev w)); [| reflexivity].
    destruct (m_bSyncEPActive (dev w)); reflexivity.
  - unfold SubmitAsyncRequest at 1. unfold data_submitted, SubmitAsyncRequest.
    cbn [final AddIsoPacket urb_endpoint urb_buffer urb_length urb_packets
         urb_completion app].
    destruct (submit_reply (host w) (submit_count (host w)) _);
      cbn [andb]; [| destruct (m_pEndpointSync (dev w)); reflexivity].
    destruct (m_pEndpointSync (dev w)); [| reflexivity].
    destruct (m_bSyncEPActive (dev w)); reflexivity.
Qed.

(** X6. [SendChunk] stops, before anything is handed to the host, for a
    null buffer, on a device without its OUT endpoint (not configured, or
    destroyed) and, under the synchronous discipline, without packets per
    chunk. When the host refuses the data transfer it returns FALSE: the
    device is as it was, no request is pending for the call and no feedback
    read was tried. *)
Theorem SendChunk_rejections (pBuffer nChunkSizeBytes : Z)
  (pCompletionRoutine : option Z) (pParam : Z) (w : World) :
  let call := SendChunk pBuffer nChunkSizeBytes pCompletionRoutine pParam w in
  (pBuffer = 0 -> call = Halted w)
  /\ (m_pEndpointOut (dev w) = None -> call = Halted w)
  /\ (m_bSynchronousSync (dev w) = true ->
      m_nPacketsPerChunk (dev w) <= 0 -> call = Halted w)
  /\ (forall pEndpointOut,
        pBuffer <> 0 ->
        m_pEndpointOut (dev w) = Some pEndpointOut ->
        (m_bSynchronousSync (dev w) = true ->
         0 < m_nPacketsPerChunk (dev w)) ->
        submit_reply (host w) (submit_count (host w))
          (data_urb (dev w) pEndpointOut pBuffer nChunkSizeBytes
                    pCompletionRoutine pParam) = false ->
        exists w',
          call = Returns false w'
          /\ dev w' = dev w
          /\ pending (host w') = pending (host w)
          /\ submit_count (host w') = S (submit_count (host w))).
Proof.
  cbn zeta. split; [| split; [| split]].
  - intros ->. reflexivity.
  - intros He. unfold SendChunk. run_M.
    destruct (negb (pBuffer =? 0)); [| reflexivity]. rewrite He. reflexivity.
  - intros Hs Hp. unfold SendChunk. run_M.
    destruct (negb (pBuffer =? 0)); [| reflexivity].
    destruct (m_pEndpointOut (dev w)); [| reflexivity].
    rewrite Hs. apply Z.ltb_ge in Hp. rewrite Hp. reflexivity.
  - intros pEndpointOut Hb He Hp Hno.
    pose proof (SendChunk_run pBuffer nChunkSizeBytes pCompletionRoutine
                  pParam w pEndpointOut Hb He Hp) as H.
    cbn zeta in H. rewrite Hno in H. eexists. split; [exact H |].
    unfold data_submitted, SubmitAsyncRequest. rewrite Hno.
    destruct w as [d h f c r t]. auto.
Qed.

Lemma SendChunk_rejections_witness :
  SendChunk 0 192 None 0
    (Sample.started (Sample.asynchronous USBSpeedFull) 48000)
  = Halted (Sample.started (Sample.asynchronous USBSpeedFull) 48000)
  /\ SendChunk 8192 192 None 0 (Sample.asynchronous USBSpeedFull)
     = Halted (Sample.asynchronous USBSpeedFull).
Proof.
  split.
  - destruct (SendChunk_rejections 0 192 None 0
                (Sample.started (Sample.asynchronous USBSpeedFull) 48000))
      as (H & _).
    apply H. reflexivity.
  - destruct (SendChunk_rejections 8192 192 None 0
                (Sample.asynchronous USBSpeedFull)) as (_ & H & _).
    apply H. reflexivity.
Defined.

(** X7. Under the synchronous discipline an accepted [SendChunk] hands the
    host one transfer whose packets are the packet sizes of the table, as
    they were before the call, and then recomputes the table for the next
    call: the chunk size after the call is the sum of the next packets. *)
Theorem SendChunk_synchronous (R pBuffer nChunkSizeBytes : Z)
  (pCompletionRoutine : option Z) (pParam : Z) (w : World)
  (pEndpointOut : CUSBEndpoint) :
  let F := USBFrameRate (Speed (host w)) in
  let P := Z.to_nat (F / 1000) in
  Sync.ready R w ->
  0 < R <= 16383 * F ->
  pBuffer <> 0 ->
  m_pEndpointOut (dev w) = Some pEndpointOut ->
  m_pEndpointSync (dev w) = None ->
  m_nPacketsPerChunk (dev w) = F / 1000 ->
  Forall (fun size => 0 <= size < 2 ^ 16) (m_usPacketSizeBytes (dev w)) ->
  (forall u, submit_reply (host w) (submit_count (host w)) u = true) ->
  exists pURB w',
    SendChunk pBuffer nChunkSizeBytes pCompletionRoutine pParam w
    = Returns true w'
    /\ pending (host w')
       = pending (host w) ++ [(pURB, m_bSyncEPActive (dev w))]
    /\ urb_length pURB = nChunkSizeBytes
    /\ urb_packets pURB = take P (m_usPacketSizeBytes (dev w))
    /\ urb_completion pURB = ToCompletionHandler pParam pCompletionRoutine
    /\ m_nChunkSizeBytes (dev w')
       = Zsum (take P (m_usPacketSizeBytes (dev w')))
    /\ take P (m_usPacketSizeBytes (dev w'))
       = Sync.sizes_of (Sync.frames_of P R F (m_nSyncAccu (dev w)))
    /\ Sync.ready R w'.
Proof.
  intros F P Hready HR Hb He Hsyncep Hp Htbl Hok.
  pose proof Hready as (Hs & Hr & Hacc & Hlen).
  assert (HP : (P <= 8)%nat /\ 0 < F / 1000).
  { subst P. destruct (USBFrameRate_cases (Speed (host w))) as [E|E];
      fold F in E; rewrite E; split; vm_compute; congruence || lia. }
  destruct HP as [HP HP0].
  pose proof (SendChunk_run pBuffer nChunkSizeBytes pCompletionRoutine
                pParam w pEndpointOut Hb He ltac:(lia)) as H.
  cbn zeta in H. rewrite Hok, Hsyncep, Hs in H.
  set (pURB := data_urb (dev w) pEndpointOut pBuffer nChunkSizeBytes
                        pCompletionRoutine pParam) in *.
  set (w1 := data_submitted pURB w) in *.
  assert (Hw1 : dev w1 = dev w /\ Speed (host w1) = Speed (host w)
                /\ pending (host w1)
                   = pending (host w) ++ [(pURB, m_bSyncEPActive (dev w))]).
  { subst w1. unfold data_submitted, SubmitAsyncRequest. rewrite Hok.
    destruct w as [d h f c r t]. auto. }
  destruct Hw1 as (Hd1 & Hsp1 & Hpend1).
  assert (Hready1 : Sync.ready R w1).
  { unfold Sync.ready. rewrite Hd1, Hsp1. exact Hready. }
  assert (HR1 : 0 < R <= 16383 * USBFrameRate (Speed (host w1)))
    by (rewrite Hsp1; exact HR).
  destruct (UpdateChunkSize_ready R w1 Hready1 HR1)
    as (w' & Hrun & Hh & _ & Htbl' & Hchunk & _ & Hready').
  rewrite Hsp1, Hd1 in Htbl', Hchunk. fold F in Htbl', Hchunk.
  fold P in Htbl', Hchunk.
  exists pURB, w'. split.
  { rewrite H. run_M. rewrite Hrun. reflexivity. }
  split; [rewrite Hh; exact Hpend1 |].
  split; [reflexivity |].
  split.
  { subst pURB. unfold data_urb. cbn [urb_packets]. rewrite Hs, Hp. fold P.
    change 0 with (Z.of_nat 0).
    rewrite packet_sizes_take
      by (rewrite Hlen; unfold MaxPacketsPerChunk; lia).
    rewrite drop_0.
    assert (Hid : forall l, Forall (fun size => 0 <= size < 2 ^ 16) l ->
                            map Int.u16 l = l).
    { induction 1 as [|x l Hx _ IH]; [reflexivity |].
      cbn [map]. rewrite u16_small by exact Hx. rewrite IH. reflexivity. }
    apply Hid. apply Forall_take. exact Htbl. }
  split; [reflexivity |].
  split; [rewrite Htbl'; exact Hchunk |].
  split; [exact Htbl' | exact Hready'].
Qed.

Lemma SendChunk_synchronous_witness :
  exists pURB w',
    SendChunk 8192 176 None 0
      (Sample.started (Sample.synchronous USBSpeedHigh) 44100)
    = Returns true w'
    /\ urb_packets pURB = [20; 24; 20; 24; 20; 24; 20; 24].
Proof.
  destruct (SendChunk_synchronous 44100 8192 176 None 0
              (Sample.started (Sample.synchronous USBSpeedHigh) 44100)
              (mkEndpoint [9; 5; 1; 13; 192; 0; 1; 0; 0]))
    as (pURB & w' & Hrun & _ & _ & Hp & _).
  - vm_compute. repeat split; congruence.
  - vm_compute. split; congruence.
  - lia.
  - vm_compute. reflexivity.
  - vm_compute. reflexivity.
  - vm_compute. reflexivity.
  - replace (m_usPacketSizeBytes
               (dev (Sample.started (Sample.synchronous USBSpeedHigh) 44100)))
      with [20; 24; 20; 24; 20; 24; 20; 24] by (vm_compute; reflexivity).
    repeat (constructor; [lia |]). constructor.
  - intros u. reflexivity.
  - exists pURB, w'. split; [exact Hrun |]. rewrite Hp. vm_compute.
    reflexivity.
Defined.

(** X8. Under the static and the asynchronous discipline an accepted
    [SendChunk] hands the host the buffer as one packet and changes nothing
    of the device but the in-flight flag: with a feedback endpoint and the
    flag clear it sets the flag and hands the host a feedback read after the
    data transfer; with the flag set, or without a feedback endpoint, the
    data transfer is all. *)
Theorem SendChunk_single_packet (pBuffer nChunkSizeBytes : Z)
  (pCompletionRoutine : option Z) (pParam : Z) (w : World)
  (pEndpointOut : CUSBEndpoint) :
  let data := mkURB pEndpointOut (CallerBuffer pBuffer) nChunkSizeBytes
                    [Int.u16 nChunkSizeBytes]
                    (ToCompletionHandler pParam pCompletionRoutine) in
  m_bSynchronousSync (dev w) = false ->
  pBuffer <> 0 ->
  m_pEndpointOut (dev w) = Some pEndpointOut ->
  (forall n u, submit_reply (host w) n u = true) ->
  exists w',
    SendChunk pBuffer nChunkSizeBytes pCompletionRoutine pParam w
    = Returns true w'
    /\ match m_pEndpointSync (dev w), m_bSyncEPActive (dev w) with
       | Some pEndpointSync, false =>
           dev w' = set_bSyncEPActive true (dev w)
           /\ pending (host w')
              = pending (host w)
                ++ [(data, false);
                    (feedback_urb pEndpointSync (Speed (host w)), true)]
       | _, flag =>
           dev w' = dev w
           /\ pending (host w') = pending (host w) ++ [(data, flag)]
       end.
Proof.
  intros data Hs Hb He Hok.
  pose proof (SendChunk_run pBuffer nChunkSizeBytes pCompletionRoutine
                pParam w pEndpointOut Hb He ltac:(congruence)) as H.
  cbn zeta in H. rewrite Hok, Hs in H.
  unfold data_urb in H. rewrite Hs in H. fold data in H.
  rewrite H. clear H.
  unfold data_submitted, SubmitAsyncRequest. rewrite !Hok.
  destruct (m_pEndpointSync (dev w)) as [pEndpointSync|].
  - destruct (m_bSyncEPActive (dev w)) eqn:Hf; cbn [negb final].
    + eexists. split; [reflexivity |].
      destruct w as [d h f c r t]. cbn in *. auto.
    + cbn [host with_host with_dev set_submitted submit_reply submit_count].
      rewrite Hok.
      eexists. split; [reflexivity |].
      destruct w as [d h f c r t]. destruct d. cbn in *. subst.
      rewrite <- app_assoc. auto.
  - cbn [final]. eexists. split; [reflexivity |].
    destruct w as [d h f c r t]. cbn in *.
    destruct (m_bSyncEPActive d); auto.
Qed.

Lemma SendChunk_single_packet_witness :
  exists w',
    SendChunk 8192 192 None 0
      (Sample.started (Sample.asynchronous USBSpeedHigh) 48000)
    = Returns true w'
    /\ m_nChunkSizeBytes (dev w') = 192.
Proof.
  destruct (SendChunk_single_packet 8192 192 None 0
              (Sample.started (Sample.asynchronous USBSpeedHigh) 48000)
              (mkEndpoint [9; 5; 1; 5; 192; 0; 1; 0; 0]))
    as (w' & Hrun & Hcase).
  - vm_compute. reflexivity.
  - lia.
  - vm_compute. reflexivity.
  - intros n u. reflexivity.
  - exists w'. split; [exact Hrun |].
    change (m_pEndpointSync
              (dev (Sample.started (Sample.asynchronous USBSpeedHigh) 48000)))
      with (Some (mkEndpoint [9; 5; 129; 17; 4; 0; 1; 0; 0])) in Hcase.
    change (m_bSyncEPActive
              (dev (Sample.started (Sample.asynchronous USBSpeedHigh) 48000)))
      with false in Hcase.
    destruct Hcase as [-> _]. vm_compute. reflexivity.
Defined.

(** ** What a method leaves alone *)

Section Respects.

Context {V : Type} (view : World -> V).

Lemma same_refl (w : World) : same view w w.
Proof. reflexivity. Qed.

Lemma same_trans (w1 w2 w3 : World) :
  same view w1 w2 -> same view w2 w3 -> same view w1 w3.
Proof. unfold same. congruence. Qed.

Lemma respects_ret {A} (a : A) : respects view (mret a).
Proof. intros w. reflexivity. Qed.

Lemma respects_bind {A B} (m : M A) (k : A -> M B) :
  respects view m -> (forall a, respects view (k a)) ->
  respects view (m ≫= k).
Proof.
  intros Hm Hk w. unfold mbind, M_bind. specialize (Hm w).
  destruct (m w) as [a w1|w1]; cbn [final] in *.
  - exact (same_trans _ _ _ Hm (Hk a w1)).
  - exact Hm.
Qed.

Lemma respects_assert (b : bool) : respects view (assert b).
Proof. intros w. unfold assert. destruct b; reflexivity. Qed.

Lemma respects_require {A} (o : option A) : respects view (require o).
Proof. intros w. unfold require. destruct o; reflexivity. Qed.

Lemma respects_get_dev : respects view get_dev.
Proof. intros w. reflexivity. Qed.

Lemma respects_get_host : respects view get_host.
Proof. intros w. reflexivity. Qed.

Lemma respects_snapshot : respects view (fun w => Returns w w).
Proof. intros w. reflexivity. Qed.

Lemma respects_for_loop {A} (count : nat) (i : Z) (body : Z -> A -> M A)
  (a : A) :
  (forall i a, respects view (body i a)) ->
  respects view (for_loop count i body a).
Proof.
  intros Hb. revert i a. induction count as [|count IH]; intros i a.
  - apply respects_ret.
  - cbn [for_loop]. apply respects_bind; [apply Hb | intros a'; apply IH].
Qed.

Lemma respects_upd_dev (f : Device -> Device) :
  (forall w, view (with_dev (f (dev w)) w) = view w) ->
  respects view (upd_dev f).
Proof. intros H w. apply H. Qed.

Lemma respects_ControlMessage (req : ControlRequest) :
  (forall w l, view (with_host (set_control_log l (host w)) w) = view w) ->
  respects view (ControlMessage req).
Proof.
  intros H w. unfold ControlMessage.
  destruct (control_reply (host w) req). apply H.
Qed.

Lemma respects_SubmitAsyncRequest (pURB : CUSBRequest) :
  (forall w n l, view (with_host (set_submitted n l (host w)) w) = view w) ->
  respects view (SubmitAsyncRequest pURB).
Proof. intros H w. unfold SubmitAsyncRequest. apply H. Qed.

Lemma respects_GetDescriptor (ucType : Z) :
  (forall w ds, view (with_func (set_descriptors ds (func w)) w) = view w) ->
  respects view (GetDescriptor ucType).
Proof.
  intros H w. unfold GetDescriptor.
  destruct (next_descriptor ucType (descriptors (func w))). apply H.
Qed.

Lemma respects_find_general (fuel : nat) :
  (forall w ds, view (with_func (set_descriptors ds (func w)) w) = view w) ->
  respects view (find_general fuel).
Proof.
  intros H. induction fuel as [|fuel IH]; cbn [find_general].
  - apply respects_ret.
  - apply respects_bind; [apply respects_GetDescriptor, H |].
    intros [g|]; [| apply respects_ret].
    destruct (Desc.bDescriptorSubtype g =? USB_AUDIO_STREAMING_GENERAL);
      [apply respects_ret | exact IH].
Qed.

Lemma respects_AddDevice (name : string) (pDevice : Z) :
  (forall w r, view (with_registry r w) = view w) ->
  respects view (AddDevice name pDevice).
Proof. intros H w. apply H. Qed.

Lemma respects_RemoveDevice (name : string) :
  (forall w r, view (with_registry r w) = view w) ->
  respects view (RemoveDevice name).
Proof. intros H w. apply H. Qed.

Lemma respects_GetNextStreamingSubDeviceNumber (c : ControlDevice) :
  (forall w c', view (with_function0 c' w) = view w) ->
  respects view (GetNextStreamingSubDeviceNumber c).
Proof. intros H w. apply H. Qed.

Lemma respects_CompletionHandler (pParam : Z) (pContext : option Z) :
  (forall w l, view (with_host (set_callbacks l (host w)) w) = view w) ->
  respects view (CompletionHandler pParam pContext).
Proof. intros H w. destruct pContext; [apply H | reflexivity]. Qed.

End Respects.

Ltac view_side :=
  let w := fresh "w" in
  intros w; intros; destruct w as [[] [] [] ? ? ?]; reflexivity.

Ltac respects_step :=
  first
    [ apply respects_ret
    | apply respects_get_dev
    | apply respects_get_host
    | apply respects_snapshot
    | apply respects_assert
    | apply respects_require
    | apply respects_upd_dev; solve [view_side]
    | apply respects_ControlMessage; solve [view_side]
    | apply respects_SubmitAsyncRequest; solve [view_side]
    | apply respects_GetDescriptor; solve [view_side]
    | apply respects_find_general; solve [view_side]
    | apply respects_AddDevice; solve [view_side]
    | apply respects_RemoveDevice; solve [view_side]
    | apply respects_GetNextStreamingSubDeviceNumber; solve [view_side]
    | apply respects_CompletionHandler; solve [view_side]
    | apply respects_for_loop; intros ? ?
    | apply respects_bind; [| intros ?]
    | match goal with
      | |- respects _ (if ?b then _ else _) => destruct b
      | |- respects _ (match ?o with Some _ => _ | None => _ end) =>
          destruct o
      end ].

Lemma Configure_respects_stream : respects stream_view Configure.
Proof. unfold Configure. repeat respects_step. Qed.

(** X9. [Configure] leaves the state of the stream alone, whatever its
    outcome: sample rate, chunk size, packet table, accumulator, in-flight
    flag and feedback buffer, and the requests and callbacks at the host. *)
Theorem Configure_keeps_stream (w : World) :
  stream_view (final (Configure w)) = stream_view w.
Proof. apply Configure_respects_stream. Qed.

Lemma UpdateChunkSize_respects_configuration :
  respects configuration_view UpdateChunkSize.
Proof. unfold UpdateChunkSize. repeat respects_step. Qed.

Lemma Setup_respects_configuration (nSampleRate : Z) :
  respects configuration_view (Setup nSampleRate).
Proof.
  unfold Setup.
  repeat first [apply UpdateChunkSize_respects_configuration | respects_step].
Qed.

Lemma SendChunk_respects_configuration (pBuffer nChunkSizeBytes : Z)
  (pCompletionRoutine : option Z) (pParam : Z) :
  respects configuration_view
    (SendChunk pBuffer nChunkSizeBytes pCompletionRoutine pParam).
Proof.
  unfold SendChunk.
  repeat first [apply UpdateChunkSize_respects_configuration | respects_step].
Qed.

Lemma SetMute_respects_configuration (bEnable : bool) :
  respects configuration_view (SetMute bEnable).
Proof. unfold SetMute. repeat respects_step. Qed.

Lemma SetVolume_respects_configuration (nChannel ndB : Z) :
  respects configuration_view (SetVolume nChannel ndB).
Proof. unfold SetVolume. cbv zeta. repeat respects_step. Qed.

Lemma SyncCompletionHandler_respects_configuration
  (nStatus nResultLength : Z) :
  respects configuration_view (SyncCompletionHandler nStatus nResultLength).
Proof. unfold SyncCompletionHandler. cbv zeta. repeat respects_step. Qed.

Lemma final_unit_outcome {A} (o : Outcome A) : final (unit_outcome o) = final o.
Proof. destruct o; reflexivity. Qed.

Lemma perform_respects_configuration (op : Operation) (w : World)
  (o : Outcome unit) :
  perform op w = Some o -> configuration_view (final o) = configuration_view w.
Proof.
  destruct op as [[pBuffer n routine param | nStatus data |] | rate | b
                  | ch dB | |]; cbn [perform fire].
  - intros [= <-]. rewrite final_unit_outcome.
    apply SendChunk_respects_configuration.
  - destruct (take_request true (pending (host w))) as [[u rest]|];
      [| discriminate].
    intros [= <-].
    etransitivity;
      [apply SyncCompletionHandler_respects_configuration |].
    destruct w as [[] [] [] ? ? ?]. reflexivity.
  - destruct (take_request false (pending (host w))) as [[u rest]|];
      [| discriminate].
    destruct (urb_completion u) as [pParam pContext|]; [| discriminate].
    intros [= <-].
    etransitivity;
      [apply (respects_CompletionHandler configuration_view);
       solve [view_side] |].
    destruct w as [[] [] [] ? ? ?]. reflexivity.
  - intros [= <-]. rewrite final_unit_outcome.
    apply Setup_respects_configuration.
  - intros [= <-]. rewrite final_unit_outcome.
    apply SetMute_respects_configuration.
  - intros [= <-]. rewrite final_unit_outcome.
    apply SetVolume_respects_configuration.
  - intros [= <-]. rewrite final_unit_outcome.
    unfold GetChunkSizeBytes. run_M.
    destruct (negb (m_nChunkSizeBytes (dev w) =? 0)); reflexivity.
  - intros [= <-]. reflexivity.
Qed.

Lemma after_respects_configuration (ops : list Operation) (w : World) :
  configuration_view (after ops w) = configuration_view w.
Proof.
  revert w. induction ops as [|op ops IH]; intros w; cbn [after].
  - reflexivity.
  - destruct (perform op w) as [[[] w1|w1]|] eqn:E.
    + rewrite IH. exact (perform_respects_configuration op w _ E).
    + exact (perform_respects_configuration op w _ E).
    + apply IH.
Qed.

(** X10. What [Configure] has set up is read-only afterwards: no sequence of
    [Setup], [SendChunk], [SetMute], [SetVolume], [GetChunkSizeBytes] and
    [GetDeviceInfo] calls and of completions changes the capabilities
    ([m_DeviceInfo]), the endpoints, the protocol version, the discipline,
    the unit IDs, the device name or the registry; [GetDeviceInfo] returns the
    same capabilities after it as before. *)
Theorem configuration_is_read_only (ops : list Operation) (w : World) :
  configuration_view (after ops w) = configuration_view w
  /\ GetDeviceInfo (after ops w)
     = Returns (m_DeviceInfo (dev w)) (after ops w).
Proof.
  pose proof (after_respects_configuration ops w) as H.
  split; [exact H |].
  unfold GetDeviceInfo. run_M. f_equal.
  unfold configuration_view in H. congruence.
Qed.

(** ** The way of [Configure] to TRUE *)

Lemma bind_inv {A B} (m : M A) (k : A -> M B) (w w' : World) (b : B) :
  (m ≫= k) w = Returns b w' ->
  exists a w1, m w = Returns a w1 /\ k a w1 = Returns b w'.
Proof.
  unfold mbind, M_bind. destruct (m w) as [a w1|w1]; [| discriminate].
  intros H. exists a, w1. auto.
Qed.

Lemma respects_returns {V A} (view : World -> V) (m : M A) (w w1 : World)
  (a : A) :
  respects view m -> m w = Returns a w1 -> view w1 = view w.
Proof. intros Hm E. specialize (Hm w). rewrite E in Hm. exact Hm. Qed.

Lemma GetDescriptor_outside (ucType : Z) :
  respects outside_func (GetDescriptor ucType).
Proof. apply respects_GetDescriptor. view_side. Qed.

Lemma find_general_outside (fuel : nat) :
  respects outside_func (find_general fuel).
Proof. apply respects_find_general. view_side. Qed.

Ltac bind_inv_in H a w1 E :=
  apply bind_inv in H; destruct H as (a & w1 & E & H).

(** A successful [Configure], step by step: the descriptors it took, the
    device as it is when the capabilities are looked up ([w5]), the branch of
    the protocol version and the end. *)
Lemma Configure_true_inv (w w' : World) :
  Configure w = Returns true w' ->
  exists (g f e : list Z) (feedback : option (list Z)) (c : ControlDevice)
         (w5 w6 : World),
    NumEndpoints (func w) >= 1
    /\ Z.land (Desc.bmAttributes e) 51 = 1
    /\ Z.land (Desc.bEndpointAddress e) 128 = 0
    /\ Desc.bInterval e = 1
    /\ match feedback with
       | Some e_in =>
           Z.land (Desc.bmAttributes e) 12 = 4
           /\ Z.land (Desc.bmAttributes e_in) 63 = 17
           /\ Z.land (Desc.bEndpointAddress e_in) 128 = 128
       | None => Z.land (Desc.bmAttributes e) 12 <> 4
       end
    /\ dev w5
       = set_pEndpointOut (Some (mkEndpoint e))
           (set_bSynchronousSync (Z.land (Desc.bmAttributes e) 12 =? 12)
              (match feedback with
               | Some e_in => set_pEndpointSync (Some (mkEndpoint e_in))
               | None => fun d => d
               end
                 (set_bVer200
                    (InterfaceProtocol (func w) =? USB_PROTO_AUDIO_VER_200)
                    (dev w))))
    /\ host w5 = host w
    /\ function0 w5 = function0 w
    /\ registry w5 = registry w
    /\ this w5 = this w
    /\ function0 w = Some c
    /\ base_Configure (func w) = true
    /\ (if InterfaceProtocol (func w) =? USB_PROTO_AUDIO_VER_200
        then Configure_Ver200 c g w5
        else Configure_Ver100 c g f w5) = Returns true w6
    /\ Configure_finish c w6 = Returns true w'.
Proof.
  intros H. unfold Configure in H.
  bind_inv_in H w0 w1 E. injection E as <- <-.
  bind_inv_in H u1 w1 E. unfold assert in E.
  destruct (NumEndpoints (func w) >=? 1) eqn:Hn; [| discriminate].
  injection E as _ <-.
  bind_inv_in H u2 w2 E. unfold upd_dev in E. injection E as _ <-.
  bind_inv_in H optg w3 E3.
  pose proof (respects_returns _ _ _ _ _ (find_general_outside _) E3) as O3.
  destruct optg as [g|]; [| discriminate].
  bind_inv_in H optf w4 E4.
  pose proof (respects_returns _ _ _ _ _ (GetDescriptor_outside _) E4) as O4.
  destruct optf as [f|]; [| discriminate].
  destruct (negb (Desc.bDescriptorSubtype f =? USB_AUDIO_FORMAT_TYPE));
    [discriminate |].
  bind_inv_in H opte w5 E5.
  pose proof (respects_returns _ _ _ _ _ (GetDescriptor_outside _) E5) as O5.
  destruct opte as [e|]; [| discriminate].
  destruct (Z.eqb_spec (Z.land (Desc.bmAttributes e) 51) 1) as [Ha|];
    [| discriminate].
  destruct (Z.eqb_spec (Z.land (Desc.bEndpointAddress e) 128) 0) as [Hd|];
    [| discriminate].
  cbn [negb orb] in H.
  destruct (Z.eqb_spec (Desc.bInterval e) 1) as [Hi|]; [| discriminate].
  cbn [negb] in H.
  bind_inv_in H d w6 E. injection E as <- <-.
  match type of H with
  | (if ?b then _ else _) _ = _ => destruct b; [discriminate |]
  end.
  bind_inv_in H bF w7 E7.
  destruct bF; [| discriminate]. cbn [negb] in H.
  bind_inv_in H u8 w8 E. unfold upd_dev in E. injection E as _ <-.
  bind_inv_in H u9 w9 E. unfold upd_dev in E. injection E as _ <-.
  destruct (base_Configure (func w)) eqn:Hbase; [| discriminate].
  cbn [negb] in H.
  destruct (function0 w) as [c|] eqn:Hc; [| discriminate].
  match type of H with
  | (if ?b then _ else _) _ = _ => destruct b; [discriminate |]
  end.
  bind_inv_in H d w10 E. injection E as <- <-.
  bind_inv_in H bInfo w11 E11.
  destruct bInfo; [| discriminate]. cbn [negb] in H.
  assert (Hfeedback :
            exists feedback,
              match feedback with
              | Some e_in =>
                  Z.land (Desc.bmAttributes e) 12 = 4
                  /\ Z.land (Desc.bmAttributes e_in) 63 = 17
                  /\ Z.land (Desc.bEndpointAddress e_in) 128 = 128
              | None => Z.land (Desc.bmAttributes e) 12 <> 4
              end
              /\ outside_func w7
                 = outside_func
                     (with_dev
                        (match feedback with
                         | Some e_in =>
                             set_pEndpointSync (Some (mkEndpoint e_in))
                         | None => fun d => d
                         end (dev w5)) w5)).
  { destruct (Z.eqb_spec (Z.land (Desc.bmAttributes e) 12) 4) as [H4|H4].
    - bind_inv_in E7 oin w6 E6.
      pose proof (respects_returns _ _ _ _ _ (GetDescriptor_outside _) E6)
        as O6.
      destruct oin as [e_in|]; [| discriminate].
      destruct (Z.eqb_spec (Z.land (Desc.bmAttributes e_in) 63) 17) as [Hb|];
        [| discriminate].
      destruct (Z.eqb_spec (Z.land (Desc.bEndpointAddress e_in) 128) 128)
        as [He|]; [| discriminate].
      cbn [negb orb] in E7.
      bind_inv_in E7 u w6' E. unfold upd_dev in E. injection E as _ <-.
      injection E7 as <-.
      exists (Some e_in). split; [auto |].
      unfold outside_func in *. destruct w6, w5. cbn in *. congruence.
    - injection E7 as <-. exists None. split; [exact H4 |].
      destruct w5. reflexivity. }
  destruct Hfeedback as (feedback & Hfb & O7).
  exists g, f, e, feedback, c, (with_dev
    (set_pEndpointOut (Some (mkEndpoint e))
       (dev (with_dev (set_bSynchronousSync
                         (Z.land (Desc.bmAttributes e) 12 =? 12) (dev w7))
                      w7)))
    (with_dev (set_bSynchronousSync
                 (Z.land (Desc.bmAttributes e) 12 =? 12) (dev w7)) w7)), w11.
  assert (Hdev7 : dev w7
                  = match feedback with
                    | Some e_in => set_pEndpointSync (Some (mkEndpoint e_in))
                    | None => fun d => d
                    end
                      (set_bVer200
                         (InterfaceProtocol (func w)
                          =? USB_PROTO_AUDIO_VER_200) (dev w))
                  /\ host w7 = host w /\ function0 w7 = function0 w
                  /\ registry w7 = registry w /\ this w7 = this w).
  { unfold outside_func in *. destruct w7, w5, w4, w3, w. cbn in *.
    injection O7 as -> -> -> -> ->. injection O5 as -> -> -> -> ->.
    injection O4 as -> -> -> -> ->. injection O3 as -> -> -> -> ->.
    repeat split. }
  destruct Hdev7 as (Hd7 & Hh7 & Hf7 & Hr7 & Ht7).
  split; [lia |].
  split; [exact Ha |]. split; [exact Hd |]. split; [exact Hi |].
  split; [exact Hfb |].
  split; [destruct w7; cbn in *; rewrite Hd7; reflexivity |].
  split; [destruct w7; exact Hh7 |].
  split; [destruct w7; cbn in *; congruence |].
  split; [destruct w7; exact Hr7 |].
  split; [destruct w7; exact Ht7 |].
  split; [reflexivity |]. split; [reflexivity |].
  split; [| exact H].
  rewrite <- E11.
  assert (Hver : m_bVer200 (dev w7)
                 = (InterfaceProtocol (func w) =? USB_PROTO_AUDIO_VER_200)).
  { rewrite Hd7. destruct feedback; destruct (dev w); reflexivity. }
  destruct w7 as [d7 ? ? ? ? ?]. destruct d7. cbn in Hver |- *.
  rewrite Hver. destruct (InterfaceProtocol (func w) =? _); reflexivity.
Qed.

Lemma Configure_Ver100_respects_endpoints (c : ControlDevice)
  (g f : list Z) : respects endpoint_view (Configure_Ver100 c g f).
Proof. unfold Configure_Ver100. cbv zeta. repeat respects_step. Qed.

Lemma Configure_Ver200_respects_endpoints (c : ControlDevice) (g : list Z) :
  respects endpoint_view (Configure_Ver200 c g).
Proof. unfold Configure_Ver200. cbv zeta. repeat respects_step. Qed.

Lemma Configure_finish_respects_endpoints (c : ControlDevice) :
  respects endpoint_view (Configure_finish c).
Proof. unfold Configure_finish. repeat respects_step. Qed.

Lemma Configure_finish_respects_units (c : ControlDevice) :
  respects unit_view (Configure_finish c).
Proof. unfold Configure_finish. repeat respects_step. Qed.

(** X11. A successful [Configure] takes the discipline from the
    synchronisation type of the OUT endpoint (bits 2-3 of bmAttributes): the
    synchronous discipline for 3, a feedback endpoint for 1, neither for 0
    and 2. A device never has both the synchronous discipline and a feedback
    endpoint, and always has its OUT endpoint. *)
Theorem Configure_selects_discipline (w w' : World) :
  m_pEndpointSync (dev w) = None ->
  Configure w = Returns true w' ->
  exists e : list Z,
    m_pEndpointOut (dev w') = Some (mkEndpoint e)
    /\ Z.land (Desc.bmAttributes e) 51 = 1
    /\ Desc.bInterval e = 1
    /\ m_bSynchronousSync (dev w')
       = (Z.land (Desc.bmAttributes e) 12 =? 12)
    /\ (is_Some (m_pEndpointSync (dev w'))
        <-> Z.land (Desc.bmAttributes e) 12 = 4)
    /\ (m_bSynchronousSync (dev w') = true ->
        m_pEndpointSync (dev w') = None)
    /\ m_bVer200 (dev w')
       = (InterfaceProtocol (func w) =? USB_PROTO_AUDIO_VER_200).
Proof.
  intros Hnone Hrun.
  destruct (Configure_true_inv w w' Hrun)
    as (g & f & e & feedback & c & w5 & w6 & _ & Ha & _ & Hi & Hfb & Hd5 & _
        & _ & _ & _ & _ & _ & Hver & Hfin).
  assert (E6 : endpoint_view w6 = endpoint_view w5).
  { destruct (InterfaceProtocol (func w) =? USB_PROTO_AUDIO_VER_200).
    - exact (respects_returns _ _ _ _ _
               (Configure_Ver200_respects_endpoints c g) Hver).
    - exact (respects_returns _ _ _ _ _
               (Configure_Ver100_respects_endpoints c g f) Hver). }
  pose proof (respects_returns _ _ _ _ _
                (Configure_finish_respects_endpoints c) Hfin) as E7.
  rewrite E6 in E7. unfold endpoint_view in E7. rewrite Hd5 in E7.
  injection E7 as Ev Eo Es Ey.
  exists e. rewrite Ev, Eo, Es, Ey. clear Ev Eo Es Ey.
  destruct (dev w) eqn:Ed. cbn in Hnone. subst.
  destruct feedback as [e_in|]; cbn.
  - destruct Hfb as (H4 & _). rewrite H4. cbn.
    repeat split; auto; try discriminate.
  - repeat split; auto; try contradiction.
    intros [x Hx]. discriminate.
Qed.

Lemma Configure_selects_discipline_witness :
  exists e : list Z,
    m_pEndpointOut
      (dev (final (Configure (Sample.synchronous USBSpeedFull))))
    = Some (mkEndpoint e)
    /\ m_bSynchronousSync
         (dev (final (Configure (Sample.synchronous USBSpeedFull))))
       = (Z.land (Desc.bmAttributes e) 12 =? 12).
Proof.
  destruct (Configure_selects_discipline (Sample.synchronous USBSpeedFull)
              (final (Configure (Sample.synchronous USBSpeedFull))))
    as (e & Ho & _ & _ & Hs & _).
  - reflexivity.
  - vm_compute. reflexivity.
  - exists e. split; [exact Ho | exact Hs].
Defined.

Lemma Configure_Ver200_clock (c : ControlDevice) (g : list Z) (w w' : World) :
  Configure_Ver200 c g w = Returns true w' ->
  m_uchClockSourceID (dev w') <> USB_AUDIO_UNDEFINED_UNIT_ID.
Proof.
  intros H. unfold Configure_Ver200 in H.
  bind_inv_in H u1 w1 E. clear E.
  bind_inv_in H u2 w2 E. clear E.
  bind_inv_in H d w3 E. injection E as <- <-.
  destruct (Z.eqb_spec (m_uchClockSourceID (dev w2))
                       USB_AUDIO_UNDEFINED_UNIT_ID) as [|Hclock];
    [discriminate |].
  match type of H with
  | ?m w2 = _ =>
      assert (Hm : respects unit_view m)
        by (cbv zeta; repeat respects_step)
  end.
  pose proof (respects_returns _ _ _ _ _ Hm H) as E.
  unfold unit_view in E. injection E as _ ->. exact Hclock.
Qed.

Lemma Configure_finish_mute (c : ControlDevice) (w w' : World) :
  Configure_finish c w = Returns true w' ->
  MuteSupported (m_DeviceInfo (dev w')) = true ->
  m_uchFeatureUnitID (dev w') <> USB_AUDIO_UNDEFINED_UNIT_ID.
Proof.
  unfold Configure_finish, GetNextStreamingSubDeviceNumber, AddDevice.
  run_M. intros [= <-].
  destruct w as [d h f c0 r t]. destruct d. cbn.
  destruct (Z.eqb_spec m_uchFeatureUnitID0 USB_AUDIO_UNDEFINED_UNIT_ID);
    [discriminate | auto].
Qed.

Lemma Configure_usable (w w' : World) :
  Configure w = Returns true w' -> usable w'.
Proof.
  intros Hrun.
  destruct (Configure_true_inv w w' Hrun)
    as (g & f & e & feedback & c & w5 & w6 & _ & _ & _ & _ & _ & Hd5 & _
        & _ & _ & _ & _ & _ & Hver & Hfin).
  assert (E6 : endpoint_view w6 = endpoint_view w5).
  { destruct (InterfaceProtocol (func w) =? USB_PROTO_AUDIO_VER_200).
    - exact (respects_returns _ _ _ _ _
               (Configure_Ver200_respects_endpoints c g) Hver).
    - exact (respects_returns _ _ _ _ _
               (Configure_Ver100_respects_endpoints c g f) Hver). }
  pose proof (respects_returns _ _ _ _ _
                (Configure_finish_respects_endpoints c) Hfin) as E7.
  rewrite E6 in E7. unfold endpoint_view in E7. rewrite Hd5 in E7.
  injection E7 as Ev Eo _ _.
  pose proof (respects_returns _ _ _ _ _
                (Configure_finish_respects_units c) Hfin) as Eu.
  unfold unit_view in Eu. injection Eu as _ Eclock.
  split; [| split].
  - intros _. rewrite Eo. destruct feedback; destruct (dev w); cbn; eauto.
  - intros Hv. rewrite Eclock.
    assert (Hp : (InterfaceProtocol (func w) =? USB_PROTO_AUDIO_VER_200)
                 = true).
    { rewrite Ev in Hv. destruct feedback; destruct (dev w); exact Hv. }
    rewrite Hp in Hver. exact (Configure_Ver200_clock c g w5 w6 Hver).
  - exact (Configure_finish_mute c w6 w' Hfin).
Qed.

Lemma usable_after (ops : list Operation) (w : World) :
  usable w -> usable (after ops w).
Proof.
  pose proof (after_respects_configuration ops w) as H.
  unfold configuration_view in H.
  injection H as Hv Ho _ _ Hc Hf Hi _ _ _ _ _.
  unfold usable. rewrite Hv, Ho, Hc, Hf, Hi. auto.
Qed.

Lemma usable_Setup_returns (nSampleRate : Z) (w : World) :
  usable w -> 0 < nSampleRate ->
  exists b w', Setup nSampleRate w = Returns b w'.
Proof.
  intros (H1 & H2 & _) Hr.
  pose proof (Setup_run nSampleRate w) as H. cbn zeta in H.
  destruct (Setup_supported (m_DeviceInfo (dev w)) nSampleRate);
    cbn [negb] in H; [| eauto].
  assert (Hreq : exists req, Setup_request (dev w) nSampleRate = Some req).
  { unfold Setup_request. destruct (m_bVer200 (dev w)); cbn [negb].
    - destruct (Z.eqb_spec (m_uchClockSourceID (dev w))
                           USB_AUDIO_UNDEFINED_UNIT_ID) as [E|];
        [exfalso; exact (H2 eq_refl E) | eauto].
    - destruct (H1 eq_refl) as [ep ->]. eauto. }
  destruct Hreq as (req & Hreq). rewrite Hreq in H.
  destruct ((control_reply (host w) req).1 <? 0); [eauto |].
  rewrite H. run_M.
  destruct (m_bSynchronousSync (dev w)) eqn:Hs; [| eauto].
  rewrite UpdateChunkSize_run;
    [eauto | destruct w as [[] ?]; exact Hs | destruct w as [[] ?]; exact Hr].
Qed.

Lemma usable_SetMute_returns (bEnable : bool) (w : World) :
  usable w -> exists b w', SetMute bEnable w = Returns b w'.
Proof.
  intros (_ & _ & H3). unfold SetMute. run_M.
  destruct (MuteSupported (m_DeviceInfo (dev w))); cbn [negb]; [| eauto].
  destruct (Z.eqb_spec (m_uchFeatureUnitID (dev w))
                       USB_AUDIO_UNDEFINED_UNIT_ID) as [E|];
    [exfalso; exact (H3 eq_refl E) |].
  cbn [negb]. unfold ControlMessage.
  destruct (control_reply (host w) _) as [result data].
  cbn [fst]. destruct (result <? 0); eauto.
Qed.

(** X12. On a device that [Configure] has configured, [Setup] with a
    positive rate and [SetMute] always return, after any sequence of
    operations: they cannot stop on a missing endpoint, clock source or
    feature unit. *)
Theorem configured_device_calls_return (w w' : World)
  (ops : list Operation) (nSampleRate : Z) (bEnable : bool) :
  Configure w = Returns true w' ->
  0 < nSampleRate ->
  (exists b w2, Setup nSampleRate (after ops w') = Returns b w2)
  /\ (exists b w2, SetMute bEnable (after ops w') = Returns b w2).
Proof.
  intros Hrun Hr.
  pose proof (usable_after ops w' (Configure_usable w w' Hrun)) as Hu.
  split.
  - exact (usable_Setup_returns nSampleRate _ Hu Hr).
  - exact (usable_SetMute_returns bEnable _ Hu).
Qed.

Lemma configured_device_calls_return_witness :
  exists b w2,
    Setup 44100
      (after [CallSetup 48000; Happens (CallSendChunk 8192 192 None 0)]
             (final (Configure (Sample.asynchronous USBSpeedFull))))
    = Returns b w2.
Proof.
  destruct (configured_device_calls_return
              (Sample.asynchronous USBSpeedFull)
              (final (Configure (Sample.asynchronous USBSpeedFull)))
              [CallSetup 48000; Happens (CallSendChunk 8192 192 None 0)]
              44100 true) as [H _].
  - vm_compute. reflexivity.
  - lia.
  - exact H.
Defined.

(** ** Where [Configure] stops and what a failure leaves *)

Section Returns.

Lemma returns_ret {A} (a : A) : returns (mret a).
Proof. intros w. exists a, w. reflexivity. Qed.

Lemma returns_bind {A B} (m : M A) (k : A -> M B) :
  returns m -> (forall a, returns (k a)) -> returns (m ≫= k).
Proof.
  intros Hm Hk w. unfold mbind, M_bind.
  destruct (Hm w) as (a & w1 & ->). apply Hk.
Qed.

Lemma returns_total {A} (f : World -> A) (g : World -> World) :
  returns (fun w => Returns (f w) (g w)).
Proof. intros w. eauto. Qed.

Lemma returns_for_loop {A} (count : nat) (i : Z) (body : Z -> A -> M A)
  (a : A) :
  (forall i a, returns (body i a)) -> returns (for_loop count i body a).
Proof.
  intros Hb. revert i a. induction count as [|count IH]; intros i a.
  - apply returns_ret.
  - cbn [for_loop]. apply returns_bind; [apply Hb | intros a'; apply IH].
Qed.

Lemma returns_ControlMessage (req : ControlRequest) :
  returns (ControlMessage req).
Proof.
  intros w. unfold ControlMessage. destruct (control_reply (host w) req).
  eauto.
Qed.

Lemma returns_GetDescriptor (ucType : Z) : returns (GetDescriptor ucType).
Proof.
  intros w. unfold GetDescriptor.
  destruct (next_descriptor ucType (descriptors (func w))). eauto.
Qed.

Lemma returns_find_general (fuel : nat) : returns (find_general fuel).
Proof.
  induction fuel as [|fuel IH]; cbn [find_general].
  - apply returns_ret.
  - apply returns_bind; [apply returns_GetDescriptor |].
    intros [g|]; [| apply returns_ret].
    destruct (Desc.bDescriptorSubtype g =? USB_AUDIO_STREAMING_GENERAL);
      [apply returns_ret | exact IH].
Qed.

End Returns.

Ltac returns_step :=
  first
    [ apply returns_ret
    | apply returns_ControlMessage
    | apply returns_GetDescriptor
    | apply returns_find_general
    | apply returns_for_loop; intros ? ?
    | apply returns_bind; [| intros ?]
    | match goal with
      | |- returns (if ?b then _ else _) => destruct b
      | |- returns (match ?o with Some _ => _ | None => _ end) => destruct o
      end
    | exact (returns_total _ _) ].

Lemma Configure_Ver100_returns (c : ControlDevice) (g f : list Z) :
  returns (Configure_Ver100 c g f).
Proof.
  unfold Configure_Ver100, set_range, upd_info, upd_dev, get_dev. cbv zeta.
  repeat returns_step.
Qed.

Lemma Configure_Ver200_returns (c : ControlDevice) (g : list Z) :
  returns (Configure_Ver200 c g).
Proof.
  unfold Configure_Ver200, set_range, upd_info, upd_dev, get_dev. cbv zeta.
  repeat returns_step.
Qed.

Lemma Configure_finish_true (c : ControlDevice) (w : World) :
  exists w', Configure_finish c w = Returns true w'.
Proof.
  destruct (Configure_finish_run c w) as (w' & H & _). eauto.
Qed.

Lemma Configure_finish_returns (c : ControlDevice) :
  returns (Configure_finish c).
Proof. intros w. destruct (Configure_finish_true c w) as (w' & ->). eauto. Qed.

Lemma Configure_returns (w : World) :
  1 <= NumEndpoints (func w) -> exists b w', Configure w = Returns b w'.
Proof.
  intros Hn. unfold Configure.
  unfold mbind at 1, M_bind at 1. cbv beta iota.
  unfold mbind at 1, M_bind at 1, assert.
  apply Z.geb_le in Hn. rewrite Hn.
  match goal with
  | |- exists b w', ?m w = _ => cut (returns m); [intros H; exact (H w) |]
  end.
  unfold upd_dev, get_dev.
  repeat first
    [ match goal with
      | |- returns (Configure_Ver100 _ _ _) => apply Configure_Ver100_returns
      | |- returns (Configure_Ver200 _ _) => apply Configure_Ver200_returns
      | |- returns (Configure_finish _) => apply Configure_finish_returns
      end
    | returns_step ].
Qed.

(** X13. [Configure] stops on its assertion exactly when the interface has
    no endpoint, and nowhere else: with an endpoint it returns, TRUE or
    FALSE. [Initialize] returns TRUE for such interfaces only, so that
    [Configure] after a successful [Initialize] always returns. *)
Theorem Initialize_guards_Configure (w : World) :
  ((exists b w', Configure w = Returns b w') <-> 1 <= NumEndpoints (func w))
  /\ (NumEndpoints (func w) < 1 -> Configure w = Halted w)
  /\ (forall w1, Initialize w = Returns true w1 ->
                 w1 = w /\ exists b w', Configure w1 = Returns b w').
Proof.
  assert (Hhalt : NumEndpoints (func w) < 1 -> Configure w = Halted w).
  { intros Hn. unfold Configure.
    unfold mbind at 1, M_bind at 1. cbv beta iota.
    unfold mbind at 1, M_bind at 1, assert.
    destruct (Z.geb_spec (NumEndpoints (func w)) 1); [lia | reflexivity]. }
  split; [| split].
  - split; [| apply Configure_returns].
    intros (b & w' & H).
    destruct (Z.lt_ge_cases (NumEndpoints (func w)) 1) as [Hn|Hn];
      [| exact Hn].
    rewrite (Hhalt Hn) in H. discriminate.
  - exact Hhalt.
  - unfold Initialize. intros w1 H.
    destruct (base_Initialize (func w)); cbn [negb] in H; [| discriminate].
    injection H as Hn <-. split; [reflexivity |].
    apply Configure_returns. apply Z.geb_le. exact Hn.
Qed.

Section Refuses.

Context {V : Type} (view : World -> V).

Lemma refuses_false : refuses view (mret false).
Proof. intros w. reflexivity. Qed.

Lemma refuses_true (m : M bool) :
  (forall w, exists w', m w = Returns true w') -> refuses view m.
Proof. intros H w. destruct (H w) as (w' & ->). exact I. Qed.

Lemma refuses_respects (m : M bool) : respects view m -> refuses view m.
Proof.
  intros H w. specialize (H w).
  destruct (m w) as [[] w1|w1]; [exact I | exact H | exact H].
Qed.

Lemma refuses_bind {A} (m : M A) (k : A -> M bool) :
  respects view m -> (forall a, refuses view (k a)) ->
  refuses view (m ≫= k).
Proof.
  intros Hm Hk w. unfold mbind, M_bind. specialize (Hm w).
  destruct (m w) as [a w1|w1]; cbn [final] in *; [| exact Hm].
  specialize (Hk a w1).
  destruct (k a w1) as [[] w2|w2]; cbn [final] in *;
    [exact I | exact (same_trans view _ _ _ Hm Hk)
     | exact (same_trans view _ _ _ Hm Hk)].
Qed.

End Refuses.

Lemma Configure_Ver100_respects_name (c : ControlDevice) (g f : list Z) :
  respects name_view (Configure_Ver100 c g f).
Proof.
  unfold Configure_Ver100, set_range, upd_info. cbv zeta.
  repeat respects_step.
Qed.

Lemma Configure_Ver200_respects_name (c : ControlDevice) (g : list Z) :
  respects name_view (Configure_Ver200 c g).
Proof.
  unfold Configure_Ver200, set_range, upd_info. cbv zeta.
  repeat respects_step.
Qed.

Ltac destruct_if_respects :=
  match goal with
  | |- respects _ (if ?b then _ else _) =>
      destruct b;
      [apply Configure_Ver100_respects_name
      | apply Configure_Ver200_respects_name]
  end.

Ltac refuses_step :=
  first
    [ apply refuses_false
    | match goal with
      | |- refuses _ (Configure_finish _) =>
          apply refuses_true; intros ?; apply Configure_finish_true
      end
    | apply refuses_bind;
      [ match goal with
        | |- respects _ (if _ then Configure_Ver100 _ _ _ else _) =>
            destruct_if_respects
        | |- _ => repeat respects_step
        end
      | intros ? ]
    | match goal with
      | |- refuses _ (if ?b then _ else _) => destruct b
      | |- refuses _ (match ?o with Some _ => _ | None => _ end) =>
          destruct o
      end ].

Lemma Configure_refuses_name : refuses name_view Configure.
Proof. unfold Configure. repeat refuses_step. Qed.

(** X14. A [Configure] that does not return TRUE, because a descriptor, the
    control device or a request fails or because it stops, has named and
    registered nothing and has not taken a number from the counter of the
    control device. The destructor of such a device, which has the empty
    name of the constructor, leaves the registry alone. *)
Theorem Configure_failure_registers_nothing (w : World) :
  (forall w', Configure w <> Returns true w') ->
  let w1 := final (Configure w) in
  m_DeviceName (dev w1) = m_DeviceName (dev w)
  /\ registry w1 = registry w
  /\ function0 w1 = function0 w
  /\ (m_DeviceName (dev w) = "" ->
      registry (final (destroy w1)) = registry w).
Proof.
  intros Hfail. cbn zeta.
  pose proof (Configure_refuses_name w) as H.
  assert (E : name_view (final (Configure w)) = name_view w).
  { destruct (Configure w) as [[] w1|w1];
      [exfalso; exact (Hfail w1 eq_refl) | exact H | exact H]. }
  unfold name_view in E. injection E as En _ Er Ec.
  repeat split; auto.
  intros Hname. unfold destroy. run_M. rewrite En, Hname.
  cbn [String.length Nat.eqb negb final]. 
  destruct (final (Configure w)) as [d h f c r t]. cbn in *. exact Er.
Qed.

Lemma Configure_failure_registers_nothing_witness :
  registry (final (destroy (final (Configure
              (Sample.world USBSpeedFull [[7; 36; 1; 1; 1; 1; 0]])))))
  = registry (Sample.world USBSpeedFull [[7; 36; 1; 1; 1; 1; 0]]).
Proof.
  apply (Configure_failure_registers_nothing
           (Sample.world USBSpeedFull [[7; 36; 1; 1; 1; 1; 0]])).
  - intros w'. vm_compute. discriminate.
  - vm_compute. reflexivity.
Defined.

(** ** The volume control of a configured device *)

Ltac frame_of E view :=
  match type of E with
  | ?m ?w = Returns ?a ?w1 =>
      let H := fresh "Hframe" in
      assert (H : view w1 = view w)
        by (apply (respects_returns view m w w1 a); [| exact E];
            unfold upd_info, set_range; cbv zeta; repeat respects_step)
  end.

Lemma volume_controls_unit (c : ControlDevice) (uchFeatureUnitID : Z) :
  volume_controls c uchFeatureUnitID = true ->
  uchFeatureUnitID <> USB_AUDIO_UNDEFINED_UNIT_ID.
Proof.
  unfold volume_controls. intros H E. subst.
  rewrite Z.eqb_refl in H. discriminate.
Qed.

Lemma Configure_Ver100_volume (c : ControlDevice) (g f : list Z)
  (w w' : World) :
  Configure_Ver100 c g f w = Returns true w' ->
  VolumeSupported (m_DeviceInfo (dev w)) = false ->
  VolumeSupported (m_DeviceInfo (dev w')) = true ->
  m_uchFeatureUnitID (dev w') <> USB_AUDIO_UNDEFINED_UNIT_ID.
Proof.
  intros H Hflag. unfold Configure_Ver100 in H.
  bind_inv_in H u1 w1 E1. frame_of E1 volume_flag_view.
  bind_inv_in H u2 w2 E2. frame_of E2 volume_flag_view.
  bind_inv_in H u3 w3 E3. frame_of E3 volume_flag_view.
  bind_inv_in H d w4 E4. injection E4 as <- <-.
  destruct (volume_controls c (m_uchFeatureUnitID (dev w3))) eqn:Hvc.
  - intros _. apply volume_controls_unit in Hvc.
    frame_of H feature_unit_view.
    unfold feature_unit_view in *. congruence.
  - injection H as <-. unfold volume_flag_view in *.
    intros Ht. exfalso. congruence.
Qed.

Lemma Configure_Ver200_volume (c : ControlDevice) (g : list Z)
  (w w' : World) :
  Configure_Ver200 c g w = Returns true w' ->
  VolumeSupported (m_DeviceInfo (dev w)) = false ->
  VolumeSupported (m_DeviceInfo (dev w')) = true ->
  m_uchFeatureUnitID (dev w') <> USB_AUDIO_UNDEFINED_UNIT_ID.
Proof.
  intros H Hflag. unfold Configure_Ver200 in H.
  bind_inv_in H u1 w1 E1. frame_of E1 volume_flag_view.
  bind_inv_in H u2 w2 E2. frame_of E2 volume_flag_view.
  bind_inv_in H d w3 E3. injection E3 as <- <-.
  destruct (m_uchClockSourceID (dev w2) =? USB_AUDIO_UNDEFINED_UNIT_ID);
    [discriminate |].
  bind_inv_in H r1 w3 E3. frame_of E3 volume_flag_view.
  destruct (r1.1 <? 0); [discriminate |]. cbv zeta in H.
  bind_inv_in H r2 w4 E4. frame_of E4 volume_flag_view.
  destruct (r2.1 <? 0); [discriminate |].
  bind_inv_in H u5 w5 E5. frame_of E5 volume_flag_view.
  bind_inv_in H u6 w6 E6. frame_of E6 volume_flag_view.
  bind_inv_in H u7 w7 E7. frame_of E7 volume_flag_view.
  bind_inv_in H d w8 E8. injection E8 as <- <-.
  destruct (volume_controls c (m_uchFeatureUnitID (dev w7))) eqn:Hvc.
  - intros _. apply volume_controls_unit in Hvc.
    frame_of H feature_unit_view.
    unfold feature_unit_view in *. congruence.
  - injection H as <-. unfold volume_flag_view in *.
    intros Ht. exfalso. congruence.
Qed.

Lemma Configure_volume_unit (w w' : World) :
  Configure w = Returns true w' ->
  VolumeSupported (m_DeviceInfo (dev w)) = false ->
  VolumeSupported (m_DeviceInfo (dev w')) = true ->
  m_uchFeatureUnitID (dev w') <> USB_AUDIO_UNDEFINED_UNIT_ID.
Proof.
  intros Hrun Hflag.
  destruct (Configure_true_inv w w' Hrun)
    as (g & f & e & feedback & c & w5 & w6 & _ & _ & _ & _ & _ & Hd5 & _
        & _ & _ & _ & _ & _ & Hver & Hfin).
  assert (Hflag5 : VolumeSupported (m_DeviceInfo (dev w5)) = false).
  { rewrite Hd5. destruct feedback; destruct (dev w); exact Hflag. }
  assert (H6 : VolumeSupported (m_DeviceInfo (dev w6)) = true ->
               m_uchFeatureUnitID (dev w6) <> USB_AUDIO_UNDEFINED_UNIT_ID).
  { destruct (InterfaceProtocol (func w) =? USB_PROTO_AUDIO_VER_200).
    - exact (Configure_Ver200_volume c g w5 w6 Hver Hflag5).
    - exact (Configure_Ver100_volume c g f w5 w6 Hver Hflag5). }
  unfold Configure_finish in Hfin.
  frame_of Hfin volume_flag_view. frame_of Hfin feature_unit_view.
  unfold volume_flag_view, feature_unit_view in *.
  rewrite Hframe, Hframe0. exact H6.
Qed.

(** X15. On a device that [Configure] has configured from the state of the
    constructor (no volume control yet), [SetVolume] returns for the
    channels 0 and 1 after any sequence of operations, and stops for any
    other channel: a supported volume control has its feature unit. *)
Theorem configured_SetVolume_returns (w w' : World) (ops : list Operation)
  (nChannel ndB : Z) :
  Configure w = Returns true w' ->
  VolumeSupported (m_DeviceInfo (dev w)) = false ->
  (exists b w2, SetVolume nChannel ndB (after ops w') = Returns b w2)
  <-> nChannel <= 1.
Proof.
  intros Hrun Hflag.
  pose proof (Configure_volume_unit w w' Hrun Hflag) as Hunit.
  pose proof (after_respects_configuration ops w') as E.
  unfold configuration_view in E.
  injection E as _ _ _ _ _ Ef Ei _ _ _ _ _.
  rewrite <- Ef, <- Ei in Hunit. clear Ef Ei.
  unfold SetVolume. run_M.
  destruct (Z.leb_spec nChannel 1) as [Hc|Hc].
  - split; [intros _; exact Hc | intros _].
    destruct (VolumeSupported (m_DeviceInfo (dev (after ops w'))));
      cbn [negb]; [| eauto].
    destruct (Z.eqb_spec (m_uchFeatureUnitID (dev (after ops w')))
                         USB_AUDIO_UNDEFINED_UNIT_ID) as [E|];
      [exfalso; exact (Hunit eq_refl E) |].
    cbn [negb]. unfold ControlMessage.
    destruct (control_reply (host (after ops w')) _) as [result data].
    cbn [fst]. destruct (result <? 0); eauto.
  - split; [| lia]. intros (b & w2 & H). discriminate.
Qed.

Lemma configured_SetVolume_returns_witness :
  exists b w2,
    SetVolume 1 (-20)
      (after [CallSetup 48000; CallSetVolume 0 (-10)]
             (final (Configure Sample.with_volume)))
    = Returns b w2.
Proof.
  apply (configured_SetVolume_returns
           Sample.with_volume
           (final (Configure Sample.with_volume))
           [CallSetup 48000; CallSetVolume 0 (-10)] 1 (-20)).
  - vm_compute. reflexivity.
  - vm_compute. reflexivity.
  - lia.
Defined.

(** ** The sample rates of a v1.00 interface *)

(** The loop over the discrete sample rates of the format descriptor. *)
Lemma discrete_rates_loop (f : list Z) (count i : nat) (w : World) :
  exists w',
    for_loop count (Z.of_nat i)
      (fun i _ =>
         d ← get_dev;
         let r := default zero_range
                    (SampleRateRange (m_DeviceInfo d) !! Z.to_nat i) in
         let v := RATE2UNSIGNED (Desc.Ver100_tSamFreq f i) in
         set_range i (mkRange v v (Resolution r))) tt w
    = Returns tt w'
    /\ SampleRateRanges (m_DeviceInfo (dev w'))
       = SampleRateRanges (m_DeviceInfo (dev w))
    /\ length (SampleRateRange (m_DeviceInfo (dev w')))
       = length (SampleRateRange (m_DeviceInfo (dev w)))
    /\ (forall j, (j < i)%nat ->
          SampleRateRange (m_DeviceInfo (dev w')) !! j
          = SampleRateRange (m_DeviceInfo (dev w)) !! j)
    /\ (forall j, (i <= j < i + count)%nat ->
          (j < length (SampleRateRange (m_DeviceInfo (dev w))))%nat ->
          exists r,
            SampleRateRange (m_DeviceInfo (dev w')) !! j = Some r
            /\ Min r = RATE2UNSIGNED (Desc.Ver100_tSamFreq f (Z.of_nat j))
            /\ Max r = RATE2UNSIGNED (Desc.Ver100_tSamFreq f (Z.of_nat j))).
Proof.
  revert i w. induction count as [|count IH]; intros i w.
  - exists w. repeat split; auto. intros j Hj. lia.
  - cbn [for_loop]. unfold set_range, upd_info. run_M. cbv zeta.
    rewrite Nat2Z.id.
    match goal with
    | |- exists w', for_loop _ _ _ _ ?x = _ /\ _ => set (w1 := x)
    end.
    replace (Z.of_nat i + 1) with (Z.of_nat (S i)) by lia.
    destruct (IH (S i) w1) as (w' & Hrun & Hn & Hlen & Hlow & Hhigh).
    assert (Hn1 : SampleRateRanges (m_DeviceInfo (dev w1))
                  = SampleRateRanges (m_DeviceInfo (dev w))).
    { subst w1. destruct w as [d h fn c r t]. destruct d. reflexivity. }
    assert (Hl1 : SampleRateRange (m_DeviceInfo (dev w1))
                  = <[i := mkRange
                             (RATE2UNSIGNED
                                (Desc.Ver100_tSamFreq f (Z.of_nat i)))
                             (RATE2UNSIGNED
                                (Desc.Ver100_tSamFreq f (Z.of_nat i)))
                             (Resolution
                                (default zero_range
                                   (SampleRateRange (m_DeviceInfo (dev w))
                                    !! i)))]>
                      (SampleRateRange (m_DeviceInfo (dev w)))).
    { subst w1. destruct w as [d h fn c r t]. destruct d. reflexivity. }
    clearbody w1. exists w'. split; [exact Hrun |].
    rewrite Hl1 in Hlen, Hlow, Hhigh.
    rewrite length_insert in Hlen, Hhigh.
    split; [congruence |]. split; [exact Hlen |]. split.
    + intros j Hj. rewrite Hlow by lia.
      apply list_lookup_insert_ne. lia.
    + intros j Hj Hjl. destruct (decide (j = i)) as [->|Hne].
      * rewrite Hlow by lia.
        rewrite list_lookup_insert_eq by exact Hjl.
        eexists. split; [reflexivity |]. split; reflexivity.
      * apply Hhigh; [lia | exact Hjl].
Qed.

Lemma Configure_Ver100_discrete (c : ControlDevice) (g f : list Z)
  (w w' : World) (b : bool) :
  Configure_Ver100 c g f w = Returns b w' ->
  length (SampleRateRange (m_DeviceInfo (dev w)))
  = Z.to_nat MaxSampleRatesRanges ->
  0 < Desc.Ver100_bSamFreqType f ->
  let n := Z.min (Desc.Ver100_bSamFreqType f) MaxSampleRatesRanges in
  SampleRateRanges (m_DeviceInfo (dev w')) = n
  /\ forall i, 0 <= i < n ->
       Min (range_at (m_DeviceInfo (dev w')) i)
       = RATE2UNSIGNED (Desc.Ver100_tSamFreq f i)
       /\ Max (range_at (m_DeviceInfo (dev w')) i)
          = RATE2UNSIGNED (Desc.Ver100_tSamFreq f i).
Proof.
  intros H Hlen Hpos n. unfold Configure_Ver100 in H.
  bind_inv_in H u1 w1 E1.
  bind_inv_in H u2 w2 E2.
  assert (Hrest : rate_view w' = rate_view w2).
  { match type of H with
    | ?m w2 = _ =>
        apply (respects_returns rate_view m w2 w' b); [| exact H]
    end.
    unfold upd_info. cbv zeta. repeat respects_step. }
  clear H.
  destruct (Z.eqb_spec (Desc.Ver100_bSamFreqType f) 0) as [|_]; [lia |].
  cbv zeta in E2. fold n in E2.
  assert (En : (if Desc.Ver100_bSamFreqType f >? MaxSampleRatesRanges
                then MaxSampleRatesRanges else Desc.Ver100_bSamFreqType f)
               = n).
  { subst n. destruct (Z.gtb_spec (Desc.Ver100_bSamFreqType f)
                                  MaxSampleRatesRanges); lia. }
  rewrite En in E2.
  bind_inv_in E2 u3 w3 E3.
  destruct (discrete_rates_loop f (Z.to_nat n) 0 w3)
    as (w4 & Hrun & Hn & Hl & _ & Hhigh).
  change (Z.of_nat 0) with 0 in Hrun. cbv zeta in Hrun. rewrite Hrun in E2.
  injection E2 as _ <-.
  assert (Hl1 : SampleRateRange (m_DeviceInfo (dev w1))
                = SampleRateRange (m_DeviceInfo (dev w))).
  { unfold upd_info, upd_dev in E1. injection E1 as _ <-.
    destruct w as [d h fn c0 r t]. destruct d. reflexivity. }
  assert (H3 : SampleRateRange (m_DeviceInfo (dev w3))
               = SampleRateRange (m_DeviceInfo (dev w1))
               /\ SampleRateRanges (m_DeviceInfo (dev w3)) = n).
  { unfold upd_info, upd_dev in E3. injection E3 as _ <-.
    destruct w1 as [d h fn c0 r t]. destruct d. split; reflexivity. }
  destruct H3 as [Hl3 Hn3].
  unfold rate_view in Hrest. injection Hrest as Hr1 Hr2.
  split.
  - congruence.
  - intros i Hi. unfold range_at. rewrite Hr2.
    destruct (Hhigh (Z.to_nat i)) as (r & -> & Hmin & Hmax).
    + lia.
    + rewrite Hl3, Hl1, Hlen. subst n. unfold MaxSampleRatesRanges in *. lia.
    + rewrite Z2Nat.id in Hmin, Hmax by lia.
      cbn [default from_option id]. auto.
Qed.

(** X16. A v1.00 format descriptor that lists discrete sample rates gives
    a table of at most eight entries: the rate check of [Setup] accepts
    exactly the first eight listed rates, and for any other rate [Setup]
    returns FALSE and leaves the world as it was. *)
Theorem Configure_Ver100_discrete_rates (c : ControlDevice) (g f : list Z)
  (w w' : World) (b : bool) :
  Configure_Ver100 c g f w = Returns b w' ->
  length (SampleRateRange (m_DeviceInfo (dev w)))
  = Z.to_nat MaxSampleRatesRanges ->
  0 < Desc.Ver100_bSamFreqType f ->
  let n := Z.min (Desc.Ver100_bSamFreqType f) MaxSampleRatesRanges in
  let listed nSampleRate :=
    exists i, 0 <= i < n
              /\ nSampleRate = RATE2UNSIGNED (Desc.Ver100_tSamFreq f i) in
  SampleRateRanges (m_DeviceInfo (dev w')) = n
  /\ (forall nSampleRate,
        Setup_supported (m_DeviceInfo (dev w')) nSampleRate = true
        <-> listed nSampleRate)
  /\ (forall nSampleRate,
        ~ listed nSampleRate -> Setup nSampleRate w' = Returns false w').
Proof.
  intros H Hlen Hpos n listed.
  destruct (Configure_Ver100_discrete c g f w w' b H Hlen Hpos)
    as [Hn Hranges].
  fold n in Hn, Hranges.
  assert (Hiff : forall nSampleRate,
            Setup_supported (m_DeviceInfo (dev w')) nSampleRate = true
            <-> listed nSampleRate).
  { intros nSampleRate. rewrite Setup_supported_iff, Hn.
    unfold literal_match, listed.
    split; intros (i & Hi & Hm); exists i; (split; [exact Hi |]);
      destruct (Hranges i Hi) as [Hmin Hmax].
    - rewrite Hmin, Hmax in Hm. lia.
    - rewrite Hmin, Hmax. lia. }
  split; [exact Hn |]. split; [exact Hiff |].
  intros nSampleRate Hno.
  pose proof (Setup_run nSampleRate w') as Hrun. cbn zeta in Hrun.
  destruct (Setup_supported (m_DeviceInfo (dev w')) nSampleRate) eqn:E;
    cbn [negb] in Hrun; [| exact Hrun].
  exfalso. apply Hno, Hiff. exact E.
Qed.

Lemma Configure_Ver100_discrete_rates_witness :
  Setup_supported
    (m_DeviceInfo
       (dev (final (Configure_Ver100 Sample.control [7; 36; 1; 1; 1; 1; 0]
                      [14; 36; 2; 1; 2; 2; 16; 2; 68; 172; 0; 128; 187; 0]
                      (Sample.world USBSpeedFull [])))))
    (RATE2UNSIGNED
       (Desc.Ver100_tSamFreq
          [14; 36; 2; 1; 2; 2; 16; 2; 68; 172; 0; 128; 187; 0] 1)) = true.
Proof.
  apply (Configure_Ver100_discrete_rates Sample.control [7; 36; 1; 1; 1; 1; 0]
           [14; 36; 2; 1; 2; 2; 16; 2; 68; 172; 0; 128; 187; 0]
           (Sample.world USBSpeedFull [])
           (final (Configure_Ver100 Sample.control [7; 36; 1; 1; 1; 1; 0]
                     [14; 36; 2; 1; 2; 2; 16; 2; 68; 172; 0; 128; 187; 0]
                     (Sample.world USBSpeedFull [])))
           true).
  - vm_compute. reflexivity.
  - vm_compute. reflexivity.
  - vm_compute. reflexivity.
  - exists 1. split; [| reflexivity].
    vm_compute. split; [discriminate | reflexivity].
Defined.

(** ** The sample rate on the wire *)

Lemma RATE2UNSIGNED_to_bytes (v : Z) :
  RATE2UNSIGNED (Int.to_bytes 3 v) = v mod 2 ^ 24.
Proof.
  unfold RATE2UNSIGNED, byte_at.
  cbn [Int.to_bytes lookup list_lookup default from_option id].
  rewrite <- (Z.land_ones v 24) by lia.
  change 255 with (Z.ones 8).
  Z.bitblast.
Qed.

Lemma byte_step (v k : Z) :
  0 <= k ->
  Z.lor (Z.land (Z.land v 255) 255)
        (Z.shiftl (Z.land (Z.shiftr v 8) (Z.ones k)) 8)
  = Z.land v (Z.ones (8 + k)).
Proof. intros Hk. change 255 with (Z.ones 8). Z.bitblast. Qed.

Lemma of_to_bytes (n : nat) (v : Z) :
  Int.of_bytes (Int.to_bytes n v) = v mod 2 ^ (8 * Z.of_nat n).
Proof.
  revert v. induction n as [|n IH]; intros v.
  - cbn. apply eq_sym, Z.mod_1_r.
  - cbn [Int.to_bytes Int.of_bytes]. rewrite IH.
    rewrite <- !Z.land_ones by lia.
    rewrite byte_step by lia. f_equal. f_equal. lia.
Qed.

Lemma of_to_bytes_4 (v : Z) : Int.of_bytes (Int.to_bytes 4 v) = Int.u32 v.
Proof. apply (of_to_bytes 4). Qed.

Lemma Setup_tail_host (nSampleRate : Z) (d : Device) :
  respects host
    ((if m_bSynchronousSync d then UpdateChunkSize
      else upd_dev (set_nChunkSizeBytes
                      (Int.u32 (nSampleRate * CHANNELS * SUBFRAME_SIZE)
                       / CHUNK_FREQUENCY)));;
     mret true).
Proof. unfold UpdateChunkSize. cbv zeta. repeat respects_step. Qed.

(** X17. A [Setup] that returns TRUE has sent one SET_CUR request that the
    device accepted, and the request carries the rate asked for in the
    encoding that [Configure] reads: three bytes that [RATE2UNSIGNED] turns
    back into the rate (modulo 2^24) for a v1.00 interface, four little
    endian bytes addressed to the clock source for a v2.00 interface. *)
Theorem Setup_sends_the_rate (nSampleRate : Z) (w w' : World) :
  Setup nSampleRate w = Returns true w' ->
  exists req,
    control_log (host w') = control_log (host w) ++ [req]
    /\ 0 <= (control_reply (host w) req).1
    /\ ucRequest req = USB_AUDIO_REQ_SET_CUR
    /\ usValue req = Z.shiftl USB_AUDIO_CS_SAM_FREQ_CONTROL 8
    /\ if m_bVer200 (dev w)
       then usIndex req = Z.shiftl (m_uchClockSourceID (dev w)) 8
            /\ usDataSize req = 4
            /\ Int.of_bytes (out_data req) = Int.u32 nSampleRate
       else usDataSize req = 3
            /\ RATE2UNSIGNED (out_data req) = nSampleRate mod 2 ^ 24.
Proof.
  intros Hrun.
  pose proof (Setup_run nSampleRate w) as H. cbn zeta in H.
  destruct (Setup_supported (m_DeviceInfo (dev w)) nSampleRate);
    cbn [negb] in H; [| congruence].
  destruct (Setup_request (dev w) nSampleRate) as [req|] eqn:Hreq;
    [| congruence].
  destruct (Z.ltb_spec (control_reply (host w) req).1 0) as [|Hreply];
    [congruence |].
  rewrite H in Hrun. clear H.
  pose proof (respects_returns host _ _ _ _
                (Setup_tail_host nSampleRate (dev w)) Hrun) as Hhost.
  exists req. rewrite Hhost. split; [reflexivity |]. split; [exact Hreply |].
  unfold Setup_request in Hreq.
  destruct (m_bVer200 (dev w)); cbn [negb] in Hreq.
  - destruct (m_uchClockSourceID (dev w) =? USB_AUDIO_UNDEFINED_UNIT_ID);
      [discriminate |].
    injection Hreq as <-. cbn. repeat split. apply of_to_bytes_4.
  - destruct (m_pEndpointOut (dev w)); [| discriminate].
    injection Hreq as <-.
    cbn [ucRequest usValue usDataSize out_data]. repeat split.
    apply RATE2UNSIGNED_to_bytes.
Qed.

Lemma Setup_sends_the_rate_witness :
  exists req,
    control_log (host (final (Setup 48000
                   (final (Configure (Sample.asynchronous USBSpeedFull))))))
    = control_log (host (final (Configure (Sample.asynchronous USBSpeedFull))))
      ++ [req]
    /\ RATE2UNSIGNED (out_data req) = 48000 mod 2 ^ 24.
Proof.
  destruct (Setup_sends_the_rate 48000
              (final (Configure (Sample.asynchronous USBSpeedFull)))
              (final (Setup 48000
                        (final (Configure
                                  (Sample.asynchronous USBSpeedFull))))))
    as (req & Hlog & _ & _ & _ & Hrate).
  - vm_compute. reflexivity.
  - exists req. split; [exact Hlog |].
    replace (m_bVer200 (dev (final (Configure
                                      (Sample.asynchronous USBSpeedFull)))))
      with false in Hrate by (vm_compute; reflexivity).
    exact (proj2 Hrate).
Defined.

(** ** The completion routine of the caller *)

Lemma take_request_app (sync : bool) (l l' : list (CUSBRequest * bool)) :
  take_request sync l = None ->
  take_request sync (l ++ l')
  = match take_request sync l' with
    | Some (u, rest) => Some (u, l ++ rest)
    | None => None
    end.
Proof.
  induction l as [|p l IH]; cbn [take_request app].
  - intros _. destruct (take_request sync l') as [[u rest]|]; reflexivity.
  - destruct (Bool.eqb (is_sync_urb p.1) sync); [discriminate |].
    destruct (take_request sync l) as [[u rest]|] eqn:E; [discriminate |].
    intros _. rewrite (IH eq_refl).
    destruct (take_request sync l') as [[u rest]|]; reflexivity.
Qed.

Lemma UpdateChunkSize_true_host :
  respects host (UpdateChunkSize;; mret true).
Proof. unfold UpdateChunkSize. cbv zeta. repeat respects_step. Qed.

(** What an accepted [SendChunk] leaves at the host: the data transfer
    behind the requests that were pending, a feedback read behind it or
    nothing, and the callbacks as they were. *)
Lemma SendChunk_true_pending (pBuffer nChunkSizeBytes : Z)
  (pCompletionRoutine : option Z) (pParam : Z) (w w1 : World) :
  SendChunk pBuffer nChunkSizeBytes pCompletionRoutine pParam w
  = Returns true w1 ->
  exists pURB flag tail,
    urb_completion pURB = ToCompletionHandler pParam pCompletionRoutine
    /\ pending (host w1) = pending (host w) ++ (pURB, flag) :: tail
    /\ take_request false tail = None
    /\ callbacks (host w1) = callbacks (host w).
Proof.
  intros Hrun.
  destruct (Z.eq_dec pBuffer 0) as [->|Hb]; [discriminate Hrun |].
  destruct (m_pEndpointOut (dev w)) as [pEndpointOut|] eqn:He; cycle 1.
  { unfold SendChunk in Hrun. revert Hrun. run_M.
    destruct (negb (pBuffer =? 0)); [| discriminate].
    rewrite He. discriminate. }
  assert (Hp : m_bSynchronousSync (dev w) = true ->
               0 < m_nPacketsPerChunk (dev w)).
  { intros Hs. destruct (Z.ltb_spec 0 (m_nPacketsPerChunk (dev w)))
      as [Hlt|Hge]; [exact Hlt | exfalso].
    unfold SendChunk in Hrun. revert Hrun. run_M.
    destruct (negb (pBuffer =? 0)); [| discriminate].
    rewrite He, Hs. apply Z.ltb_ge in Hge. rewrite Hge. discriminate. }
  pose proof (SendChunk_run pBuffer nChunkSizeBytes pCompletionRoutine
                pParam w pEndpointOut Hb He Hp) as H.
  cbn zeta in H. rewrite H in Hrun. clear H.
  set (pURB := data_urb (dev w) pEndpointOut pBuffer nChunkSizeBytes
                        pCompletionRoutine pParam) in *.
  destruct (submit_reply (host w) (submit_count (host w)) pURB) eqn:Hok;
    [| discriminate].
  assert (H1 : pending (host (data_submitted pURB w))
               = pending (host w) ++ [(pURB, m_bSyncEPActive (dev w))]
               /\ callbacks (host (data_submitted pURB w))
                  = callbacks (host w)).
  { unfold data_submitted, SubmitAsyncRequest. rewrite Hok.
    destruct w as [d h f c r t]. split; reflexivity. }
  destruct H1 as [Hpend Hcalls].
  set (w0 := data_submitted pURB w) in *. clearbody w0.
  assert (Hupd : forall w2,
            (UpdateChunkSize;; mret true) w0 = Returns true w2 ->
            host w2 = host w0).
  { intros w2 E.
    exact (respects_returns host _ w0 w2 true UpdateChunkSize_true_host E). }
  assert (Hplain : forall w2, host w2 = host w0 ->
            exists pURB' flag tail,
              urb_completion pURB'
              = ToCompletionHandler pParam pCompletionRoutine
              /\ pending (host w2) = pending (host w) ++ (pURB', flag) :: tail
              /\ take_request false tail = None
              /\ callbacks (host w2) = callbacks (host w)).
  { intros w2 ->. exists pURB, (m_bSyncEPActive (dev w)), [].
    rewrite Hpend, Hcalls. repeat split. }
  destruct (m_pEndpointSync (dev w)) as [pEndpointSync|].
  - destruct (m_bSyncEPActive (dev w)) eqn:Hflag; cbn [negb] in Hrun.
    + destruct (m_bSynchronousSync (dev w)).
      * apply Hplain, Hupd, Hrun.
      * injection Hrun as <-. apply Hplain. reflexivity.
    + unfold SubmitAsyncRequest in Hrun. injection Hrun as Hok2 <-.
      cbn [host with_host with_dev] in Hok2 |- *. rewrite Hok2.
      exists pURB, false, [(feedback_urb pEndpointSync (Speed (host w)), true)].
      cbn [pending set_submitted callbacks]. rewrite Hpend, Hcalls.
      rewrite <- app_assoc. repeat split.
  - destruct (m_bSynchronousSync (dev w)).
    + apply Hplain, Hupd, Hrun.
    + injection Hrun as <-. apply Hplain. reflexivity.
Qed.

(** X18. The completion routine comes back to the caller: when no data
    transfer is outstanding and [SendChunk] returns TRUE, the next data
    completion calls the routine of that call once with its parameter (and
    calls nothing when the call gave no routine), leaves the device as it
    is, and no data transfer is outstanding afterwards. *)
Theorem SendChunk_completion_round_trip (pBuffer nChunkSizeBytes : Z)
  (pCompletionRoutine : option Z) (pParam : Z) (w w1 : World) :
  SendChunk pBuffer nChunkSizeBytes pCompletionRoutine pParam w
  = Returns true w1 ->
  take_request false (pending (host w)) = None ->
  exists w2,
    fire DataCompletes w1 = Some (Returns tt w2)
    /\ callbacks (host w2)
       = callbacks (host w)
         ++ match pCompletionRoutine with
            | Some routine => [(routine, pParam)]
            | None => []
            end
    /\ dev w2 = dev w1
    /\ take_request false (pending (host w2)) = None.
Proof.
  intros Hrun Hnone.
  destruct (SendChunk_true_pending _ _ _ _ _ _ Hrun)
    as (pURB & flag & tail & Hc & Hpend & Htail & Hcalls).
  unfold fire. rewrite Hpend, (take_request_app false _ _ Hnone).
  cbn [take_request fst]. unfold is_sync_urb. rewrite Hc.
  cbn [Bool.eqb]. rewrite Hc.
  assert (Hrest : take_request false (pending (host w) ++ tail) = None).
  { rewrite (take_request_app false _ _ Hnone), Htail. reflexivity. }
  destruct pCompletionRoutine as [routine|]; cbn [CompletionHandler].
  - eexists. split; [reflexivity |].
    destruct w1 as [d h f c r t]. cbn in *. rewrite Hcalls. auto.
  - eexists. split; [reflexivity |].
    destruct w1 as [d h f c r t]. cbn in *.
    rewrite Hcalls, app_nil_r. auto.
Qed.

Lemma SendChunk_completion_round_trip_witness :
  exists w2,
    fire DataCompletes
      (final (SendChunk 8192 192 (Some 77) 5
                (Sample.started (Sample.asynchronous USBSpeedFull) 48000)))
    = Some (Returns tt w2)
    /\ callbacks (host w2) = [(77, 5)].
Proof.
  destruct (SendChunk_completion_round_trip 8192 192 (Some 77) 5
              (Sample.started (Sample.asynchronous USBSpeedFull) 48000)
              (final (SendChunk 8192 192 (Some 77) 5
                        (Sample.started (Sample.asynchronous USBSpeedFull)
                                        48000))))
    as (w2 & Hfire & Hcalls & _).
  - vm_compute. reflexivity.
  - vm_compute. reflexivity.
  - exists w2. split; [exact Hfire |].
    rewrite Hcalls. vm_compute. reflexivity.
Defined.

(** ** The destructor *)

